(** * dx.py: HF propagation command-line client

    A shallow embedding of [dx.py] (the renderers [format_standard],
    [format_compact], [format_json], the alert predicate [check_alert] and
    the band selection of [main]) together with the properties its
    specification states about them.

    The fetched document is the value [json.loads] produced, so it is
    modelled as a tree of Python objects ([json]); a Python [dict] is an
    association list in insertion order.  Operations that raise in Python
    return [Raise] here.  Strings are UTF-8 byte strings; lengths used for
    padding count code points, as Python's [len] does.

    Numbers: a JSON integer is a [Z]; a JSON float is its exact rational
    value, or an infinity, or NaN.  The sign of a floating-point zero is
    not represented. *)

From Stdlib Require Import String Ascii List ZArith QArith Lia Bool.
From Stdlib Require Import DecimalString DecimalPos DecimalZ.
Import ListNotations.

Local Close Scope Q_scope.
Local Open Scope list_scope.
Local Open Scope string_scope.

(* ================================================================== *)
(** * Python objects and exceptions *)

Inductive pyfloat : Type :=
| FFinite (q : Q)
| FInf (negative : bool)
| FNaN.

#[warnings="-register-all"]
Inductive json : Type :=
| JNull
| JBool (b : bool)
| JInt (n : Z)
| JFloat (x : pyfloat)
| JStr (s : string)
| JArr (items : list json)
| JObj (fields : list (string * json)).

(** A Python [dict] with string keys, in insertion order. *)
Definition dict : Type := list (string * json).

Inductive exn : Type :=
| TypeError
| AttributeError
| ValueError
| KeyError
| OverflowError
| OSError.

Inductive result (A : Type) : Type :=
| Ok (a : A)
| Raise (e : exn).

Arguments Ok {A} a.
Arguments Raise {A} e.

Definition bind {A B : Type} (r : result A) (k : A -> result B) : result B :=
  match r with
  | Ok a => k a
  | Raise e => Raise e
  end.

Notation "x <- r ;; k" := (bind r (fun x => k))
  (at level 61, r at next level, right associativity).

(** [try: body / except: pass] around a block that yields extra lines. *)
Definition try_except_pass {A : Type} (body : result (list A)) : list A :=
  match body with
  | Ok l => l
  | Raise _ => []
  end.

(* ================================================================== *)
(** * Strings *)

Definition nl : string := String (ascii_of_nat 10) "".

(** A byte that continues a UTF-8 sequence has the form [10xxxxxx]. *)
Definition is_continuation (c : ascii) : bool :=
  match c with
  | Ascii _ _ _ _ _ _ false true => true
  | _ => false
  end.

(** Python's [len] on a [str]: the number of code points. *)
Fixpoint py_len (s : string) : nat :=
  match s with
  | EmptyString => 0
  | String c s' => if is_continuation c then py_len s' else S (py_len s')
  end.

Fixpoint str_repeat (n : nat) (s : string) : string :=
  match n with
  | O => ""
  | S n' => s ++ str_repeat n' s
  end.

(** The format spec [<w]: left-aligned, padded with spaces to width [w]. *)
Definition ljust (w : nat) (s : string) : string :=
  s ++ str_repeat (w - py_len s) " ".

Fixpoint str_drop (n : nat) (s : string) : string :=
  match n, s with
  | O, _ => s
  | S n', String _ s' => str_drop n' s'
  | S _, EmptyString => ""
  end.

(** [s.startswith(p)] *)
Definition startswith (p s : string) : bool := String.prefix p s.

(** [sub in s] on two strings. *)
Fixpoint str_contains (sub s : string) : bool :=
  String.prefix sub s ||
  match s with
  | EmptyString => false
  | String _ s' => str_contains sub s'
  end.

(** [s.replace(old, new)] for a non-empty [old]: scanning from the left,
    every non-overlapping occurrence is replaced.  [skip] counts the
    bytes of an occurrence still to be passed over. *)
Fixpoint replace_from (old new : string) (skip : nat) (s : string) : string :=
  match s with
  | EmptyString => ""
  | String c s' =>
      match skip with
      | S k => replace_from old new k s'
      | O =>
          if String.prefix old s
          then new ++ replace_from old new (String.length old - 1) s'
          else String c (replace_from old new 0 s')
      end
  end.

Definition str_replace (old new s : string) : string :=
  replace_from old new 0 s.

(** [sep.join(parts)] *)
Definition join (sep : string) (parts : list string) : string :=
  String.concat sep parts.

Definition str_in (x : string) (l : list string) : bool :=
  existsb (String.eqb x) l.

(** [l.index(x)], when [x] is in [l]. *)
Fixpoint list_index (x : string) (l : list string) : option nat :=
  match l with
  | [] => None
  | y :: l' =>
      if String.eqb x y then Some O
      else option_map S (list_index x l')
  end.

Fixpoint list_eqb (l1 l2 : list string) : bool :=
  match l1, l2 with
  | [], [] => true
  | x :: l1', y :: l2' => String.eqb x y && list_eqb l1' l2'
  | _, _ => false
  end.

(* ================================================================== *)
(** * Dictionaries *)

Fixpoint dict_get (k : string) (d : dict) : option json :=
  match d with
  | [] => None
  | (k', v) :: d' => if String.eqb k k' then Some v else dict_get k d'
  end.

(** [k in d] *)
Definition dict_has (k : string) (d : dict) : bool :=
  match dict_get k d with
  | Some _ => true
  | None => false
  end.

(** [d.get(k, default)] *)
Definition dict_get_default (k : string) (default : json) (d : dict) : json :=
  match dict_get k d with
  | Some v => v
  | None => default
  end.

(** [d[k] = v]: an existing key keeps its place, a new one goes last. *)
Fixpoint dict_set (k : string) (v : json) (d : dict) : dict :=
  match d with
  | [] => [(k, v)]
  | (k', v') :: d' =>
      if String.eqb k k' then (k', v) :: d'
      else (k', v') :: dict_set k v d'
  end.

(** The document without the key [k]. *)
Fixpoint dict_remove (k : string) (d : dict) : dict :=
  match d with
  | [] => []
  | (k', v) :: d' =>
      if String.eqb k k' then dict_remove k d'
      else (k', v) :: dict_remove k d'
  end.

Definition dict_keys (d : dict) : list string := map fst d.

(* ================================================================== *)
(** * Operations on arbitrary objects *)

(** [bool(v)] *)
Definition truthy (v : json) : bool :=
  match v with
  | JNull => false
  | JBool b => b
  | JInt n => negb (n =? 0)%Z
  | JFloat (FFinite q) => negb (Qeq_bool q 0)
  | JFloat _ => true
  | JStr s => negb (String.eqb s "")
  | JArr items => match items with [] => false | _ => true end
  | JObj fields => match fields with [] => false | _ => true end
  end.

(** [v.get(k, default)]: only a [dict] has the method. *)
Definition py_get (v : json) (k : string) (default : json) : result json :=
  match v with
  | JObj d => Ok (dict_get_default k default d)
  | _ => Raise AttributeError
  end.

(** [k in v] for a string [k]. *)
Definition py_contains (k : string) (v : json) : result bool :=
  match v with
  | JObj d => Ok (dict_has k d)
  | JArr items =>
      Ok (existsb (fun x => match x with
                            | JStr s => String.eqb k s
                            | _ => false
                            end) items)
  | JStr s => Ok (str_contains k s)
  | _ => Raise TypeError
  end.

(** [v[k]] for a string [k]. *)
Definition py_getitem (v : json) (k : string) : result json :=
  match v with
  | JObj d =>
      match dict_get k d with
      | Some x => Ok x
      | None => Raise KeyError
      end
  | _ => Raise TypeError
  end.

(** The numeric value of an object that takes part in arithmetic
    comparisons and in the [f] presentation type. *)
Definition as_num (v : json) : option pyfloat :=
  match v with
  | JInt n => Some (FFinite (inject_Z n))
  | JFloat x => Some x
  | JBool b => Some (FFinite (if b then 1 else 0))
  | _ => None
  end.

Definition num_geb (x : pyfloat) (c : Z) : bool :=
  match x with
  | FFinite q => Qle_bool (inject_Z c) q
  | FInf negative => negb negative
  | FNaN => false
  end.

Definition num_gtb (x : pyfloat) (c : Z) : bool :=
  match x with
  | FFinite q => negb (Qle_bool q (inject_Z c))
  | FInf negative => negb negative
  | FNaN => false
  end.

(** [v >= c] and [v > c] against an integer literal. *)
Definition py_ge (v : json) (c : Z) : result bool :=
  match as_num v with
  | Some x => Ok (num_geb x c)
  | None => Raise TypeError
  end.

Definition py_gt (v : json) (c : Z) : result bool :=
  match as_num v with
  | Some x => Ok (num_gtb x c)
  | None => Raise TypeError
  end.

(** ** The [f] presentation type *)

(** Rounding to the nearest integer, ties to the even one. *)
Definition round_half_even (q : Q) : Z :=
  let n := Qnum q in
  let d := Zpos (Qden q) in
  let a := (n / d)%Z in
  let r := (n mod d)%Z in
  if (2 * r <? d)%Z then a
  else if (d <? 2 * r)%Z then (a + 1)%Z
  else if Z.even a then a else (a + 1)%Z.

Definition decimal (n : Z) : string :=
  NilZero.string_of_int (Z.to_int n).

(** Right-aligned, padded with zeros to width [w]. *)
Definition zfill (w : nat) (s : string) : string :=
  str_repeat (w - String.length s) "0" ++ s.

(** [format(q, '.<prec>f')] for a finite [q]. *)
Definition fixed (prec : nat) (q : Q) : string :=
  let scale := (10 ^ Z.of_nat prec)%Z in
  let m := Z.abs (round_half_even (q * inject_Z scale)) in
  let sign := if Qle_bool 0 q then "" else "-" in
  let whole := decimal (m / scale) in
  match prec with
  | O => sign ++ whole
  | S _ => sign ++ whole ++ "." ++ zfill prec (decimal (m mod scale))
  end.

Definition num_fixed (prec : nat) (x : pyfloat) : string :=
  match x with
  | FFinite q => fixed prec q
  | FInf negative => if negative then "-inf" else "inf"
  | FNaN => "nan"
  end.

(** [float(n)] for an int: exact below 2^53; beyond, the nearest float,
    ties to the even significand; [OverflowError] when that is 2^1024 or
    more. *)
Definition float_of_int (n : Z) : result pyfloat :=
  let a := Z.abs n in
  if (a <? 2 ^ 53)%Z then Ok (FFinite (inject_Z n))
  else
    let e := (Z.log2 a - 52)%Z in
    let q := (a / 2 ^ e)%Z in
    let r := (a mod 2 ^ e)%Z in
    let half := (2 ^ (e - 1))%Z in
    let q' := if (half <? r)%Z || ((half =? r)%Z && Z.odd q)
              then (q + 1)%Z else q in
    let v := (q' * 2 ^ e)%Z in
    if (2 ^ 1024 <=? v)%Z then Raise OverflowError
    else Ok (FFinite (inject_Z (Z.sgn n * v))).

(** The float that the [f] presentation type formats: a float as it is,
    an int or a boolean converted by [float]; a [str] rejects the format
    code, everything else has no such format. *)
Definition float_value (v : json) : result pyfloat :=
  match v with
  | JFloat x => Ok x
  | JInt n => float_of_int n
  | JBool b => Ok (FFinite (if b then 1 else 0))
  | JStr _ => Raise ValueError
  | _ => Raise TypeError
  end.

(** [format(v, '.<prec>f')] *)
Definition format_f (prec : nat) (v : json) : result string :=
  x <- float_value v ;;
  Ok (num_fixed prec x).

(* ================================================================== *)
(** * The Python runtime the program calls into

    Library functions whose code is not part of the program: [repr] of an
    object that is not a string, [datetime.fromisoformat] ([None] when it
    raises), [strftime] with the format ['%Y-%m-%d %H:%M'], and
    [json.dumps] with [indent=2].  For [json.dumps] a model is given
    further down ([json_text], and the runtime [with_json_dumps] that
    uses it), together with one of [json.loads]. *)

Class Runtime : Type := {
  datetime : Type;
  fromisoformat : string -> option datetime;
  strftime : datetime -> string;
  repr : json -> string;
  dumps : json -> string
}.

(* ================================================================== *)
(** * The program *)

Section Program.

Context {RT : Runtime}.

(** [str(v)], also what an f-string field without a format spec shows. *)
Definition py_str (v : json) : string :=
  match v with
  | JStr s => s
  | _ => repr v
  end.

(** [v.replace(old, new)]: a [str] method. *)
Definition py_replace (v : json) (old new : string) : result string :=
  match v with
  | JStr s => Ok (str_replace old new s)
  | _ => Raise AttributeError
  end.

Definition py_fromisoformat (s : string) : result datetime :=
  match fromisoformat s with
  | Some ts => Ok ts
  | None => Raise ValueError
  end.

Definition ALL_BANDS : list string := ["10m"; "15m"; "20m"; "40m"].

Definition SYMBOLS : list (string * string) :=
  [("Excellent", "🔵"); ("Good", "🟢"); ("Fair", "🟠"); ("Poor", "🔴");
   ("VeryPoor", "⚫")].

Definition SYMBOLS_ASCII : list (string * string) :=
  [("Excellent", "[++++]"); ("Good", "[+++ ]"); ("Fair", "[++  ]");
   ("Poor", "[+   ]"); ("VeryPoor", "[    ]")].

Fixpoint table_get (k : string) (t : list (string * string)) : option string :=
  match t with
  | [] => None
  | (k', v) :: t' => if String.eqb k k' then Some v else table_get k t'
  end.

(** [symbols.get(key, default)]: a list or a dict cannot be hashed. *)
Definition symbols_get (symbols : list (string * string)) (key : json)
    (default : string) : result string :=
  match key with
  | JStr s =>
      Ok (match table_get s symbols with
          | Some v => v
          | None => default
          end)
  | JArr _ | JObj _ => Raise TypeError
  | _ => Ok default
  end.

(** ** format_standard *)

Definition banner : string :=
  "═══════════════════════════════════════════════════════".

Definition title : string := "  HF DX INDEX - Current Conditions".

Definition table_header : string :=
  "  " ++ ljust 6 "Band" ++ " " ++ ljust 8 "Now" ++ " "
       ++ ljust 18 "Rating" ++ " " ++ ljust 12 "Tomorrow".

Definition table_rule : string := "  " ++ str_repeat 48 "─".

(** The timestamp block: whatever the [try] body raises is swallowed. *)
Definition updated_lines (data : dict) : list string :=
  if dict_has "updated" data then
    try_except_pass
      (u <- py_getitem (JObj data) "updated" ;;
       s <- py_replace u "Z" "+00:00" ;;
       ts <- py_fromisoformat s ;;
       Ok ["  Updated: " ++ strftime ts ++ " UTC"])
  else [].

(** [vs_typical and vs_typical > 20] as the condition of an [if]. *)
Definition above_typical (vs_typical : json) : result bool :=
  if truthy vs_typical then py_gt vs_typical 20 else Ok false.

Definition standard_row (symbols : list (string * string)) (use_ascii : bool)
    (band : string) (d : json) : result string :=
  idx <- py_get d "index" (JInt 0) ;;
  rating <- py_get d "rating" (JStr "?") ;;
  symbol <- symbols_get symbols rating "?" ;;
  fcst <- py_get d "forecast" (JInt 0) ;;
  fcst_rating <- py_get d "forecast_rating" (JStr "?") ;;
  vs_typical <- py_get d "vs_typical" JNull ;;
  peak <- above_typical vs_typical ;;
  let rating_str :=
    if peak then
      if use_ascii
      then symbol ++ " " ++ py_str rating ++ " +" ++ py_str vs_typical ++ "%"
      else symbol ++ " " ++ py_str rating ++ " ⬆+" ++ py_str vs_typical ++ "%"
    else symbol ++ " " ++ py_str rating in
  idx_s <- format_f 1 idx ;;
  fcst_s <- format_f 1 fcst ;;
  Ok ("  " ++ ljust 6 band ++ " " ++ ljust 8 idx_s ++ " "
           ++ ljust 18 rating_str ++ " " ++ fcst_s
           ++ " (" ++ py_str fcst_rating ++ ")").

Fixpoint standard_rows (symbols : list (string * string)) (use_ascii : bool)
    (band_data : json) (bands : list string) : result (list string) :=
  match bands with
  | [] => Ok []
  | band :: rest =>
      present <- py_contains band band_data ;;
      if present then
        d <- py_getitem band_data band ;;
        row <- standard_row symbols use_ascii band d ;;
        rows <- standard_rows symbols use_ascii band_data rest ;;
        Ok (row :: rows)
      else standard_rows symbols use_ascii band_data rest
  end.

Definition solar_lines (data : dict) : result (list string) :=
  let solar := dict_get_default "solar" (JObj []) data in
  sfi <- py_get solar "sfi" JNull ;;
  shown <- (if truthy sfi
            then kp <- py_get solar "kp" JNull ;; Ok (truthy kp)
            else Ok false) ;;
  if shown then
    sfi <- py_getitem solar "sfi" ;;
    sfi_s <- format_f 0 sfi ;;
    kp <- py_getitem solar "kp" ;;
    kp_s <- format_f 1 kp ;;
    Ok ["  Solar: SFI " ++ sfi_s ++ " | Kp " ++ kp_s]
  else Ok [].

Definition storm_lines (data : dict) (use_ascii : bool) : result (list string) :=
  let storm := dict_get_default "storm" JNull data in
  present <- (if truthy storm
              then p <- py_get storm "probability" JNull ;;
                   Ok (match p with JNull => false | _ => true end)
              else Ok false) ;;
  if present then
    prob <- py_getitem storm "probability" ;;
    kp <- py_get storm "predicted_kp" (JInt 0) ;;
    high <- py_ge prob 50 ;;
    if high then
      prob_s <- format_f 0 prob ;;
      kp_s <- format_f 1 kp ;;
      if use_ascii
      then Ok ["  [!] Storm: " ++ prob_s ++ "% probability -> Kp " ++ kp_s]
      else Ok ["  ⚠️  Storm: " ++ prob_s ++ "% probability → Kp " ++ kp_s]
    else
      medium <- py_ge prob 30 ;;
      if medium then
        prob_s <- format_f 0 prob ;;
        kp_s <- format_f 1 kp ;;
        Ok ["  Storm: " ++ prob_s ++ "% probability → Kp " ++ kp_s]
      else Ok []
  else Ok [].

Definition footer_lines (data : dict) : result (list string) :=
  match dict_get_default "source" (JStr "wspr.hb9vqq.ch") data with
  | JStr source =>
      let source :=
        if startswith "https://" source then str_drop 8 source
        else if startswith "http://" source then str_drop 7 source
        else source in
      Ok [banner; "  Source: " ++ source ++ " | 73 de HB9VQQ"; ""]
  | _ => Raise AttributeError
  end.

(** The list [lines] at the end of [format_standard], for a document
    without an [error] key. *)
Definition standard_lines (data : dict) (bands : list string)
    (use_ascii : bool) : result (list string) :=
  let symbols := if use_ascii then SYMBOLS_ASCII else SYMBOLS in
  let lines := [""; banner; title; banner] in
  let lines := (lines ++ updated_lines data)%list in
  let lines := (lines ++ [""])%list in
  let lines := (lines ++ [table_header; table_rule])%list in
  let band_data := dict_get_default "bands" (JObj []) data in
  rows <- standard_rows symbols use_ascii band_data bands ;;
  let lines := (lines ++ rows)%list in
  let lines := (lines ++ [""])%list in
  solar <- solar_lines data ;;
  let lines := (lines ++ solar)%list in
  storm <- storm_lines data use_ascii ;;
  let lines := (lines ++ storm)%list in
  footer <- footer_lines data ;;
  Ok (lines ++ footer)%list.

Definition format_standard (data : dict) (bands : list string)
    (use_ascii : bool) : result string :=
  if dict_has "error" data then
    e <- py_getitem (JObj data) "error" ;;
    Ok ("Error: " ++ py_str e)
  else
    lines <- standard_lines data bands use_ascii ;;
    Ok (join nl lines).

(** ** format_compact *)

Definition compact_part (band : string) (d : json) : result string :=
  idx <- py_get d "index" (JInt 0) ;;
  rating <- py_get d "rating" (JStr "?") ;;
  vs_typical <- py_get d "vs_typical" JNull ;;
  peak <- above_typical vs_typical ;;
  idx_s <- format_f 0 idx ;;
  if peak
  then Ok (band ++ ":" ++ py_str rating ++ "(" ++ idx_s ++ ")⬆"
                ++ py_str vs_typical ++ "%")
  else Ok (band ++ ":" ++ py_str rating ++ "(" ++ idx_s ++ ")").

Fixpoint compact_parts (band_data : json) (bands : list string)
    : result (list string) :=
  match bands with
  | [] => Ok []
  | band :: rest =>
      present <- py_contains band band_data ;;
      if present then
        d <- py_getitem band_data band ;;
        part <- compact_part band d ;;
        parts <- compact_parts band_data rest ;;
        Ok (part :: parts)
      else compact_parts band_data rest
  end.

Definition format_compact (data : dict) (bands : list string) : result string :=
  if dict_has "error" data then
    e <- py_getitem (JObj data) "error" ;;
    Ok ("Error: " ++ py_str e)
  else
    let band_data := dict_get_default "bands" (JObj []) data in
    parts <- compact_parts band_data bands ;;
    Ok (join " | " parts).

(** ** format_json *)

(** The comprehension
    [{b: data.get("bands", {}).get(b) for b in bands if b in data.get("bands", {})}],
    [acc] being the dict built so far. *)
Fixpoint requested_bands (data : dict) (bands : list string) (acc : dict)
    : result dict :=
  match bands with
  | [] => Ok acc
  | b :: rest =>
      present <- py_contains b (dict_get_default "bands" (JObj []) data) ;;
      if present then
        v <- py_get (dict_get_default "bands" (JObj []) data) b JNull ;;
        requested_bands data rest (dict_set b v acc)
      else requested_bands data rest acc
  end.

(** The object [format_json] hands to [json.dumps]. *)
Definition format_json_object (data : dict) (bands : list string) : result json :=
  if negb (list_eqb bands ALL_BANDS) then
    let updated := dict_get_default "updated" JNull data in
    band_map <- requested_bands data bands [] ;;
    let solar := dict_get_default "solar" JNull data in
    let filtered :=
      [("updated", updated); ("bands", JObj band_map); ("solar", solar)] in
    if dict_has "storm" data then
      storm <- py_getitem (JObj data) "storm" ;;
      Ok (JObj (dict_set "storm" storm filtered))
    else Ok (JObj filtered)
  else Ok (JObj data).

Definition format_json (data : dict) (bands : list string) : result string :=
  obj <- format_json_object data bands ;;
  Ok (dumps obj).

(** ** check_alert *)

Definition rating_order : list string :=
  ["VeryPoor"; "Poor"; "Fair"; "Good"; "Excellent"].

(** [v in names]: an object that is not a string equals none of them. *)
Definition py_in (v : json) (names : list string) : bool :=
  match v with
  | JStr s => str_in s names
  | _ => false
  end.

(** [names.index(v)] *)
Definition py_index (v : json) (names : list string) : result nat :=
  match v with
  | JStr s =>
      match list_index s names with
      | Some i => Ok i
      | None => Raise ValueError
      end
  | _ => Raise ValueError
  end.

Fixpoint alert_loop (band_data : json) (min_level : nat) (bands : list string)
    : result bool :=
  match bands with
  | [] => Ok false
  | band :: rest =>
      present <- py_contains band band_data ;;
      if present then
        d <- py_getitem band_data band ;;
        rating <- py_get d "rating" (JStr "VeryPoor") ;;
        if py_in rating rating_order then
          level <- py_index rating rating_order ;;
          if (min_level <=? level)%nat then Ok true
          else alert_loop band_data min_level rest
        else alert_loop band_data min_level rest
      else alert_loop band_data min_level rest
  end.

Definition check_alert (data : dict) (bands : list string) (min_rating : string)
    : result bool :=
  if negb (str_in min_rating rating_order) then Ok false
  else
    min_level <- py_index (JStr min_rating) rating_order ;;
    let band_data := dict_get_default "bands" (JObj []) data in
    alert_loop band_data min_level bands.

(** ** main *)

Record arguments : Type := {
  arg_bands : list string;
  arg_json : bool;
  arg_compact : bool;
  arg_ascii : bool;
  arg_alert : option string
}.

(** What the band filter of [main] leaves: the list handed on, or the
    message written to the error stream before [sys.exit(1)]. *)
Inductive selection : Type :=
| Selected (bands : list string)
| NoValidBands (message : string).

Definition select_bands (requested : list string) : selection :=
  match requested with
  | [] => Selected ALL_BANDS
  | _ :: _ =>
      match filter (fun b => str_in b ALL_BANDS) requested with
      | [] =>
          NoValidBands
            "Error: No valid bands specified. Use: 10m, 15m, 20m, 40m"
      | bands => Selected bands
      end
  end.

(** What one [refresh] does: returns the alert verdict, or prints. *)
Inductive outcome : Type :=
| Verdict (met : bool)
| Printed (text : string).

Definition refresh (args : arguments) (bands : list string) (data : dict)
    : result outcome :=
  match arg_alert args with
  | Some (String c r) =>
      met <- check_alert data bands (String c r) ;;
      Ok (Verdict met)
  | _ =>
      if arg_json args then
        text <- format_json data bands ;; Ok (Printed text)
      else if arg_compact args then
        text <- format_compact data bands ;; Ok (Printed text)
      else
        text <- format_standard data bands (arg_ascii args) ;;
        Ok (Printed text)
  end.

End Program.

(* ================================================================== *)
(** * A runtime for running the program on sample documents

    It stands in for the library calls on the inputs used below only:
    timestamps of the shape [YYYY-MM-DDTHH:MM:SS+00:00], [repr] of
    integers, booleans and [None], and a serializer, with its reader,
    for documents made of [null], booleans, integers, plain strings,
    arrays and objects (a float is written with two decimals and is not
    read back). *)

Module Sample.

Definition parse_timestamp (s : string) : option string :=
  if (String.length s =? 25)%nat && String.eqb (String.substring 19 6 s) "+00:00"
  then Some s else None.

Definition show_timestamp (ts : string) : string :=
  String.substring 0 10 ts ++ " " ++ String.substring 11 5 ts.

Definition show (v : json) : string :=
  match v with
  | JNull => "None"
  | JBool true => "True"
  | JBool false => "False"
  | JInt n => decimal n
  | _ => "<object>"
  end.

Definition quote : string := String (ascii_of_nat 34) "".

Fixpoint serialize (v : json) : string :=
  match v with
  | JNull => "null"
  | JBool true => "true"
  | JBool false => "false"
  | JInt n => decimal n
  | JFloat x => num_fixed 2 x
  | JStr s => quote ++ s ++ quote
  | JArr items =>
      "[" ++ join "," (map serialize items) ++ "]"
  | JObj fields =>
      "{" ++ join ","
               (map (fun kv => quote ++ fst kv ++ quote ++ ":" ++ serialize (snd kv))
                    fields)
          ++ "}"
  end.

#[export] Instance runtime : Runtime := {|
  datetime := string;
  fromisoformat := parse_timestamp;
  strftime := show_timestamp;
  repr := show;
  dumps := serialize
|}.

(** Sample documents. *)

Definition reading_10m : json :=
  JObj [("index", JInt 42); ("rating", JStr "Fair"); ("forecast", JInt 45);
        ("forecast_rating", JStr "Fair"); ("vs_typical", JInt 25)].

Definition peak_document : dict :=
  [("bands", JObj [("10m", reading_10m)])].

Definition error_document : dict :=
  [("error", JStr "service unavailable")].

Definition full_bands : dict :=
  [("10m", reading_10m);
   ("20m", JObj [("index", JFloat (FFinite (613 # 10)));
                 ("rating", JStr "Good");
                 ("forecast", JInt 58);
                 ("forecast_rating", JStr "Good")]);
   ("40m", JObj [("index", JInt 12)])].

Definition full_document : dict :=
  [("updated", JStr "2025-12-07T10:30:00Z");
   ("bands", JObj full_bands);
   ("solar", JObj [("sfi", JInt 150); ("kp", JFloat (FFinite (167 # 100)))]);
   ("storm", JObj [("probability", JInt 55);
                   ("predicted_kp", JFloat (FFinite (6 # 1)))]);
   ("source", JStr "https://example.org")].

(** A quiet day: the planetary K index is 0. *)
Definition quiet_solar : dict := [("sfi", JInt 150); ("kp", JInt 0)].

Definition reading_20m : json :=
  JObj [("index", JInt 61); ("rating", JStr "Good"); ("forecast", JInt 58);
        ("forecast_rating", JStr "Good")].

Definition quiet_document : dict :=
  [("bands", JObj [("20m", reading_20m)]); ("solar", JObj quiet_solar)].

Definition unsettled_document : dict :=
  [("bands", JObj [("20m", reading_20m)]);
   ("solar", JObj [("sfi", JInt 150); ("kp", JInt 1)])].

(** A document without floats, with a key of its own and text beyond
    ASCII. *)
Definition plain_document : dict :=
  [("updated", JStr "2025-12-07T10:30:00Z");
   ("bands", JObj [("10m", reading_10m); ("20m", reading_20m)]);
   ("solar", JObj quiet_solar);
   ("source", JStr "https://example.org");
   ("note", JStr "peak ⬆ 25%");
   ("tags", JArr [JNull; JBool true; JInt (-3); JArr []; JObj []])].

(** A [float] for documents without floats: it reads none. *)
Definition no_float (t : string) : option pyfloat := None.

End Sample.


(* ================================================================== *)
(** * The vocabulary of the specification *)

(** The RatingScale: five levels in increasing order. *)
Inductive Rating : Type := VeryPoor | Poor | Fair | Good | Excellent.

Definition rating_name (r : Rating) : string :=
  match r with
  | VeryPoor => "VeryPoor"
  | Poor => "Poor"
  | Fair => "Fair"
  | Good => "Good"
  | Excellent => "Excellent"
  end.

Definition position (r : Rating) : nat :=
  match r with
  | VeryPoor => 0
  | Poor => 1
  | Fair => 2
  | Good => 3
  | Excellent => 4
  end.

Definition rating_of_name (s : string) : option Rating :=
  if String.eqb s "VeryPoor" then Some VeryPoor
  else if String.eqb s "Poor" then Some Poor
  else if String.eqb s "Fair" then Some Fair
  else if String.eqb s "Good" then Some Good
  else if String.eqb s "Excellent" then Some Excellent
  else None.

(** The rating a band reading counts with: [VeryPoor] when the reading
    has no [rating], none when the rating is not one of the five names. *)
Definition reading_rating (reading : dict) : option Rating :=
  match dict_get "rating" reading with
  | None => Some VeryPoor
  | Some (JStr s) => rating_of_name s
  | Some _ => None
  end.

(** The band's reading is a record whose rating is at or above [R]. *)
Definition meets (R : Rating) (bd : dict) (band : string) : bool :=
  match dict_get band bd with
  | Some (JObj reading) =>
      match reading_rating reading with
      | Some r => (position R <=? position r)%nat
      | None => false
      end
  | _ => false
  end.

(** The [bands] mapping of a document: empty when the key is missing. *)
Definition band_map (data : dict) : option dict :=
  match dict_get "bands" data with
  | None => Some []
  | Some (JObj bd) => Some bd
  | Some _ => None
  end.

(** The [storm] record of a document: empty when the key is missing or
    bound to [null]. *)
Definition storm_record (data : dict) : option dict :=
  match dict_get "storm" data with
  | None => Some []
  | Some JNull => Some []
  | Some (JObj storm) => Some storm
  | Some _ => None
  end.

(** Every band reading is a record. *)
Definition readings_are_records (bd : dict) : Prop :=
  forall band v, dict_get band bd = Some v -> exists reading, v = JObj reading.

(** The requested bands are canonical, and some canonical band is not
    requested. *)
Definition strict_subset (bands canonical : list string) : Prop :=
  (forall b, In b bands -> In b canonical)
  /\ (exists c, In c canonical /\ ~ In c bands).

(** The lines of a report, from its blocks: the header, the timestamp
    block, the table head, the rows, an empty line, the solar block, the
    storm block, the footer. *)
Definition report_lines (stamp rows solar storm footer : list string)
    : list string :=
  ([""; banner; title; banner] ++ stamp
   ++ [""; table_header; table_rule] ++ rows ++ [""]
   ++ solar ++ storm ++ footer)%list.

(** [c <= x] and [x < c] for a number [x]; NaN is in no order. *)
Definition at_least (c : Z) (x : pyfloat) : Prop :=
  match x with
  | FFinite q => (inject_Z c <= q)%Q
  | FInf negative => negative = false
  | FNaN => False
  end.

Definition below (c : Z) (x : pyfloat) : Prop :=
  match x with
  | FFinite q => (q < inject_Z c)%Q
  | FInf negative => negative = true
  | FNaN => False
  end.

(** The storm line: with the warning mark or without it. *)
Definition storm_line (marked use_ascii : bool) (prob_s kp_s : string) : string :=
  if marked then
    if use_ascii
    then "  [!] Storm: " ++ prob_s ++ "% probability -> Kp " ++ kp_s
    else "  ⚠️  Storm: " ++ prob_s ++ "% probability → Kp " ++ kp_s
  else "  Storm: " ++ prob_s ++ "% probability → Kp " ++ kp_s.

(** [l1] is [l2] with some elements left out, the others in place. *)
Inductive subsequence : list string -> list string -> Prop :=
| subsequence_nil : subsequence [] []
| subsequence_skip x l1 l2 : subsequence l1 l2 -> subsequence l1 (x :: l2)
| subsequence_keep x l1 l2 : subsequence l1 l2 -> subsequence (x :: l1) (x :: l2).

(** The user's list intersected with the canonical set, in canonical order. *)
Definition canonical_intersection (requested : list string) : list string :=
  filter (fun b => str_in b requested) ALL_BANDS.


(* ================================================================== *)
(** * The process around the renderers: fetch_data and main *)

(** What the GET and the decoding of its body came to: a document, or one
    of the two failures [fetch_data] handles ([reason] and [description]
    are the texts the f-strings show).  Only bodies that decode to a JSON
    object are represented. *)
Inductive reply : Type :=
| Document (data : dict)
| URLError (reason : string)
| JSONDecodeError (description : string).

(** [fetch_data] returns the document, or writes a message to the error
    stream and calls [sys.exit(1)]. *)
Inductive fetched : Type :=
| Fetched (data : dict)
| FetchFailed (message : string).

Definition fetch_data (r : reply) : fetched :=
  match r with
  | Document data => Fetched data
  | URLError reason => FetchFailed ("Error: Cannot reach API - " ++ reason)
  | JSONDecodeError description =>
      FetchFailed ("Error: Invalid API response - " ++ description)
  end.

(** How the process ends: with an exit status, or on an exception nobody
    catches.  [stdout] and [stderr] list what was written, in order. *)
Inductive run : Type :=
| Exited (status : Z) (stdout stderr : list string)
| Crashed (e : exn) (stdout : list string).

(** [print(s)] writes [s] and a newline. *)
Definition print (s : string) : string := s ++ nl.

(** What [refresh] wrote, and the truth value of what it returned
    ([None] after printing). *)
Definition written (o : outcome) : list string :=
  match o with
  | Verdict _ => []
  | Printed text => [print text]
  end.

Definition returned (o : outcome) : bool :=
  match o with
  | Verdict met => met
  | Printed _ => false
  end.

Definition clear_screen : string :=
  String (ascii_of_nat 27) "[2J" ++ String (ascii_of_nat 27) "[H".

Definition refresh_notice (interval : Z) : string :=
  "[Auto-refresh every " ++ decimal interval ++ "s - Ctrl+C to exit]".

(** [time.sleep(interval)] for an int, as CPython on a 64-bit system has
    it: a length whose nanoseconds do not fit 64 bits overflows, a
    negative length is refused, and the operating system refuses a length
    above [os_limit], the longest sleep it takes (it depends on the
    clock). *)
Definition sleep (os_limit interval : Z) : result unit :=
  if (9223372036 <? Z.abs interval)%Z then Raise OverflowError
  else if (interval <? 0)%Z then Raise ValueError
  else if (os_limit <? interval)%Z then Raise OSError
  else Ok tt.

Section Main.

Context {RT : Runtime}.

(** [main] without [--watch]: filter the bands, fetch once, refresh. *)
Definition main_single (args : arguments) (r : reply) : run :=
  match select_bands (arg_bands args) with
  | NoValidBands message => Exited 1 [] [print message]
  | Selected bands =>
      match fetch_data r with
      | FetchFailed message => Exited 1 [] [print message]
      | Fetched data =>
          match refresh args bands data with
          | Raise e => Crashed e []
          | Ok result =>
              match arg_alert args with
              | Some (String _ _) =>
                  Exited (if returned result then 0 else 1) (written result) []
              | _ => Exited 0 (written result) []
              end
          end
      end
  end.

(** The loop of [main] with [--watch].  Each cycle takes the next reply
    and ends with the sleep; the keyboard interrupt arrives during the
    sleep that follows the last of [replies].  [out] is what has been
    written so far. *)
Fixpoint watch_loop (args : arguments) (interval os_limit : Z)
    (bands : list string) (replies : list reply) (out : list string) : run :=
  match replies with
  | [] => Exited 0 (out ++ [print (nl ++ "Exiting...")])%list []
  | r :: rest =>
      let out := (out ++ [clear_screen])%list in
      match fetch_data r with
      | FetchFailed message => Exited 1 out [print message]
      | Fetched data =>
          match refresh args bands data with
          | Raise e => Crashed e out
          | Ok result =>
              let out :=
                (out ++ written result
                     ++ [print (refresh_notice interval)])%list in
              match sleep os_limit interval with
              | Raise e => Crashed e out
              | Ok _ => watch_loop args interval os_limit bands rest out
              end
          end
      end
  end.

Definition main_watch (args : arguments) (interval os_limit : Z)
    (replies : list reply) : run :=
  match select_bands (arg_bands args) with
  | NoValidBands message => Exited 1 [] [print message]
  | Selected bands => watch_loop args interval os_limit bands replies []
  end.

End Main.

(* ================================================================== *)
(** * More vocabulary *)

(** [c < x] for a number [x]; NaN is in no order. *)
Definition exceeds (c : Z) (x : pyfloat) : Prop :=
  match x with
  | FFinite q => (inject_Z c < q)%Q
  | FInf negative => negative = false
  | FNaN => False
  end.

(** [l] without the repetitions of an element after its first
    occurrence, and without the elements of [seen]. *)
Fixpoint first_occurrences (seen l : list string) : list string :=
  match l with
  | [] => []
  | x :: l' =>
      if str_in x seen then first_occurrences seen l'
      else x :: first_occurrences (seen ++ [x]) l'
  end.

(** The requested bands the mapping [bd] has. *)
Definition present_bands (bd : dict) (bands : list string) : list string :=
  filter (fun b => dict_has b bd) bands.

(** The threshold argument as [refresh] sees it: an empty string counts
    as no [--alert] at all. *)
Definition alert_given (args : arguments) : option string :=
  match arg_alert args with
  | Some (String c s) => Some (String c s)
  | _ => None
  end.

(** The reduced object of the JSON mode, written out: [updated], then
    the requested bands the mapping [bd] has, each once, in the order of
    their first request and with their readings, then [solar], then
    [storm] when the document has one. *)
Definition reduced_document (data bd : dict) (bands : list string) : dict :=
  ([("updated", dict_get_default "updated" JNull data);
    ("bands",
      JObj (map (fun b => (b, dict_get_default b JNull bd))
                (first_occurrences [] (present_bands bd bands))));
    ("solar", dict_get_default "solar" JNull data)]
   ++ match dict_get "storm" data with
      | Some storm => [("storm", storm)]
      | None => []
      end)%list.


(* ================================================================== *)
(** * json.dumps with indent=2, and json.loads

    The serializer follows [json.dumps(obj, indent=2)] with its defaults
    ([ensure_ascii], [allow_nan], separators [","] and [": "], keys in
    insertion order); the reader follows [json.loads] with its defaults
    ([strict], [NaN] and the infinities accepted).  A [str] is its UTF-8
    bytes here (a lone surrogate as the three bytes of its code point), so
    the serializer decodes code points to escape them and the reader
    encodes the code points of [\uXXXX] escapes.

    Three things stay outside.  The text of a finite float is [repr] of
    the runtime on the way out and a parameter [float_of_string] on the
    way in.  The interpreter's recursion limit is the parameter [limit]
    of the reader: the nesting depth it allows.  And [json_text] is the
    text [json.dumps] returns when it returns: it raises for an integer
    of more than 4300 digits and for nesting beyond the recursion limit,
    which the properties below exclude by hypothesis. *)

Definition byte (c : ascii) : Z := Z.of_N (N_of_ascii c).

Definition chr (z : Z) : ascii := ascii_of_N (Z.to_N z).

Definition is_continuation_byte (c : ascii) : bool :=
  ((128 <=? byte c) && (byte c <? 192))%Z.

(** The code point at the head of a UTF-8 string, and what follows it. *)
Definition decode1 (s : string) : option (Z * string) :=
  match s with
  | EmptyString => None
  | String c0 s1 =>
      let b0 := byte c0 in
      if (b0 <? 128)%Z then Some (b0, s1)
      else
        match s1 with
        | EmptyString => None
        | String c1 s2 =>
            if negb (is_continuation_byte c1) then None
            else
              let b1 := (byte c1 - 128)%Z in
              if ((194 <=? b0) && (b0 <? 224))%Z
              then Some (((b0 - 192) * 64 + b1)%Z, s2)
              else
                match s2 with
                | EmptyString => None
                | String c2 s3 =>
                    if negb (is_continuation_byte c2) then None
                    else
                      let b2 := (byte c2 - 128)%Z in
                      if ((224 <=? b0) && (b0 <? 240))%Z then
                        let cp := ((b0 - 224) * 4096 + b1 * 64 + b2)%Z in
                        if (2048 <=? cp)%Z then Some (cp, s3) else None
                      else
                        match s3 with
                        | EmptyString => None
                        | String c3 s4 =>
                            if negb (is_continuation_byte c3) then None
                            else
                              let b3 := (byte c3 - 128)%Z in
                              if ((240 <=? b0) && (b0 <? 245))%Z then
                                let cp := ((b0 - 240) * 262144 + b1 * 4096
                                           + b2 * 64 + b3)%Z in
                                if ((65536 <=? cp) && (cp <? 1114112))%Z
                                then Some (cp, s4) else None
                              else None
                        end
                end
        end
  end.

Fixpoint code_points_from (fuel : nat) (s : string) : option (list Z) :=
  match s with
  | EmptyString => Some []
  | String _ _ =>
      match fuel with
      | O => None
      | S fuel' =>
          match decode1 s with
          | Some (cp, rest) =>
              match code_points_from fuel' rest with
              | Some cps => Some (cp :: cps)
              | None => None
              end
          | None => None
          end
      end
  end.

(** The code points of a [str]; [None] for bytes that are no UTF-8. *)
Definition code_points (s : string) : option (list Z) :=
  code_points_from (String.length s) s.

(** The UTF-8 bytes of a code point. *)
Definition utf8_encode (cp : Z) : string :=
  if (cp <? 128)%Z then String (chr cp) ""
  else if (cp <? 2048)%Z then
    String (chr (192 + cp / 64)) (String (chr (128 + cp mod 64)) "")
  else if (cp <? 65536)%Z then
    String (chr (224 + cp / 4096))
      (String (chr (128 + (cp / 64) mod 64))
         (String (chr (128 + cp mod 64)) ""))
  else
    String (chr (240 + cp / 262144))
      (String (chr (128 + (cp / 4096) mod 64))
         (String (chr (128 + (cp / 64) mod 64))
            (String (chr (128 + cp mod 64)) ""))).

Definition hex_digit (d : Z) : ascii :=
  if (d <? 10)%Z then chr (48 + d) else chr (87 + d).

(** [f"{n:04x}"] for a 16-bit [n]. *)
Definition hex4 (n : Z) : string :=
  String (hex_digit (n / 4096))
    (String (hex_digit ((n / 256) mod 16))
       (String (hex_digit ((n / 16) mod 16))
          (String (hex_digit (n mod 16)) ""))).

Definition backslash : string := String (chr 92) "".

Definition double_quote : string := String (chr 34) "".

(** One character as [json.dumps] writes it with [ensure_ascii]. *)
Definition escape_code_point (cp : Z) : string :=
  if (cp =? 34)%Z then backslash ++ double_quote
  else if (cp =? 92)%Z then backslash ++ backslash
  else if (cp =? 10)%Z then backslash ++ "n"
  else if (cp =? 13)%Z then backslash ++ "r"
  else if (cp =? 9)%Z then backslash ++ "t"
  else if (cp =? 8)%Z then backslash ++ "b"
  else if (cp =? 12)%Z then backslash ++ "f"
  else if ((32 <=? cp) && (cp <=? 126))%Z then String (chr cp) ""
  else if (cp <? 65536)%Z then backslash ++ "u" ++ hex4 cp
  else
    let v := (cp - 65536)%Z in
    backslash ++ "u" ++ hex4 (55296 + v / 1024)
      ++ backslash ++ "u" ++ hex4 (56320 + v mod 1024).

Definition bytes_of (s : string) : list Z :=
  map byte (list_ascii_of_string s).

(** A [str] as a JSON string.  Bytes that are no UTF-8 stand for no
    [str]; they are written byte by byte. *)
Definition json_string (s : string) : string :=
  let cps := match code_points s with
             | Some cps => cps
             | None => bytes_of s
             end in
  double_quote ++ String.concat "" (map escape_code_point cps) ++ double_quote.

(** A newline and the indentation of nesting level [level]. *)
Definition newline_indent (level : nat) : string :=
  nl ++ str_repeat (2 * level) " ".

(** What stands between two items at nesting level [level]. *)
Definition separator (level : nat) : string := "," ++ newline_indent (S level).

Section Serializer.

Context {RT : Runtime}.

Definition json_float (x : pyfloat) : string :=
  match x with
  | FNaN => "NaN"
  | FInf false => "Infinity"
  | FInf true => "-Infinity"
  | FFinite _ => repr (JFloat x)
  end.

(** The text of a value at nesting level [level]. *)
Fixpoint json_text (level : nat) (v : json) {struct v} : string :=
  match v with
  | JNull => "null"
  | JBool true => "true"
  | JBool false => "false"
  | JInt n => decimal n
  | JFloat x => json_float x
  | JStr s => json_string s
  | JArr [] => "[]"
  | JArr items =>
      "[" ++ newline_indent (S level)
          ++ String.concat (separator level) (map (json_text (S level)) items)
          ++ newline_indent level ++ "]"
  | JObj [] => "{}"
  | JObj fields =>
      "{" ++ newline_indent (S level)
          ++ String.concat (separator level)
               (map (fun kv => json_string (fst kv) ++ ": "
                               ++ json_text (S level) (snd kv))
                    fields)
          ++ newline_indent level ++ "}"
  end.

(** One field of an object at nesting level [level]. *)
Definition field_text (level : nat) (kv : string * json) : string :=
  json_string (fst kv) ++ ": " ++ json_text (S level) (snd kv).

(** The runtime [base] with [json.dumps(_, indent=2)] as [json_text]
    gives it. *)
Definition with_json_dumps : Runtime := {|
  datetime := datetime;
  fromisoformat := fromisoformat;
  strftime := strftime;
  repr := repr;
  dumps := json_text 0
|}.

End Serializer.

Arguments with_json_dumps : clear implicits.

(** Nesting depth: a scalar has depth 0, an empty array depth 1. *)
Fixpoint depth (v : json) : nat :=
  match v with
  | JArr items => S (fold_right (fun x d => Nat.max (depth x) d) 0 items)
  | JObj fields =>
      S (fold_right (fun kv d => Nat.max (depth (snd kv)) d) 0 fields)
  | _ => 0
  end.

(* ------------------------------------------------------------------ *)
(** ** The reader *)

Definition is_whitespace (c : ascii) : bool :=
  let b := byte c in
  ((b =? 32) || (b =? 9) || (b =? 10) || (b =? 13))%Z.

Fixpoint skip_whitespace (s : string) : string :=
  match s with
  | String c s' => if is_whitespace c then skip_whitespace s' else s
  | EmptyString => s
  end.

Definition is_digit (c : ascii) : bool :=
  ((48 <=? byte c) && (byte c <=? 57))%Z.

Definition hex_value (c : ascii) : option Z :=
  let b := byte c in
  if ((48 <=? b) && (b <=? 57))%Z then Some (b - 48)%Z
  else if ((97 <=? b) && (b <=? 102))%Z then Some (b - 87)%Z
  else if ((65 <=? b) && (b <=? 70))%Z then Some (b - 55)%Z
  else None.

Definition hex4_value (h1 h2 h3 h4 : ascii) : option Z :=
  match hex_value h1, hex_value h2, hex_value h3, hex_value h4 with
  | Some d1, Some d2, Some d3, Some d4 =>
      Some (d1 * 4096 + d2 * 256 + d3 * 16 + d4)%Z
  | _, _, _, _ => None
  end.

Definition is_high_surrogate (u : Z) : bool :=
  ((55296 <=? u) && (u <=? 56319))%Z.

Definition is_low_surrogate (u : Z) : bool :=
  ((56320 <=? u) && (u <=? 57343))%Z.

(** The character a one-letter escape stands for. *)
Definition simple_escape (e : ascii) : option ascii :=
  let b := byte e in
  if (b =? 34)%Z then Some (chr 34)
  else if (b =? 92)%Z then Some (chr 92)
  else if (b =? 47)%Z then Some (chr 47)
  else if (b =? 98)%Z then Some (chr 8)
  else if (b =? 102)%Z then Some (chr 12)
  else if (b =? 110)%Z then Some (chr 10)
  else if (b =? 114)%Z then Some (chr 13)
  else if (b =? 116)%Z then Some (chr 9)
  else None.

Definition cons_bytes (prefix : string) (r : option (string * string))
    : option (string * string) :=
  match r with
  | Some (body, rest) => Some (prefix ++ body, rest)
  | None => None
  end.

(** The body of a string, after its opening quote, and what follows the
    closing quote. *)
Fixpoint scan_string (s : string) : option (string * string) :=
  match s with
  | EmptyString => None
  | String c s1 =>
      if (byte c =? 34)%Z then Some ("", s1)
      else if (byte c =? 92)%Z then
        match s1 with
        | EmptyString => None
        | String e s2 =>
            if (byte e =? 117)%Z then
              match s2 with
              | String h1 (String h2 (String h3 (String h4 s3))) =>
                  match hex4_value h1 h2 h3 h4 with
                  | None => None
                  | Some u =>
                      if is_high_surrogate u then
                        match s3 with
                        | String b (String u' (String l1 (String l2
                            (String l3 (String l4 s4))))) =>
                            if ((byte b =? 92) && (byte u' =? 117))%Z then
                              match hex4_value l1 l2 l3 l4 with
                              | None => None
                              | Some u2 =>
                                  if is_low_surrogate u2 then
                                    cons_bytes
                                      (utf8_encode
                                         (65536 + (u - 55296) * 1024
                                          + (u2 - 56320)))
                                      (scan_string s4)
                                  else cons_bytes (utf8_encode u) (scan_string s3)
                              end
                            else cons_bytes (utf8_encode u) (scan_string s3)
                        | _ => cons_bytes (utf8_encode u) (scan_string s3)
                        end
                      else cons_bytes (utf8_encode u) (scan_string s3)
                  end
              | _ => None
              end
            else
              match simple_escape e with
              | Some x => cons_bytes (String x "") (scan_string s2)
              | None => None
              end
        end
      else if (byte c <? 32)%Z then None
      else cons_bytes (String c "") (scan_string s1)
  end.

Definition is_number_char (c : ascii) : bool :=
  let b := byte c in
  is_digit c
  || ((b =? 43) || (b =? 45) || (b =? 46) || (b =? 101) || (b =? 69))%Z.

(** The longest run of number characters at the head, and the rest. *)
Fixpoint span_number (s : string) : string * string :=
  match s with
  | String c s' =>
      if is_number_char c
      then let '(t, rest) := span_number s' in (String c t, rest)
      else ("", s)
  | EmptyString => ("", "")
  end.

Fixpoint drop_digits (s : string) : string :=
  match s with
  | String c s' => if is_digit c then drop_digits s' else s
  | EmptyString => s
  end.

(** What follows the integer part (an optional minus, then 0 or a
    digit from 1 to 9 and any digits), when there is one. *)
Definition after_integer (t : string) : option string :=
  let t' := match t with
            | String c r => if (byte c =? 45)%Z then r else t
            | EmptyString => t
            end in
  match t' with
  | String c r =>
      if (byte c =? 48)%Z then Some r
      else if is_digit c then Some (drop_digits r)
      else None
  | EmptyString => None
  end.

(** What follows the fraction (a point and at least one digit), when
    there is one. *)
Definition after_fraction (t : string) : option string :=
  match t with
  | String p (String d r) =>
      if ((byte p =? 46)%Z && is_digit d) then Some (drop_digits r) else None
  | _ => None
  end.

(** What follows the exponent (e or E, an optional sign, at least one
    digit), when there is one. *)
Definition after_exponent (t : string) : option string :=
  match t with
  | String e r =>
      if ((byte e =? 101) || (byte e =? 69))%Z then
        let r' := match r with
                  | String sg r1 =>
                      if ((byte sg =? 43) || (byte sg =? 45))%Z then r1 else r
                  | EmptyString => r
                  end in
        match r' with
        | String d r2 => if is_digit d then Some (drop_digits r2) else None
        | EmptyString => None
        end
      else None
  | EmptyString => None
  end.

Inductive number_kind : Type := IntegerToken | FloatToken.

(** A token that is a JSON number from end to end, and of which kind. *)
Definition number_kind_of (t : string) : option number_kind :=
  match after_integer t with
  | None => None
  | Some r =>
      let '(has_fraction, r1) :=
        match after_fraction r with
        | Some r1 => (true, r1)
        | None => (false, r)
        end in
      let '(has_exponent, r2) :=
        match after_exponent r1 with
        | Some r2 => (true, r2)
        | None => (false, r1)
        end in
      match r2 with
      | EmptyString =>
          Some (if has_fraction || has_exponent then FloatToken else IntegerToken)
      | String _ _ => None
      end
  end.

(** The pairs of an object become a [dict]: a later pair with the same
    key replaces the value of the earlier one. *)
Fixpoint dict_of_pairs (pairs : dict) (acc : dict) : dict :=
  match pairs with
  | [] => acc
  | (k, v) :: rest => dict_of_pairs rest (dict_set k v acc)
  end.

Section Reader.

(** Python's [float] on the text of a JSON number. *)
Variable float_of_string : string -> option pyfloat.

(** The digits of an integer token: [int] refuses more than 4300. *)
Definition integer_digits (t : string) : nat :=
  match t with
  | String c r => if (byte c =? 45)%Z then String.length r else String.length t
  | EmptyString => 0
  end.

Definition scan_number (s : string) : option (json * string) :=
  let '(t, rest) := span_number s in
  match number_kind_of t with
  | Some IntegerToken =>
      if (4300 <? integer_digits t)%nat then None
      else
        match NilZero.int_of_string t with
        | Some d => Some (JInt (Z.of_int d), rest)
        | None => None
        end
  | Some FloatToken =>
      match float_of_string t with
      | Some x => Some (JFloat x, rest)
      | None => None
      end
  | None => None
  end.

(** [scan_value] reads a value at the head of the text; [scan_items] and
    [scan_fields] read what follows an opening bracket or brace.  An
    array or object nested deeper than [limit] is refused, as by the
    interpreter's recursion limit; [fuel] bounds the length of the text. *)
Fixpoint scan_value (fuel limit : nat) (s : string) : option (json * string) :=
  match fuel with
  | O => None
  | S fuel' =>
      match s with
      | EmptyString => None
      | String c s1 =>
          let b := byte c in
          if (b =? 34)%Z then
            match scan_string s1 with
            | Some (body, rest) => Some (JStr body, rest)
            | None => None
            end
          else if (b =? 123)%Z then
            match limit with
            | O => None
            | S limit' =>
                match scan_fields fuel' limit' (skip_whitespace s1) true with
                | Some (pairs, rest) => Some (JObj (dict_of_pairs pairs []), rest)
                | None => None
                end
            end
          else if (b =? 91)%Z then
            match limit with
            | O => None
            | S limit' =>
                match scan_items fuel' limit' (skip_whitespace s1) true with
                | Some (items, rest) => Some (JArr items, rest)
                | None => None
                end
            end
          else if String.prefix "null" s then Some (JNull, str_drop 4 s)
          else if String.prefix "true" s then Some (JBool true, str_drop 4 s)
          else if String.prefix "false" s then Some (JBool false, str_drop 5 s)
          else if String.prefix "NaN" s then Some (JFloat FNaN, str_drop 3 s)
          else if String.prefix "Infinity" s
          then Some (JFloat (FInf false), str_drop 8 s)
          else if String.prefix "-Infinity" s
          then Some (JFloat (FInf true), str_drop 9 s)
          else scan_number s
      end
  end
with scan_items (fuel limit : nat) (s : string) (first : bool)
    : option (list json * string) :=
  match fuel with
  | O => None
  | S fuel' =>
      match s with
      | EmptyString => None
      | String c s1 =>
          if first && (byte c =? 93)%Z then Some ([], s1)
          else
            match scan_value fuel' limit s with
            | None => None
            | Some (v, r) =>
                match skip_whitespace r with
                | String d r1 =>
                    if (byte d =? 93)%Z then Some ([v], r1)
                    else if (byte d =? 44)%Z then
                      match scan_items fuel' limit (skip_whitespace r1) false with
                      | Some (items, rest) => Some (v :: items, rest)
                      | None => None
                      end
                    else None
                | EmptyString => None
                end
            end
      end
  end
with scan_fields (fuel limit : nat) (s : string) (first : bool)
    : option (dict * string) :=
  match fuel with
  | O => None
  | S fuel' =>
      match s with
      | EmptyString => None
      | String c s1 =>
          if first && (byte c =? 125)%Z then Some ([], s1)
          else if negb (byte c =? 34)%Z then None
          else
            match scan_string s1 with
            | None => None
            | Some (key, r) =>
                match skip_whitespace r with
                | String colon r1 =>
                    if negb (byte colon =? 58)%Z then None
                    else
                      match scan_value fuel' limit (skip_whitespace r1) with
                      | None => None
                      | Some (v, r2) =>
                          match skip_whitespace r2 with
                          | String d r3 =>
                              if (byte d =? 125)%Z then Some ([(key, v)], r3)
                              else if (byte d =? 44)%Z then
                                match scan_fields fuel' limit
                                        (skip_whitespace r3) false with
                                | Some (fields, rest) =>
                                    Some ((key, v) :: fields, rest)
                                | None => None
                                end
                              else None
                          | EmptyString => None
                          end
                      end
                | EmptyString => None
                end
            end
      end
  end.

End Reader.

Section Loads.

Variable float_of_string : string -> option pyfloat.

(** [json.loads(text)]: one value, white space around it, nothing else;
    [None] when it raises. *)
Definition json_loads (limit : nat) (text : string) : option json :=
  match scan_value float_of_string (S (String.length text)) limit
          (skip_whitespace text) with
  | Some (v, rest) =>
      match skip_whitespace rest with
      | EmptyString => Some v
      | String _ _ => None
      end
  | None => None
  end.

End Loads.

(* ------------------------------------------------------------------ *)
(** ** Documents that are read back as they were *)

Definition is_surrogate (cp : Z) : bool := ((55296 <=? cp) && (cp <=? 57343))%Z.

(** A [str] of Unicode text: UTF-8 bytes, and no surrogate code point. *)
Definition is_text (s : string) : bool :=
  match code_points s with
  | Some cps => forallb (fun cp => negb (is_surrogate cp)) cps
  | None => false
  end.

Fixpoint all_chars (p : ascii -> bool) (s : string) : bool :=
  match s with
  | String c s' => p c && all_chars p s'
  | EmptyString => true
  end.

(** What may follow a value: not a character of a number. *)
Definition value_end (rest : string) : Prop :=
  match rest with
  | String c _ => is_number_char c = false
  | EmptyString => True
  end.

(** A text that starts a value: no white space, no closing bracket. *)
Definition starts_value (s : string) : Prop :=
  exists c t, s = String c t /\ is_whitespace c = false /\ byte c <> 93%Z.

Definition nonzero_head (d : Decimal.uint) : Prop :=
  match d with
  | Decimal.Nil | Decimal.D0 _ => False
  | _ => True
  end.

Section Documents.

Context {RT : Runtime}.

Variable float_of_string : string -> option pyfloat.

(** The documents that are read back as they were: integers of at most
    4300 digits, no NaN, finite floats whose [repr] is a number with a
    fraction or an exponent that [float] reads back, strings and keys of
    Unicode text, and no key twice in an object. *)
#[warnings="-register-all"]
Inductive well_formed : json -> Prop :=
| wf_null : well_formed JNull
| wf_bool (b : bool) : well_formed (JBool b)
| wf_int (n : Z) : integer_digits (decimal n) <= 4300 -> well_formed (JInt n)
| wf_inf (negative : bool) : well_formed (JFloat (FInf negative))
| wf_float (q : Q) :
    number_kind_of (repr (JFloat (FFinite q))) = Some FloatToken ->
    float_of_string (repr (JFloat (FFinite q))) = Some (FFinite q) ->
    well_formed (JFloat (FFinite q))
| wf_str (s : string) : is_text s = true -> well_formed (JStr s)
| wf_arr (items : list json) :
    Forall well_formed items -> well_formed (JArr items)
| wf_obj (fields : dict) :
    NoDup (map fst fields) ->
    Forall (fun kv => is_text (fst kv) = true) fields ->
    Forall (fun kv => well_formed (snd kv)) fields ->
    well_formed (JObj fields).

(** The reader gives back [v] from the text of [v], whatever the
    nesting level of the text and whatever follows it. *)
Definition reads_back (v : json) : Prop :=
  forall (level fuel limit : nat) (rest : string),
    String.length (json_text level v) <= fuel ->
    depth v <= limit ->
    value_end rest ->
    scan_value float_of_string fuel limit (json_text level v ++ rest)
    = Some (v, rest).

End Documents.
(* ================================================================== *)
(** * Basic facts *)

Lemma str_in_In (x : string) (l : list string) :
  str_in x l = true <-> In x l.
Proof.
  unfold str_in. rewrite existsb_exists. split.
  - intros [y [Hy Heq]]. apply String.eqb_eq in Heq. now subst.
  - intros H. exists x. split; [assumption | apply String.eqb_refl].
Qed.

Lemma rating_of_name_sound (s : string) (r : Rating) :
  rating_of_name s = Some r -> s = rating_name r.
Proof.
  unfold rating_of_name.
  repeat match goal with
         | |- context [String.eqb s ?n] =>
             destruct (String.eqb_spec s n); [subst; intros [= <-]; reflexivity |]
         end.
  discriminate.
Qed.

Lemma rating_of_name_name (r : Rating) : rating_of_name (rating_name r) = Some r.
Proof. destruct r; reflexivity. Qed.

Lemma list_index_rating (s : string) :
  list_index s rating_order = option_map position (rating_of_name s).
Proof.
  unfold rating_order, rating_of_name. simpl.
  repeat match goal with
         | |- context [String.eqb s ?n] => destruct (String.eqb s n); try reflexivity
         end.
Qed.

Lemma str_in_rating (s : string) :
  str_in s rating_order = match rating_of_name s with Some _ => true | None => false end.
Proof.
  unfold rating_order, rating_of_name, str_in. simpl.
  repeat match goal with
         | |- context [String.eqb s ?n] => destruct (String.eqb s n); try reflexivity
         end.
Qed.

Lemma band_map_default (data bd : dict) :
  band_map data = Some bd -> dict_get_default "bands" (JObj []) data = JObj bd.
Proof.
  unfold band_map, dict_get_default.
  destruct (dict_get "bands" data) as [[]|]; intros [= <-]; reflexivity.
Qed.

(* ================================================================== *)
(** * check_alert *)

Lemma py_index_name (R : Rating) :
  py_index (JStr (rating_name R)) rating_order = Ok (position R).
Proof. destruct R; reflexivity. Qed.

(** What the loop body finds out about one reading. *)
Lemma reading_rating_lookup (reading : dict) :
  let rating := dict_get_default "rating" (JStr "VeryPoor") reading in
  match reading_rating reading with
  | Some r => py_in rating rating_order = true
              /\ py_index rating rating_order = Ok (position r)
  | None => py_in rating rating_order = false
  end.
Proof.
  unfold reading_rating, dict_get_default.
  destruct (dict_get "rating" reading) as [v|]; [| split; reflexivity].
  destruct v; try reflexivity.
  cbn [py_in py_index]. rewrite str_in_rating, list_index_rating.
  destruct (rating_of_name s); simpl; auto.
Qed.

Lemma alert_loop_existsb (bd : dict) (R : Rating) (bands : list string) :
  readings_are_records bd ->
  alert_loop (JObj bd) (position R) bands = Ok (existsb (meets R bd) bands).
Proof.
  intros Hrec. induction bands as [|band rest IH]; [reflexivity|].
  simpl. unfold dict_has, meets.
  destruct (dict_get band bd) as [v|] eqn:Hv; simpl; [| exact IH].
  destruct (Hrec _ _ Hv) as [reading ->]. simpl.
  pose proof (reading_rating_lookup reading) as Hlook. simpl in Hlook.
  destruct (reading_rating reading) as [r|].
  - destruct Hlook as [-> ->]. simpl.
    destruct (position R <=? position r)%nat; [reflexivity | exact IH].
  - rewrite Hlook. exact IH.
Qed.

(** C2.  For a document whose [bands] is a mapping of band readings, and
    for each of the five rating names [R], [check_alert] returns, and it
    returns [True] exactly when some requested band that is present in
    the mapping has a rating at a scale position at least that of [R];
    a reading without a rating counts as VeryPoor and a rating outside
    the five names never counts.  In particular the answer is [False]
    when no requested band is present. *)
Theorem check_alert_threshold (data bd : dict) (bands : list string) (R : Rating) :
  band_map data = Some bd ->
  readings_are_records bd ->
  exists met : bool,
    check_alert data bands (rating_name R) = Ok met
    /\ (met = true <->
        exists band reading r,
          In band bands
          /\ dict_get band bd = Some (JObj reading)
          /\ reading_rating reading = Some r
          /\ position R <= position r)
    /\ ((forall band, In band bands -> dict_get band bd = None) -> met = false).
Proof.
  intros Hbd Hrec. exists (existsb (meets R bd) bands).
  split; [| split].
  - unfold check_alert.
    replace (str_in (rating_name R) rating_order) with true
      by (destruct R; reflexivity).
    simpl negb. cbv iota. rewrite py_index_name. simpl bind.
    rewrite (band_map_default _ _ Hbd). now apply alert_loop_existsb.
  - rewrite existsb_exists. unfold meets. split.
    + intros [band [Hin Hm]].
      destruct (dict_get band bd) as [[| | | | | |reading]|] eqn:Hv; try discriminate.
      destruct (reading_rating reading) as [r|] eqn:Hr; try discriminate.
      exists band, reading, r. apply Nat.leb_le in Hm. auto.
    + intros (band & reading & r & Hin & Hv & Hr & Hle).
      exists band. rewrite Hv, Hr. split; [assumption | now apply Nat.leb_le].
  - intros Habs. apply not_true_is_false. rewrite existsb_exists.
    intros [band [Hin Hm]]. unfold meets in Hm.
    rewrite (Habs _ Hin) in Hm. discriminate.
Qed.

Lemma check_alert_threshold_witness :
  exists met : bool,
    check_alert Sample.full_document ["10m"; "20m"] (rating_name Good) = Ok met
    /\ (met = true <->
        exists band reading r,
          In band ["10m"; "20m"]
          /\ dict_get band Sample.full_bands = Some (JObj reading)
          /\ reading_rating reading = Some r
          /\ position Good <= position r)
    /\ ((forall band, In band ["10m"; "20m"] ->
           dict_get band Sample.full_bands = None) -> met = false).
Proof.
  apply (check_alert_threshold Sample.full_document Sample.full_bands).
  - reflexivity.
  - intros band v. unfold Sample.full_bands, Sample.reading_10m. simpl.
    repeat match goal with
           | |- context [String.eqb band ?n] => destruct (String.eqb band n)
           end; intros [= <-]; eexists; reflexivity.
Defined.

(** C8.  A threshold that is none of the five rating names makes
    [check_alert] return [False] for every document and every band list;
    nothing is raised, whatever the document holds. *)
Theorem check_alert_unknown_threshold (data : dict) (bands : list string)
    (t : string) :
  (forall R, t <> rating_name R) ->
  check_alert data bands t = Ok false.
Proof.
  intros Hnot. unfold check_alert. rewrite str_in_rating.
  destruct (rating_of_name t) as [r|] eqn:Hr; [| reflexivity].
  apply rating_of_name_sound in Hr. now destruct (Hnot r).
Qed.

Lemma check_alert_unknown_threshold_witness :
  check_alert [("bands", JNull)] ["10m"] "NotARating" = Ok false.
Proof.
  apply check_alert_unknown_threshold.
  intros R; destruct R; discriminate.
Defined.

(* ================================================================== *)
(** * The error short-circuit *)

(** C5.  A document with an [error] field holding the message [m] makes
    [format_standard] and [format_compact] both return exactly
    [Error: m], whatever else the document holds and whichever bands are
    requested. *)
Theorem error_short_circuit {RT : Runtime} (data : dict) (bands : list string)
    (use_ascii : bool) (m : string) :
  dict_get "error" data = Some (JStr m) ->
  format_standard data bands use_ascii = Ok ("Error: " ++ m)
  /\ format_compact data bands = Ok ("Error: " ++ m).
Proof.
  intros Herr. unfold format_standard, format_compact, dict_has, py_getitem.
  rewrite Herr. simpl. split; reflexivity.
Qed.

Lemma error_short_circuit_witness :
  format_standard (RT := Sample.runtime)
      (("error", JStr "service unavailable") :: Sample.full_document)
      ["10m"] false
    = Ok "Error: service unavailable"
  /\ format_compact (RT := Sample.runtime)
      (("error", JStr "service unavailable") :: Sample.full_document)
      ["10m"]
    = Ok "Error: service unavailable".
Proof.
  apply (error_short_circuit (RT := Sample.runtime)
           (("error", JStr "service unavailable") :: Sample.full_document)
           ["10m"] false "service unavailable").
  reflexivity.
Defined.

(* ================================================================== *)
(** * The band list of main *)

Lemma filter_subsequence (f : string -> bool) (l : list string) :
  subsequence (filter f l) l.
Proof.
  induction l as [|x l IH]; simpl; [constructor|].
  destruct (f x); now constructor.
Qed.

Lemma select_bands_filter (requested bands : list string) :
  requested <> [] ->
  select_bands requested = Selected bands ->
  bands = filter (fun b => str_in b ALL_BANDS) requested /\ bands <> [].
Proof.
  intros Hne. unfold select_bands.
  destruct requested as [|x rest]; [now destruct Hne|].
  destruct (filter _ (x :: rest)) as [|y l]; [discriminate|].
  intros [= <-]. split; [reflexivity | discriminate].
Qed.

(** C1, as the program has it.  When the user names bands, the list
    handed on holds exactly the named bands that are canonical, in the
    order the user gave them and as often as the user gave them; it is
    never empty. *)
Theorem select_bands_user_order (requested bands : list string) :
  requested <> [] ->
  select_bands requested = Selected bands ->
  (forall b, In b bands <-> In b requested /\ In b ALL_BANDS)
  /\ subsequence bands requested
  /\ (forall b, In b ALL_BANDS ->
        count_occ string_dec bands b = count_occ string_dec requested b)
  /\ bands <> [].
Proof.
  intros Hne Hsel.
  destruct (select_bands_filter _ _ Hne Hsel) as [-> Hbands].
  split; [| split; [| split]].
  - intros b. rewrite filter_In, str_in_In. reflexivity.
  - apply filter_subsequence.
  - intros b Hall. clear Hne Hsel Hbands.
    induction requested as [|x rest IH]; [reflexivity|].
    cbn [filter count_occ].
    destruct (str_in x ALL_BANDS) eqn:Hx; cbn [count_occ].
    + destruct (string_dec x b); now rewrite IH.
    + destruct (string_dec x b) as [->|]; [| exact IH].
      apply str_in_In in Hall. congruence.
  - exact Hbands.
Qed.

Lemma select_bands_user_order_witness :
  (forall b, In b ["40m"; "10m"] <->
             In b ["40m"; "80m"; "10m"] /\ In b ALL_BANDS)
  /\ subsequence ["40m"; "10m"] ["40m"; "80m"; "10m"]
  /\ (forall b, In b ALL_BANDS ->
        count_occ string_dec ["40m"; "10m"] b
        = count_occ string_dec ["40m"; "80m"; "10m"] b)
  /\ ["40m"; "10m"] <> [].
Proof.
  apply (select_bands_user_order ["40m"; "80m"; "10m"] ["40m"; "10m"]).
  - discriminate.
  - reflexivity.
Defined.

(** C1, as the specification words it, fails: asked for [40m 10m], the
    program hands on [40m; 10m], not the canonical order [10m; 40m]. *)
Lemma select_bands_not_canonical_order :
  select_bands ["40m"; "10m"] = Selected ["40m"; "10m"]
  /\ canonical_intersection ["40m"; "10m"] = ["10m"; "40m"]
  /\ select_bands ["40m"; "10m"]
      <> Selected (canonical_intersection ["40m"; "10m"]).
Proof.
  split; [reflexivity | split; [reflexivity | discriminate]].
Qed.

(* ================================================================== *)
(** * Documents with a key taken out *)

Lemma dict_get_remove_other (k k' : string) (d : dict) :
  k' <> k -> dict_get k' (dict_remove k d) = dict_get k' d.
Proof.
  intros Hne. induction d as [|[k0 v0] d IH]; simpl; [reflexivity|].
  destruct (String.eqb_spec k k0) as [->|]; simpl.
  - apply String.eqb_neq in Hne. now rewrite Hne.
  - now rewrite IH.
Qed.

Lemma dict_get_remove_same (k : string) (d : dict) :
  dict_get k (dict_remove k d) = None.
Proof.
  induction d as [|[k0 v0] d IH]; simpl; [reflexivity|].
  destruct (String.eqb k k0) eqn:Hk; simpl; [assumption | now rewrite Hk].
Qed.

Lemma dict_has_remove_other (k k' : string) (d : dict) :
  k' <> k -> dict_has k' (dict_remove k d) = dict_has k' d.
Proof. intros Hne. unfold dict_has. now rewrite dict_get_remove_other. Qed.

Lemma dict_get_default_remove_other (k k' : string) (v : json) (d : dict) :
  k' <> k -> dict_get_default k' v (dict_remove k d) = dict_get_default k' v d.
Proof. intros Hne. unfold dict_get_default. now rewrite dict_get_remove_other. Qed.

Ltac other_key :=
  first [ rewrite dict_get_default_remove_other by discriminate
        | rewrite dict_has_remove_other by discriminate
        | rewrite dict_get_remove_other by discriminate ].

Lemma Ok_inj {A : Type} (a b : A) : Ok a = Ok b -> a = b.
Proof. now intros [=]. Qed.

(* ================================================================== *)
(** * format_standard, block by block *)

(** A report whose blocks can all be rendered is these blocks, in order. *)
Lemma format_standard_blocks {RT : Runtime} (data : dict) (bands : list string)
    (use_ascii : bool) (rows solar storm footer : list string) :
  dict_has "error" data = false ->
  standard_rows (if use_ascii then SYMBOLS_ASCII else SYMBOLS) use_ascii
    (dict_get_default "bands" (JObj []) data) bands = Ok rows ->
  solar_lines data = Ok solar ->
  storm_lines data use_ascii = Ok storm ->
  footer_lines data = Ok footer ->
  format_standard data bands use_ascii
  = Ok (join nl (report_lines (updated_lines data) rows solar storm footer)).
Proof.
  intros Herr Hrows Hsolar Hstorm Hfooter.
  unfold format_standard, standard_lines, report_lines.
  rewrite Herr, Hrows, Hsolar, Hstorm, Hfooter. cbn [bind].
  do 2 f_equal. repeat rewrite <- app_assoc. reflexivity.
Qed.

(* ================================================================== *)
(** * format_standard: the timestamp *)

Lemma str_app_assoc (s1 s2 s3 : string) : (s1 ++ s2) ++ s3 = s1 ++ (s2 ++ s3).
Proof. induction s1 as [|c s1 IH]; simpl; [reflexivity | now rewrite IH]. Qed.

Lemma prefix_empty (s : string) : String.prefix "" s = true.
Proof. now destruct s. Qed.

(** Replacing a one-character pattern works piece by piece. *)
Lemma str_replace_char_app (c : ascii) (new s1 s2 : string) :
  str_replace (String c "") new (s1 ++ s2)
  = str_replace (String c "") new s1 ++ str_replace (String c "") new s2.
Proof.
  unfold str_replace. induction s1 as [|a s1 IH]; [reflexivity|].
  cbn [append replace_from String.prefix String.length Nat.sub].
  rewrite !prefix_empty.
  destruct (ascii_dec c a); rewrite IH; [now rewrite str_app_assoc | reflexivity].
Qed.

Lemma str_replace_Z_suffix (t : string) :
  str_replace "Z" "+00:00" (t ++ "Z") = str_replace "Z" "+00:00" t ++ "+00:00".
Proof. now rewrite str_replace_char_app. Qed.

(** The timestamp block of a document with an [updated] field. *)
Lemma updated_lines_field {RT : Runtime} (data : dict) (v : json) :
  dict_get "updated" data = Some v ->
  updated_lines data
  = match v with
    | JStr s =>
        match fromisoformat (str_replace "Z" "+00:00" s) with
        | Some ts => ["  Updated: " ++ strftime ts ++ " UTC"]
        | None => []
        end
    | _ => []
    end.
Proof.
  intros Hupd. unfold updated_lines, dict_has, py_getitem. rewrite Hupd.
  destruct v; try reflexivity.
  cbn [bind py_replace]. unfold py_fromisoformat.
  now destruct (fromisoformat (str_replace "Z" "+00:00" s)).
Qed.

(** C9.  Take a document without an [error] field that has an [updated]
    field and is otherwise valid: its table rows, solar block, storm
    block and footer can be rendered.  Then [format_standard] returns a
    report.  It hands the field's text, every [Z] replaced by [+00:00]
    (so a [Z] suffix becomes the offset [+00:00]), to the ISO-8601 parser.
    When the parser accepts it, the line [Updated: ... UTC] follows the
    header; when the parser rejects it, or the field is not text at all,
    the report has no timestamp line and is returned all the same. *)
Theorem format_standard_timestamp {RT : Runtime} (data : dict)
    (bands : list string) (use_ascii : bool) (v : json)
    (rows solar storm footer : list string) :
  dict_has "error" data = false ->
  dict_get "updated" data = Some v ->
  standard_rows (if use_ascii then SYMBOLS_ASCII else SYMBOLS) use_ascii
    (dict_get_default "bands" (JObj []) data) bands = Ok rows ->
  solar_lines data = Ok solar ->
  storm_lines data use_ascii = Ok storm ->
  footer_lines data = Ok footer ->
  (forall t, str_replace "Z" "+00:00" (t ++ "Z")
             = str_replace "Z" "+00:00" t ++ "+00:00")
  /\ match v with
     | JStr s =>
         match fromisoformat (str_replace "Z" "+00:00" s) with
         | Some ts =>
             format_standard data bands use_ascii
             = Ok (join nl
                     (report_lines ["  Updated: " ++ strftime ts ++ " UTC"]
                        rows solar storm footer))
         | None =>
             format_standard data bands use_ascii
             = Ok (join nl (report_lines [] rows solar storm footer))
         end
     | _ =>
         format_standard data bands use_ascii
         = Ok (join nl (report_lines [] rows solar storm footer))
     end.
Proof.
  intros Herr Hupd Hrows Hsolar Hstorm Hfooter.
  split; [exact str_replace_Z_suffix|].
  rewrite (format_standard_blocks _ _ _ _ _ _ _ Herr Hrows Hsolar Hstorm Hfooter).
  rewrite (updated_lines_field _ _ Hupd).
  destruct v; try reflexivity.
  now destruct (fromisoformat (str_replace "Z" "+00:00" s)).
Qed.

Lemma format_standard_timestamp_witness :
  format_standard (RT := Sample.runtime)
    (("updated", JStr "yesterday") :: Sample.quiet_document) ["20m"] true
  = Ok (join nl
          [""; banner; title; banner;
           ""; table_header; table_rule;
           "  20m    61.0     [+++ ] Good        58.0 (Good)";
           "";
           banner; "  Source: wspr.hb9vqq.ch | 73 de HB9VQQ"; ""])
  /\ format_standard (RT := Sample.runtime)
       (("updated", JStr "2025-12-07T10:30:00Z") :: Sample.quiet_document)
       ["20m"] true
     = Ok (join nl
             [""; banner; title; banner;
              "  Updated: 2025-12-07 10:30 UTC";
              ""; table_header; table_rule;
              "  20m    61.0     [+++ ] Good        58.0 (Good)";
              "";
              banner; "  Source: wspr.hb9vqq.ch | 73 de HB9VQQ"; ""]).
Proof.
  split.
  - exact (proj2 (format_standard_timestamp (RT := Sample.runtime)
                    (("updated", JStr "yesterday") :: Sample.quiet_document)
                    ["20m"] true (JStr "yesterday")
                    ["  20m    61.0     [+++ ] Good        58.0 (Good)"] [] []
                    [banner; "  Source: wspr.hb9vqq.ch | 73 de HB9VQQ"; ""]
                    eq_refl eq_refl eq_refl eq_refl eq_refl eq_refl)).
  - exact (proj2 (format_standard_timestamp (RT := Sample.runtime)
                    (("updated", JStr "2025-12-07T10:30:00Z")
                       :: Sample.quiet_document)
                    ["20m"] true (JStr "2025-12-07T10:30:00Z")
                    ["  20m    61.0     [+++ ] Good        58.0 (Good)"] [] []
                    [banner; "  Source: wspr.hb9vqq.ch | 73 de HB9VQQ"; ""]
                    eq_refl eq_refl eq_refl eq_refl eq_refl eq_refl)).
Defined.

(* ================================================================== *)
(** * format_standard: the storm line *)

Lemma num_geb_at_least (c : Z) (x : pyfloat) : at_least c x -> num_geb x c = true.
Proof.
  destruct x as [q|negative|]; simpl; [| intros ->; reflexivity | tauto].
  apply Qle_bool_iff.
Qed.

Lemma num_geb_below (c : Z) (x : pyfloat) : below c x -> num_geb x c = false.
Proof.
  destruct x as [q|negative|]; simpl; [| intros ->; reflexivity | tauto].
  intros Hlt. apply not_true_is_false. rewrite Qle_bool_iff.
  now apply Qlt_not_le.
Qed.

Lemma below_30_50 (x : pyfloat) : below 30 x -> below 50 x.
Proof.
  destruct x as [q|negative|]; simpl; auto.
  intros Hlt. apply (Qlt_trans _ (inject_Z 30)); [assumption | reflexivity].
Qed.

Lemma format_f_value (prec : nat) (v : json) (x : pyfloat) :
  float_value v = Ok x -> format_f prec v = Ok (num_fixed prec x).
Proof. intros Hx. unfold format_f. now rewrite Hx. Qed.

Section Storm.

Context {RT : Runtime}.

(** The storm block for a probability that is a number. *)
Lemma storm_lines_numeric (data storm : dict) (use_ascii : bool) (p : json)
    (x : pyfloat) :
  dict_get "storm" data = Some (JObj storm) ->
  dict_get "probability" storm = Some p ->
  as_num p = Some x ->
  storm_lines data use_ascii
  = if num_geb x 50 then
      prob_s <- format_f 0 p ;;
      kp_s <- format_f 1 (dict_get_default "predicted_kp" (JInt 0) storm) ;;
      Ok [storm_line true use_ascii prob_s kp_s]
    else if num_geb x 30 then
      prob_s <- format_f 0 p ;;
      kp_s <- format_f 1 (dict_get_default "predicted_kp" (JInt 0) storm) ;;
      Ok [storm_line false use_ascii prob_s kp_s]
    else Ok [].
Proof.
  intros Hstorm Hp Hx. unfold storm_lines.
  replace (dict_get_default "storm" JNull data) with (JObj storm)
    by (unfold dict_get_default; now rewrite Hstorm).
  assert (Htruthy : truthy (JObj storm) = true)
    by (destruct storm; [discriminate | reflexivity]).
  rewrite Htruthy. cbn [py_get py_getitem].
  replace (dict_get_default "probability" JNull storm) with p
    by (unfold dict_get_default; now rewrite Hp).
  rewrite Hp. cbn [bind].
  assert (Hnn : match p with JNull => false | _ => true end = true)
    by (destruct p; try reflexivity; discriminate).
  rewrite Hnn. unfold py_ge. rewrite Hx. cbn [bind].
  destruct (num_geb x 50).
  - destruct (format_f 0 p); [| reflexivity]. cbn [bind].
    destruct (format_f 1 _); [| reflexivity]. now destruct use_ascii.
  - destruct (num_geb x 30); [| reflexivity].
    destruct (format_f 0 p); [| reflexivity]. cbn [bind].
    destruct (format_f 1 _); reflexivity.
Qed.

(** No storm block without a probability: the record lacks it or binds it
    to [null], or the document has no [storm]. *)
Lemma storm_lines_no_probability (data storm : dict) (use_ascii : bool) :
  storm_record data = Some storm ->
  dict_get "probability" storm = None \/ dict_get "probability" storm = Some JNull ->
  storm_lines data use_ascii = Ok [].
Proof.
  unfold storm_record, storm_lines, dict_get_default.
  destruct (dict_get "storm" data) as [[]|]; try discriminate;
    try reflexivity.
  intros [= ->] Hp. destruct (truthy (JObj storm)); [| reflexivity].
  cbn [py_get]. unfold dict_get_default.
  destruct Hp as [-> | ->]; reflexivity.
Qed.

Lemma storm_record_probability (data storm : dict) (p : json) :
  storm_record data = Some storm ->
  dict_get "probability" storm = Some p ->
  dict_get "storm" data = Some (JObj storm).
Proof.
  unfold storm_record.
  destruct (dict_get "storm" data) as [[]|]; try discriminate;
    intros [= <-]; try discriminate; reflexivity.
Qed.

End Storm.

(** C7.  Take a document without an [error] field whose table rows, solar
    block and footer can be rendered, and whose [storm] is a record (or
    missing).  When the record has a numeric [probability] p,
    [format_standard] returns the report with, between the solar block
    and the footer: the warning-marked storm line when p >= 50; the
    unmarked storm line when 30 <= p < 50; no line when p < 30.  The
    line shows p without decimals and [predicted_kp] (0 when absent)
    with one decimal, as the floats the format makes of them.  When the
    record has no [probability], or binds it to [null], the report is
    returned without a storm line. *)
Theorem format_standard_storm_line {RT : Runtime} (data storm : dict)
    (bands : list string) (use_ascii : bool) (rows solar footer : list string) :
  dict_has "error" data = false ->
  storm_record data = Some storm ->
  standard_rows (if use_ascii then SYMBOLS_ASCII else SYMBOLS) use_ascii
    (dict_get_default "bands" (JObj []) data) bands = Ok rows ->
  solar_lines data = Ok solar ->
  footer_lines data = Ok footer ->
  let report := fun block =>
    Ok (join nl (report_lines (updated_lines data) rows solar block footer)) in
  let kp := dict_get_default "predicted_kp" (JInt 0) storm in
  match dict_get "probability" storm with
  | None => format_standard data bands use_ascii = report []
  | Some JNull => format_standard data bands use_ascii = report []
  | Some p =>
      forall x, as_num p = Some x ->
        (at_least 50 x ->
         forall xf yf, float_value p = Ok xf -> float_value kp = Ok yf ->
           format_standard data bands use_ascii
           = report [storm_line true use_ascii (num_fixed 0 xf) (num_fixed 1 yf)])
        /\ (at_least 30 x -> below 50 x ->
            forall xf yf, float_value p = Ok xf -> float_value kp = Ok yf ->
              format_standard data bands use_ascii
              = report [storm_line false use_ascii (num_fixed 0 xf)
                          (num_fixed 1 yf)])
        /\ (below 30 x -> format_standard data bands use_ascii = report [])
  end.
Proof.
  intros Herr Hrec Hrows Hsolar Hfooter report kp.
  assert (Hnone : dict_get "probability" storm = None
                  \/ dict_get "probability" storm = Some JNull ->
                  format_standard data bands use_ascii = report []).
  { intros Hp. apply format_standard_blocks; try assumption.
    now apply (storm_lines_no_probability data storm). }
  assert (Hnum : forall p x,
             dict_get "probability" storm = Some p -> as_num p = Some x ->
             (at_least 50 x ->
              forall xf yf, float_value p = Ok xf -> float_value kp = Ok yf ->
                format_standard data bands use_ascii
                = report [storm_line true use_ascii (num_fixed 0 xf)
                            (num_fixed 1 yf)])
             /\ (at_least 30 x -> below 50 x ->
                 forall xf yf, float_value p = Ok xf -> float_value kp = Ok yf ->
                   format_standard data bands use_ascii
                   = report [storm_line false use_ascii (num_fixed 0 xf)
                               (num_fixed 1 yf)])
             /\ (below 30 x ->
                 format_standard data bands use_ascii = report [])).
  { intros p x Hp Hx.
    pose proof (storm_record_probability _ _ _ Hrec Hp) as Hstorm.
    pose proof (storm_lines_numeric data storm use_ascii p x Hstorm Hp Hx)
      as Hblock.
    fold kp in Hblock.
    split; [| split].
    - intros H50 xf yf Hxf Hyf. apply format_standard_blocks; try assumption.
      rewrite Hblock, (num_geb_at_least _ _ H50).
      now rewrite (format_f_value 0 _ _ Hxf), (format_f_value 1 _ _ Hyf).
    - intros H30 H50 xf yf Hxf Hyf. apply format_standard_blocks; try assumption.
      rewrite Hblock, (num_geb_below _ _ H50), (num_geb_at_least _ _ H30).
      now rewrite (format_f_value 0 _ _ Hxf), (format_f_value 1 _ _ Hyf).
    - intros H30. apply format_standard_blocks; try assumption.
      rewrite Hblock, (num_geb_below _ _ (below_30_50 _ H30)),
        (num_geb_below _ _ H30).
      reflexivity. }
  destruct (dict_get "probability" storm) as [p|] eqn:Hp.
  - destruct p; try (intros y Hy; exact (Hnum _ y eq_refl Hy)).
    apply Hnone. now right.
  - apply Hnone. now left.
Qed.

Lemma format_standard_storm_line_witness :
  format_standard (RT := Sample.runtime) Sample.full_document ["20m"] true
  = Ok (join nl
          [""; banner; title; banner;
           "  Updated: 2025-12-07 10:30 UTC";
           ""; table_header; table_rule;
           "  20m    61.3     [+++ ] Good        58.0 (Good)";
           "";
           "  Solar: SFI 150 | Kp 1.7";
           "  [!] Storm: 55% probability -> Kp 6.0";
           banner; "  Source: example.org | 73 de HB9VQQ"; ""]).
Proof.
  refine (proj1 (format_standard_storm_line (RT := Sample.runtime)
                   Sample.full_document
                   [("probability", JInt 55);
                    ("predicted_kp", JFloat (FFinite (6 # 1)))]
                   ["20m"] true
                   ["  20m    61.3     [+++ ] Good        58.0 (Good)"]
                   ["  Solar: SFI 150 | Kp 1.7"]
                   [banner; "  Source: example.org | 73 de HB9VQQ"; ""]
                   eq_refl eq_refl eq_refl eq_refl eq_refl
                   (FFinite (inject_Z 55)) eq_refl)
            _ (FFinite (inject_Z 55)) (FFinite (6 # 1)) eq_refl eq_refl).
  apply Qle_bool_iff. reflexivity.
Defined.

(* ================================================================== *)
(** * format_standard: the solar line *)

Section Solar.

Context {RT : Runtime}.

(** The solar block of a document whose [solar] is a record: the line is
    there when [sfi] and [kp] are both truthy (present, not [null], not
    zero), and shows the floats the format makes of them. *)
Lemma solar_lines_numeric (data solar : dict) :
  dict_get "solar" data = Some (JObj solar) ->
  let sfi := dict_get_default "sfi" JNull solar in
  let kp := dict_get_default "kp" JNull solar in
  solar_lines data
  = if truthy sfi && truthy kp
    then sfi_s <- format_f 0 sfi ;;
         kp_s <- format_f 1 kp ;;
         Ok ["  Solar: SFI " ++ sfi_s ++ " | Kp " ++ kp_s]
    else Ok [].
Proof.
  intros Hsolar sfi kp. unfold solar_lines.
  replace (dict_get_default "solar" (JObj []) data) with (JObj solar)
    by (unfold dict_get_default; now rewrite Hsolar).
  cbn [py_get py_getitem bind]. fold sfi kp.
  destruct (truthy sfi) eqn:Hs; cbn [bind andb]; [| reflexivity].
  destruct (truthy kp) eqn:Hk; [| reflexivity].
  assert (Hsfi : dict_get "sfi" solar = Some sfi).
  { unfold sfi, dict_get_default in *.
    destruct (dict_get "sfi" solar); [reflexivity | discriminate]. }
  assert (Hkp : dict_get "kp" solar = Some kp).
  { unfold kp, dict_get_default in *.
    destruct (dict_get "kp" solar); [reflexivity | discriminate]. }
  rewrite Hsfi, Hkp. reflexivity.
Qed.

End Solar.

(** C6, on the input where the program departs from it.  The [solar]
    record of the quiet-day document has both [sfi] and [kp] (Kp is 0),
    yet the report has no solar line: the blank line after the table is
    followed at once by the footer.  With Kp 1 the line is there. *)
Theorem format_standard_solar_kp_zero {RT : Runtime} :
  dict_get "solar" Sample.quiet_document = Some (JObj Sample.quiet_solar)
  /\ dict_has "sfi" Sample.quiet_solar = true
  /\ dict_has "kp" Sample.quiet_solar = true
  /\ format_standard Sample.quiet_document ALL_BANDS true
     = Ok (join nl [""; banner; title; banner; ""; table_header; table_rule;
                    "  20m    61.0     [+++ ] Good        58.0 (Good)";
                    "";
                    banner; "  Source: wspr.hb9vqq.ch | 73 de HB9VQQ"; ""])
  /\ format_standard Sample.unsettled_document ALL_BANDS true
     = Ok (join nl [""; banner; title; banner; ""; table_header; table_rule;
                    "  20m    61.0     [+++ ] Good        58.0 (Good)";
                    "";
                    "  Solar: SFI 150 | Kp 1.0";
                    banner; "  Source: wspr.hb9vqq.ch | 73 de HB9VQQ"; ""]).
Proof. repeat split; reflexivity. Qed.

(* ================================================================== *)
(** * format_json *)

Lemma list_eqb_eq (l1 l2 : list string) : list_eqb l1 l2 = true <-> l1 = l2.
Proof.
  revert l2. induction l1 as [|x l1 IH]; intros [|y l2]; simpl;
    try (split; [discriminate | congruence]); [tauto|].
  rewrite andb_true_iff, String.eqb_eq, IH. split.
  - intros [-> ->]. reflexivity.
  - intros [= -> ->]. auto.
Qed.

Lemma list_eqb_neq (l1 l2 : list string) : l1 <> l2 -> list_eqb l1 l2 = false.
Proof.
  intros Hne. apply not_true_is_false. now rewrite list_eqb_eq.
Qed.

Lemma strict_subset_neq (bands : list string) :
  strict_subset bands ALL_BANDS -> bands <> ALL_BANDS.
Proof.
  intros [_ [c [Hin Hout]]] ->. contradiction.
Qed.

Lemma dict_get_set_same (k : string) (v : json) (d : dict) :
  dict_get k (dict_set k v d) = Some v.
Proof.
  induction d as [|[k' v'] d IH]; simpl.
  - now rewrite String.eqb_refl.
  - destruct (String.eqb k k') eqn:Hk; simpl; rewrite Hk; auto.
Qed.

Lemma dict_get_set_other (k k' : string) (v : json) (d : dict) :
  k' <> k -> dict_get k' (dict_set k v d) = dict_get k' d.
Proof.
  intros Hne. induction d as [|[k0 v0] d IH]; simpl.
  - apply String.eqb_neq in Hne. now rewrite Hne.
  - destruct (String.eqb_spec k k0) as [->|]; simpl.
    + apply String.eqb_neq in Hne. now rewrite Hne.
    + destruct (String.eqb k' k0); auto.
Qed.

Lemma dict_keys_has (k : string) (d : dict) :
  In k (dict_keys d) <-> dict_has k d = true.
Proof.
  unfold dict_has, dict_keys. induction d as [|[k' v] d IH]; simpl.
  - split; [tauto | discriminate].
  - destruct (String.eqb_spec k k') as [->|Hne].
    + split; auto.
    + rewrite <- IH. split; [intros [Heq|]; [now destruct Hne | assumption] | auto].
Qed.

(** The comprehension over a [bands] mapping [bd], entry by entry. *)
Lemma requested_bands_lookup (data bd : dict) (bands : list string) :
  band_map data = Some bd ->
  forall acc, exists out,
    requested_bands data bands acc = Ok out
    /\ forall b, dict_get b out =
                 if str_in b bands && dict_has b bd then dict_get b bd
                 else dict_get b acc.
Proof.
  intros Hbd. induction bands as [|x rest IH]; intros acc.
  - exists acc. split; [reflexivity | intros b; reflexivity].
  - cbn [requested_bands]. rewrite (band_map_default _ _ Hbd).
    cbn [py_contains py_get bind].
    destruct (dict_has x bd) eqn:Hx.
    + destruct (IH (dict_set x (dict_get_default x JNull bd) acc))
        as [out [Hout Hget]].
      exists out. split; [exact Hout|]. intros b. rewrite Hget.
      unfold str_in. cbn [existsb].
      destruct (String.eqb_spec b x) as [->|Hne].
      * rewrite Hx. simpl.
        destruct (existsb (String.eqb x) rest); simpl; [reflexivity|].
        rewrite dict_get_set_same. unfold dict_get_default.
        unfold dict_has in Hx. now destruct (dict_get x bd).
      * simpl. destruct (existsb (String.eqb b) rest && dict_has b bd);
          [reflexivity | now apply dict_get_set_other].
    + destruct (IH acc) as [out [Hout Hget]].
      exists out. split; [exact Hout|]. intros b. rewrite Hget.
      unfold str_in. cbn [existsb].
      destruct (String.eqb_spec b x) as [->|Hne]; [| reflexivity].
      rewrite Hx. simpl. now rewrite andb_false_r.
Qed.

(** The reduced object, for any band list other than [ALL_BANDS]. *)
Lemma format_json_object_reduced (data bd : dict) (bands : list string) :
  bands <> ALL_BANDS ->
  band_map data = Some bd ->
  exists band_map',
    format_json_object data bands
    = Ok (JObj
            (let filtered :=
               [("updated", dict_get_default "updated" JNull data);
                ("bands", JObj band_map');
                ("solar", dict_get_default "solar" JNull data)] in
             match dict_get "storm" data with
             | Some storm => dict_set "storm" storm filtered
             | None => filtered
             end))
    /\ forall b, dict_get b band_map' =
                 if str_in b bands && dict_has b bd then dict_get b bd else None.
Proof.
  intros Hne Hbd. unfold format_json_object.
  rewrite (list_eqb_neq _ _ Hne). cbn [negb].
  destruct (requested_bands_lookup data bd bands Hbd []) as [out [Hout Hget]].
  exists out. rewrite Hout. cbn [bind]. split; [| exact Hget].
  unfold dict_has, py_getitem. destruct (dict_get "storm" data); reflexivity.
Qed.

(** C4.  When the requested bands are a strict subset of the canonical
    set and the document's [bands] is a mapping, [format_json] serializes
    an object whose [bands] mapping has exactly the requested bands that
    the document's mapping has, each with its original reading, and which
    has a [storm] key exactly when the document has one (with the same
    value, whatever that is). *)
Theorem format_json_reduction {RT : Runtime} (data bd : dict)
    (bands : list string) :
  strict_subset bands ALL_BANDS ->
  band_map data = Some bd ->
  exists out out_bands,
    format_json data bands = Ok (dumps (JObj out))
    /\ dict_get "bands" out = Some (JObj out_bands)
    /\ (forall b, In b (dict_keys out_bands) <->
                  In b bands /\ In b (dict_keys bd))
    /\ (forall b, In b (dict_keys out_bands) ->
                  dict_get b out_bands = dict_get b bd)
    /\ (In "storm" (dict_keys out) <-> In "storm" (dict_keys data))
    /\ dict_get "storm" out = dict_get "storm" data.
Proof.
  intros Hsub Hbd.
  destruct (format_json_object_reduced data bd bands
              (strict_subset_neq _ Hsub) Hbd) as [bm [Hobj Hget]].
  eexists. exists bm. unfold format_json. rewrite Hobj. cbn [bind].
  split; [reflexivity|].
  assert (Hkeys : forall b, In b (dict_keys bm) <->
                            In b bands /\ In b (dict_keys bd)).
  { intros b. rewrite !dict_keys_has. unfold dict_has at 1. rewrite Hget.
    rewrite <- str_in_In.
    destruct (str_in b bands); simpl.
    - destruct (dict_has b bd) eqn:Hb; [| split; [discriminate | tauto]].
      unfold dict_has in Hb. destruct (dict_get b bd); [tauto | discriminate].
    - split; [discriminate | intros [? _]; discriminate]. }
  split; [| split; [exact Hkeys | split; [| split]]].
  - destruct (dict_get "storm" data); reflexivity.
  - intros b Hb. apply Hkeys in Hb. destruct Hb as [Hb1 Hb2].
    rewrite Hget. apply str_in_In in Hb1. apply dict_keys_has in Hb2.
    now rewrite Hb1, Hb2.
  - rewrite !dict_keys_has. unfold dict_has.
    destruct (dict_get "storm" data); simpl; tauto.
  - destruct (dict_get "storm" data); reflexivity.
Qed.

Lemma format_json_reduction_witness :
  exists out out_bands,
    format_json (RT := Sample.runtime) Sample.full_document ["40m"; "15m"]
    = Ok (Sample.serialize (JObj out))
    /\ dict_get "bands" out = Some (JObj out_bands)
    /\ (forall b, In b (dict_keys out_bands) <->
                  In b ["40m"; "15m"] /\ In b (dict_keys Sample.full_bands))
    /\ (forall b, In b (dict_keys out_bands) ->
                  dict_get b out_bands = dict_get b Sample.full_bands)
    /\ (In "storm" (dict_keys out) <-> In "storm" (dict_keys Sample.full_document))
    /\ dict_get "storm" out = dict_get "storm" Sample.full_document.
Proof.
  apply (format_json_reduction (RT := Sample.runtime)
           Sample.full_document Sample.full_bands ["40m"; "15m"]).
  - split.
    + intros b [<-|[<-|[]]]; simpl; auto.
    + exists "10m". split; [simpl; auto|].
      intros [H|[H|[]]]; discriminate.
  - reflexivity.
Defined.

(** C10.  For a band list other than [ALL_BANDS] (and a document whose
    [bands] is a mapping), the object [format_json] serializes always has
    the keys [updated] and [solar]; each is bound to the document's value,
    or to [null] when the document lacks the field. *)
Theorem format_json_reduced_keys {RT : Runtime} (data bd : dict)
    (bands : list string) :
  bands <> ALL_BANDS ->
  band_map data = Some bd ->
  exists out,
    format_json data bands = Ok (dumps (JObj out))
    /\ In "updated" (dict_keys out) /\ In "solar" (dict_keys out)
    /\ dict_get "updated" out
       = Some (match dict_get "updated" data with Some v => v | None => JNull end)
    /\ dict_get "solar" out
       = Some (match dict_get "solar" data with Some v => v | None => JNull end).
Proof.
  intros Hne Hbd.
  destruct (format_json_object_reduced data bd bands Hne Hbd) as [bm [Hobj _]].
  eexists. unfold format_json. rewrite Hobj. cbn [bind].
  split; [reflexivity|].
  unfold dict_get_default.
  destruct (dict_get "storm" data); simpl; auto 6.
Qed.

Lemma format_json_reduced_keys_witness :
  exists out,
    format_json (RT := Sample.runtime) Sample.peak_document ["10m"]
    = Ok (Sample.serialize (JObj out))
    /\ In "updated" (dict_keys out) /\ In "solar" (dict_keys out)
    /\ dict_get "updated" out = Some JNull
    /\ dict_get "solar" out = Some JNull.
Proof.
  apply (format_json_reduced_keys (RT := Sample.runtime)
           Sample.peak_document [("10m", Sample.reading_10m)] ["10m"]).
  - discriminate.
  - reflexivity.
Defined.

(* ================================================================== *)
(** * Sample runs *)

Example compact_peak :
  format_compact (RT := Sample.runtime) Sample.peak_document ["10m"]
  = Ok "10m:Fair(42)⬆25%".
Proof. reflexivity. Qed.

Example error_runs :
  format_standard (RT := Sample.runtime) Sample.error_document ALL_BANDS false
  = Ok "Error: service unavailable"
  /\ format_compact (RT := Sample.runtime) Sample.error_document ALL_BANDS
     = Ok "Error: service unavailable"
  /\ exists out,
       format_json (RT := Sample.runtime) Sample.error_document ["10m"]
       = Ok (Sample.serialize (JObj out))
       /\ dict_keys out = ["updated"; "bands"; "solar"].
Proof. repeat split. eexists. split; reflexivity. Qed.

Example standard_peak_row :
  standard_rows (RT := Sample.runtime) SYMBOLS false
    (JObj [("10m", Sample.reading_10m)]) ["10m"; "15m"]
  = Ok ["  10m    42.0     🟠 Fair ⬆+25%       45.0 (Fair)"].
Proof. reflexivity. Qed.

Example standard_footer_strips_scheme :
  footer_lines [("source", JStr "https://example.org")]
  = Ok [banner; "  Source: example.org | 73 de HB9VQQ"; ""].
Proof. reflexivity. Qed.

Example standard_storm_levels :
  storm_lines [("storm", JObj [("probability", JInt 55);
                               ("predicted_kp", JFloat (FFinite (6 # 1)))])] false
  = Ok ["  ⚠️  Storm: 55% probability → Kp 6.0"]
  /\ storm_lines [("storm", JObj [("probability", JInt 35);
                                  ("predicted_kp", JFloat (FFinite (45 # 10)))])] false
     = Ok ["  Storm: 35% probability → Kp 4.5"]
  /\ storm_lines [("storm", JObj [("probability", JInt 10);
                                  ("predicted_kp", JFloat (FFinite (2 # 1)))])] false
     = Ok [].
Proof. repeat split; reflexivity. Qed.

Example standard_updated_line :
  updated_lines (RT := Sample.runtime) Sample.full_document
  = ["  Updated: 2025-12-07 10:30 UTC"].
Proof. reflexivity. Qed.

Example alert_runs :
  check_alert Sample.full_document ALL_BANDS "Good" = Ok true
  /\ check_alert Sample.full_document ["10m"; "40m"] "Good" = Ok false
  /\ check_alert Sample.full_document ["40m"] "VeryPoor" = Ok true
  /\ check_alert Sample.full_document ["15m"] "VeryPoor" = Ok false.
Proof. repeat split; reflexivity. Qed.

Example select_bands_runs :
  select_bands [] = Selected ALL_BANDS
  /\ select_bands ["20m"; "80m"; "10m"; "20m"] = Selected ["20m"; "10m"; "20m"]
  /\ select_bands ["80m"]
     = NoValidBands "Error: No valid bands specified. Use: 10m, 15m, 20m, 40m".
Proof. repeat split; reflexivity. Qed.

Example malformed_documents_raise :
  format_compact (RT := Sample.runtime) [("bands", JNull)] ["10m"]
  = Raise TypeError
  /\ format_standard (RT := Sample.runtime) [("solar", JNull)] ["10m"] false
     = Raise AttributeError
  /\ check_alert [("bands", JObj [("10m", JNull)])] ["10m"] "Good"
     = Raise AttributeError.
Proof. repeat split; reflexivity. Qed.

(* ================================================================== *)
(** * More about the band list of main *)

Lemma filter_nil_iff (f : string -> bool) (l : list string) :
  filter f l = [] <-> forall x, In x l -> f x = false.
Proof.
  induction l as [|x l IH]; simpl; [tauto|].
  destruct (f x) eqn:Hx.
  - split; [discriminate|]. intros H. specialize (H x (or_introl eq_refl)).
    congruence.
  - rewrite IH. split.
    + intros H y [<-|Hy]; auto.
    + intros H y Hy. auto.
Qed.

Lemma filter_all (f : string -> bool) (l : list string) :
  (forall x, In x l -> f x = true) -> filter f l = l.
Proof.
  induction l as [|x l IH]; simpl; intros H; [reflexivity|].
  rewrite (H x (or_introl eq_refl)), IH; auto.
Qed.

(** The band filter gives up exactly when bands were named and none of
    them is canonical; the message is always the same. *)
Theorem select_bands_rejects (requested : list string) :
  (exists message, select_bands requested = NoValidBands message)
  <-> (requested <> [] /\ forall b, In b requested -> ~ In b ALL_BANDS).
Proof.
  unfold select_bands. destruct requested as [|x rest].
  - split; [intros [m Hm]; discriminate | intros [H _]; now destruct H].
  - destruct (filter _ (x :: rest)) as [|y l] eqn:Hf.
    + split; [| intros _; eexists; reflexivity].
      intros _. split; [discriminate|].
      intros b Hb Hall. apply str_in_In in Hall.
      rewrite (proj1 (filter_nil_iff _ _) Hf b Hb) in Hall. discriminate.
    + split; [intros [m Hm]; discriminate|].
      intros [_ H]. exfalso.
      assert (Hy : In y (filter (fun b => str_in b ALL_BANDS) (x :: rest)))
        by (rewrite Hf; left; reflexivity).
      apply filter_In in Hy. destruct Hy as [Hy1 Hy2].
      apply str_in_In in Hy2. exact (H y Hy1 Hy2).
Qed.

(** Whatever the band filter hands on is non-empty, canonical, and
    passes the filter unchanged when given again. *)
Theorem select_bands_stable (requested bands : list string) :
  select_bands requested = Selected bands ->
  bands <> []
  /\ (forall b, In b bands -> In b ALL_BANDS)
  /\ select_bands bands = Selected bands.
Proof.
  unfold select_bands at 1. destruct requested as [|x rest].
  - intros [= <-]. split; [discriminate | split; [auto | reflexivity]].
  - destruct (filter _ (x :: rest)) as [|y l] eqn:Hf; [discriminate|].
    intros [= <-].
    assert (Hall : forall b, In b (y :: l) -> str_in b ALL_BANDS = true).
    { intros b Hb. rewrite <- Hf in Hb. now apply filter_In in Hb. }
    split; [discriminate | split].
    + intros b Hb. now apply str_in_In, Hall.
    + unfold select_bands. now rewrite (filter_all _ _ Hall).
Qed.

Lemma select_bands_stable_witness :
  ["20m"; "10m"; "20m"] <> []
  /\ (forall b, In b ["20m"; "10m"; "20m"] -> In b ALL_BANDS)
  /\ select_bands ["20m"; "10m"; "20m"] = Selected ["20m"; "10m"; "20m"].
Proof.
  apply (select_bands_stable ["20m"; "80m"; "10m"; "20m"]). reflexivity.
Defined.

(* ================================================================== *)
(** * More about check_alert *)

Lemma check_alert_meets (data bd : dict) (bands : list string) (R : Rating) :
  band_map data = Some bd ->
  readings_are_records bd ->
  check_alert data bands (rating_name R) = Ok (existsb (meets R bd) bands).
Proof.
  intros Hbd Hrec. unfold check_alert.
  replace (str_in (rating_name R) rating_order) with true
    by (destruct R; reflexivity).
  simpl negb. cbv iota. rewrite py_index_name. simpl bind.
  rewrite (band_map_default _ _ Hbd). now apply alert_loop_existsb.
Qed.

Lemma check_alert_not_a_name (data : dict) (bands : list string) (t : string) :
  rating_of_name t = None -> check_alert data bands t = Ok false.
Proof.
  intros Hnone. unfold check_alert. now rewrite str_in_rating, Hnone.
Qed.

Lemma meets_lower (R R' : Rating) (bd : dict) (band : string) :
  position R' <= position R -> meets R bd band = true -> meets R' bd band = true.
Proof.
  unfold meets. intros Hle.
  destruct (dict_get band bd) as [[| | | | | |reading]|]; auto.
  destruct (reading_rating reading) as [r|]; auto.
  rewrite !Nat.leb_le. lia.
Qed.

(** An alert that fires at a threshold fires at every lower one. *)
Theorem check_alert_lower_threshold (data bd : dict) (bands : list string)
    (R R' : Rating) :
  band_map data = Some bd ->
  readings_are_records bd ->
  position R' <= position R ->
  check_alert data bands (rating_name R) = Ok true ->
  check_alert data bands (rating_name R') = Ok true.
Proof.
  intros Hbd Hrec Hle.
  rewrite !(check_alert_meets _ _ _ _ Hbd Hrec).
  intros [= Hex]. f_equal. apply existsb_exists in Hex.
  destruct Hex as [band [Hin Hm]]. apply existsb_exists.
  exists band. split; [assumption | now apply (meets_lower R)].
Qed.

Lemma check_alert_lower_threshold_witness :
  check_alert Sample.full_document ["20m"] (rating_name Fair) = Ok true.
Proof.
  apply (check_alert_lower_threshold Sample.full_document Sample.full_bands
           ["20m"] Good Fair).
  - reflexivity.
  - intros band v. unfold Sample.full_bands, Sample.reading_10m. simpl.
    repeat match goal with
           | |- context [String.eqb band ?n] => destruct (String.eqb band n)
           end; intros [= <-]; eexists; reflexivity.
  - simpl. lia.
  - reflexivity.
Defined.

(** The verdict depends on which bands are requested, not on their order
    or repetition; and requesting more bands never turns an alert off. *)
Theorem check_alert_band_set (data bd : dict) (l1 l2 : list string) (t : string) :
  band_map data = Some bd ->
  readings_are_records bd ->
  (incl l1 l2 ->
   check_alert data l1 t = Ok true -> check_alert data l2 t = Ok true)
  /\ ((forall b, In b l1 <-> In b l2) ->
      check_alert data l1 t = check_alert data l2 t).
Proof.
  intros Hbd Hrec.
  destruct (rating_of_name t) as [R|] eqn:Ht.
  - apply rating_of_name_sound in Ht. subst t.
    rewrite !(check_alert_meets _ _ _ _ Hbd Hrec). split.
    + intros Hincl [= Hex]. f_equal. apply existsb_exists in Hex.
      destruct Hex as [band [Hin Hm]]. apply existsb_exists.
      exists band. split; [now apply Hincl | assumption].
    + intros Hsame. f_equal. apply eq_true_iff_eq.
      rewrite !existsb_exists.
      split; intros [band [Hin Hm]]; exists band; split;
        try assumption; now apply Hsame.
  - rewrite !(check_alert_not_a_name _ _ _ Ht). split; auto.
Qed.

Lemma check_alert_band_set_witness :
  (incl ["10m"] ["10m"; "20m"] ->
   check_alert Sample.full_document ["10m"] "Fair" = Ok true ->
   check_alert Sample.full_document ["10m"; "20m"] "Fair" = Ok true)
  /\ ((forall b, In b ["10m"] <-> In b ["10m"; "20m"]) ->
      check_alert Sample.full_document ["10m"] "Fair"
      = check_alert Sample.full_document ["10m"; "20m"] "Fair").
Proof.
  apply (check_alert_band_set Sample.full_document Sample.full_bands).
  - reflexivity.
  - intros band v. unfold Sample.full_bands, Sample.reading_10m. simpl.
    repeat match goal with
           | |- context [String.eqb band ?n] => destruct (String.eqb band n)
           end; intros [= <-]; eexists; reflexivity.
Defined.

(* ================================================================== *)
(** * Bands the document lacks *)

Section AbsentBands.

Context {RT : Runtime}.

Lemma compact_parts_present (bd : dict) (bands : list string) :
  compact_parts (JObj bd) bands = compact_parts (JObj bd) (present_bands bd bands).
Proof.
  unfold present_bands. induction bands as [|band rest IH]; [reflexivity|].
  cbn [compact_parts filter py_contains bind].
  destruct (dict_has band bd) eqn:Hb; [| exact IH].
  cbn [compact_parts py_contains bind]. rewrite Hb.
  destruct (py_getitem (JObj bd) band); [| reflexivity]. cbn [bind].
  destruct (compact_part band a); [| reflexivity]. cbn [bind].
  now rewrite IH.
Qed.

Lemma standard_rows_present (symbols : list (string * string)) (use_ascii : bool)
    (bd : dict) (bands : list string) :
  standard_rows symbols use_ascii (JObj bd) bands
  = standard_rows symbols use_ascii (JObj bd) (present_bands bd bands).
Proof.
  unfold present_bands. induction bands as [|band rest IH]; [reflexivity|].
  cbn [standard_rows filter py_contains bind].
  destruct (dict_has band bd) eqn:Hb; [| exact IH].
  cbn [standard_rows py_contains bind]. rewrite Hb.
  destruct (py_getitem (JObj bd) band); [| reflexivity]. cbn [bind].
  destruct (standard_row symbols use_ascii band a); [| reflexivity]. cbn [bind].
  now rewrite IH.
Qed.

Lemma alert_loop_present (bd : dict) (level : nat) (bands : list string) :
  alert_loop (JObj bd) level bands
  = alert_loop (JObj bd) level (present_bands bd bands).
Proof.
  unfold present_bands. induction bands as [|band rest IH]; [reflexivity|].
  cbn [alert_loop filter py_contains bind].
  destruct (dict_has band bd) eqn:Hb; [| exact IH].
  cbn [alert_loop py_contains bind]. rewrite Hb.
  destruct (py_getitem (JObj bd) band); [| reflexivity]. cbn [bind].
  destruct (py_get a "rating" (JStr "VeryPoor")); [| reflexivity]. cbn [bind].
  destruct (py_in a0 rating_order); [| exact IH].
  destruct (py_index a0 rating_order); [| reflexivity]. cbn [bind].
  destruct (level <=? a1)%nat; [reflexivity | exact IH].
Qed.

Lemma present_bands_none (bd : dict) (bands : list string) :
  (forall b, In b bands -> dict_has b bd = false) -> present_bands bd bands = [].
Proof. intros H. now apply filter_nil_iff. Qed.

End AbsentBands.

(** Requested bands that the document's mapping lacks are passed over in
    silence: the table, the compact line and the alert verdict are those
    of the request cut down to the bands the mapping has. *)
Theorem absent_bands_are_skipped {RT : Runtime} (data bd : dict)
    (bands : list string) :
  band_map data = Some bd ->
  (forall use_ascii,
     format_standard data bands use_ascii
     = format_standard data (present_bands bd bands) use_ascii)
  /\ format_compact data bands = format_compact data (present_bands bd bands)
  /\ (forall t, check_alert data bands t
                = check_alert data (present_bands bd bands) t).
Proof.
  intros Hbd. pose proof (band_map_default _ _ Hbd) as Hdef.
  split; [| split].
  - intros use_ascii. unfold format_standard, standard_lines.
    rewrite Hdef. now rewrite standard_rows_present.
  - unfold format_compact. rewrite Hdef. now rewrite compact_parts_present.
  - intros t. unfold check_alert. rewrite Hdef.
    destruct (negb (str_in t rating_order)); [reflexivity|].
    destruct (py_index (JStr t) rating_order); [| reflexivity].
    cbn [bind]. apply alert_loop_present.
Qed.

Lemma absent_bands_are_skipped_witness :
  (forall use_ascii,
     format_standard (RT := Sample.runtime) Sample.full_document
       ["15m"; "20m"] use_ascii
     = format_standard (RT := Sample.runtime) Sample.full_document
         ["20m"] use_ascii)
  /\ format_compact (RT := Sample.runtime) Sample.full_document ["15m"; "20m"]
     = format_compact (RT := Sample.runtime) Sample.full_document ["20m"]
  /\ (forall t, check_alert Sample.full_document ["15m"; "20m"] t
                = check_alert Sample.full_document ["20m"] t).
Proof.
  apply (absent_bands_are_skipped (RT := Sample.runtime)
           Sample.full_document Sample.full_bands ["15m"; "20m"]).
  reflexivity.
Defined.

(** When the document has none of the requested bands (and no [error]),
    the compact line is empty and the report is the one with no band
    requested at all: the frame without rows. *)
Theorem no_requested_band_present {RT : Runtime} (data bd : dict)
    (bands : list string) (use_ascii : bool) :
  dict_has "error" data = false ->
  band_map data = Some bd ->
  (forall b, In b bands -> dict_has b bd = false) ->
  format_compact data bands = Ok ""
  /\ format_standard data bands use_ascii = format_standard data [] use_ascii.
Proof.
  intros Herr Hbd Hnone. pose proof (band_map_default _ _ Hbd) as Hdef.
  pose proof (present_bands_none _ _ Hnone) as Hp. split.
  - unfold format_compact. rewrite Herr, Hdef, compact_parts_present, Hp.
    reflexivity.
  - unfold format_standard, standard_lines.
    rewrite Hdef, standard_rows_present, Hp. reflexivity.
Qed.

Lemma no_requested_band_present_witness :
  format_compact (RT := Sample.runtime) Sample.peak_document ["15m"; "40m"] = Ok ""
  /\ format_standard (RT := Sample.runtime) Sample.peak_document ["15m"; "40m"] true
     = format_standard (RT := Sample.runtime) Sample.peak_document [] true.
Proof.
  apply (no_requested_band_present (RT := Sample.runtime) Sample.peak_document
           [("10m", Sample.reading_10m)] ["15m"; "40m"] true).
  - reflexivity.
  - reflexivity.
  - intros b [<-|[<-|[]]]; reflexivity.
Defined.

(* ================================================================== *)
(** * The peak marker *)

Lemma num_gtb_exceeds (c : Z) (x : pyfloat) : num_gtb x c = true <-> exceeds c x.
Proof.
  destruct x as [q|negative|]; simpl.
  - rewrite negb_true_iff. split.
    + intros H. apply Qnot_le_lt. intros Hle.
      apply Qle_bool_iff in Hle. congruence.
    + intros Hlt. apply not_true_is_false. rewrite Qle_bool_iff.
      now apply Qlt_not_le.
  - destruct negative; simpl; split; congruence.
  - split; [discriminate | tauto].
Qed.

(** On a number the test [vs_typical and vs_typical > 20] is the
    comparison alone: a zero, which is falsy, is not above 20 either. *)
Lemma above_typical_number (v : json) (x : pyfloat) :
  as_num v = Some x -> above_typical v = Ok (num_gtb x 20).
Proof.
  unfold above_typical, py_gt. intros Hx. rewrite Hx.
  destruct (truthy v) eqn:Ht; [reflexivity|]. f_equal. symmetry.
  destruct v as [|b|n|[q|negative|]|s|items|fields]; simpl in Hx, Ht;
    try discriminate; injection Hx as <-.
  - subst b. reflexivity.
  - apply negb_false_iff, Z.eqb_eq in Ht. subst n. reflexivity.
  - apply negb_false_iff, Qeq_bool_iff in Ht. simpl.
    apply negb_false_iff, Qle_bool_iff. rewrite Ht. discriminate.
Qed.

(** The compact line for one requested band whose reading is a record
    whose index the format can turn into a float [i]:
    [band:rating(index)], the index shown as [i] without decimals,
    followed by the arrow and the percentage exactly when
    [vs_typical] is a number above 20; 20 itself, a negative deviation, a
    [null] or a missing [vs_typical] add nothing. *)
Theorem format_compact_one_band {RT : Runtime} (data bd reading : dict)
    (band : string) (i : pyfloat) :
  dict_has "error" data = false ->
  band_map data = Some bd ->
  dict_get band bd = Some (JObj reading) ->
  float_value (dict_get_default "index" (JInt 0) reading) = Ok i ->
  let rating := py_str (dict_get_default "rating" (JStr "?") reading) in
  let plain := band ++ ":" ++ rating ++ "(" ++ num_fixed 0 i ++ ")" in
  match dict_get "vs_typical" reading with
  | None => format_compact data [band] = Ok plain
  | Some JNull => format_compact data [band] = Ok plain
  | Some v =>
      forall x, as_num v = Some x ->
        (exceeds 20 x ->
         format_compact data [band] = Ok (plain ++ "⬆" ++ py_str v ++ "%"))
        /\ (~ exceeds 20 x -> format_compact data [band] = Ok plain)
  end.
Proof.
  intros Herr Hbd Hband Hidx rating plain.
  assert (Hstep : forall peak,
             above_typical (dict_get_default "vs_typical" JNull reading) = Ok peak ->
             format_compact data [band]
             = Ok (if peak
                   then plain ++ "⬆"
                        ++ py_str (dict_get_default "vs_typical" JNull reading)
                        ++ "%"
                   else plain)).
  { intros peak Hpeak. unfold format_compact.
    rewrite Herr, (band_map_default _ _ Hbd).
    cbn [compact_parts py_contains py_getitem bind]. unfold dict_has.
    rewrite Hband. cbn [bind]. unfold compact_part. cbn [py_get bind].
    rewrite Hpeak. cbn [bind]. rewrite (format_f_value 0 _ _ Hidx). cbn [bind].
    unfold plain, rating.
    destruct peak; cbn [bind join String.concat]; [| reflexivity].
    now rewrite !str_app_assoc. }
  assert (Hnum : forall v x,
             dict_get "vs_typical" reading = Some v -> as_num v = Some x ->
             (exceeds 20 x ->
              format_compact data [band] = Ok (plain ++ "⬆" ++ py_str v ++ "%"))
             /\ (~ exceeds 20 x -> format_compact data [band] = Ok plain)).
  { intros v x Hv Hx.
    assert (Hd : dict_get_default "vs_typical" JNull reading = v)
      by (unfold dict_get_default; now rewrite Hv).
    pose proof (Hstep (num_gtb x 20)) as Hs. rewrite Hd in Hs.
    specialize (Hs (above_typical_number _ _ Hx)).
    split; intros Hex.
    - apply num_gtb_exceeds in Hex. now rewrite Hex in Hs.
    - destruct (num_gtb x 20) eqn:Hg; [| exact Hs].
      apply num_gtb_exceeds in Hg. contradiction. }
  destruct (dict_get "vs_typical" reading) as [v|] eqn:Hv.
  - destruct v; try (intros y Hy; exact (Hnum _ y eq_refl Hy)).
    apply (Hstep false). unfold dict_get_default. now rewrite Hv.
  - apply (Hstep false). unfold dict_get_default. now rewrite Hv.
Qed.

Lemma format_compact_one_band_witness :
  format_compact (RT := Sample.runtime) Sample.peak_document ["10m"]
  = Ok ("10m:Fair(42)" ++ "⬆" ++ "25" ++ "%").
Proof.
  refine (proj1 (format_compact_one_band (RT := Sample.runtime)
                   Sample.peak_document [("10m", Sample.reading_10m)]
                   [("index", JInt 42); ("rating", JStr "Fair");
                    ("forecast", JInt 45); ("forecast_rating", JStr "Fair");
                    ("vs_typical", JInt 25)]
                   "10m" (FFinite (inject_Z 42))
                   eq_refl eq_refl eq_refl eq_refl
                   (FFinite (inject_Z 25)) eq_refl) _).
  reflexivity.
Defined.

(* ================================================================== *)
(** * The frame of the report *)

Lemma startswith_app (p s : string) : startswith p (p ++ s) = true.
Proof.
  unfold startswith. induction p as [|c p IH]; simpl; [apply prefix_empty|].
  destruct (ascii_dec c c); [exact IH | congruence].
Qed.

(** A report that [format_standard] returns for a document without an
    [error] field always opens with an empty line, the banner, the title
    and the banner, and closes with the banner, the source line and an
    empty line.  The source shown is the [source] text with one leading
    [https://] or [http://] taken off, and [wspr.hb9vqq.ch] when the
    document names no source. *)
Theorem format_standard_frame {RT : Runtime} (data : dict) (bands : list string)
    (use_ascii : bool) (out : string) :
  dict_has "error" data = false ->
  format_standard data bands use_ascii = Ok out ->
  exists body src,
    out = join nl ([""; banner; title; banner] ++ body
                   ++ [banner; ("  Source: " ++ src ++ " | 73 de HB9VQQ")%string; ""])%list
    /\ (dict_get "source" data = None -> src = "wspr.hb9vqq.ch")
    /\ (forall h, dict_get "source" data = Some (JStr ("https://" ++ h)) -> src = h)
    /\ (forall h, dict_get "source" data = Some (JStr ("http://" ++ h)) -> src = h)
    /\ (forall s, dict_get "source" data = Some (JStr s) ->
                  startswith "https://" s = false ->
                  startswith "http://" s = false -> src = s).
Proof.
  intros Herr. unfold format_standard, standard_lines. rewrite Herr.
  destruct (standard_rows _ _ _ _) as [rows|]; [| discriminate].
  destruct (solar_lines data) as [solar|]; [| discriminate].
  destruct (storm_lines data use_ascii) as [storm|]; [| discriminate].
  unfold footer_lines, dict_get_default.
  destruct (dict_get "source" data) as [v|] eqn:Hsrc.
  - destruct v as [| | | |s| |]; try discriminate.
    cbn [bind]. intros Hout. apply Ok_inj in Hout. rewrite <- Hout.
    exists (updated_lines data ++ [""] ++ [table_header; table_rule]
            ++ rows ++ [""] ++ solar ++ storm)%list.
    exists (if startswith "https://" s then str_drop 8 s
            else if startswith "http://" s then str_drop 7 s else s).
    split; [| split; [| split; [| split]]].
    + f_equal. repeat rewrite <- app_assoc. reflexivity.
    + discriminate.
    + intros h Hh. assert (Hs : s = "https://" ++ h) by congruence.
      rewrite Hs, startswith_app. reflexivity.
    + intros h Hh. assert (Hs : s = "http://" ++ h) by congruence.
      rewrite Hs.
      replace (startswith "https://" ("http://" ++ h)) with false by reflexivity.
      rewrite startswith_app. reflexivity.
    + intros s' Hs' H1 H2. assert (Hs : s = s') by congruence.
      rewrite Hs, H1, H2. reflexivity.
  - cbn [bind]. intros Hout. apply Ok_inj in Hout. rewrite <- Hout.
    exists (updated_lines data ++ [""] ++ [table_header; table_rule]
            ++ rows ++ [""] ++ solar ++ storm)%list.
    exists "wspr.hb9vqq.ch".
    split; [| split; [| split; [| split]]]; try discriminate.
    + f_equal. repeat rewrite <- app_assoc. reflexivity.
    + reflexivity.
Qed.

Lemma format_standard_frame_witness :
  exists body src,
    "" ++ nl ++ banner ++ nl ++ title ++ nl ++ banner ++ nl ++ "" ++ nl
       ++ table_header ++ nl ++ table_rule ++ nl ++ "" ++ nl
       ++ banner ++ nl ++ "  Source: example.org | 73 de HB9VQQ" ++ nl ++ ""
    = join nl ([""; banner; title; banner] ++ body
               ++ [banner; ("  Source: " ++ src ++ " | 73 de HB9VQQ")%string; ""])%list
    /\ (dict_get "source" [("source", JStr "http://example.org")] = None ->
        src = "wspr.hb9vqq.ch")
    /\ (forall h, dict_get "source" [("source", JStr "http://example.org")]
                  = Some (JStr ("https://" ++ h)) -> src = h)
    /\ (forall h, dict_get "source" [("source", JStr "http://example.org")]
                  = Some (JStr ("http://" ++ h)) -> src = h)
    /\ (forall s, dict_get "source" [("source", JStr "http://example.org")]
                  = Some (JStr s) ->
                  startswith "https://" s = false ->
                  startswith "http://" s = false -> src = s).
Proof.
  apply (format_standard_frame (RT := Sample.runtime)
           [("source", JStr "http://example.org")] ["10m"] true).
  - reflexivity.
  - reflexivity.
Defined.

(* ================================================================== *)
(** * The solar line, in general *)

Section SolarBlock.

Context {RT : Runtime}.

Lemma solar_lines_not_a_record (data : dict) (v : json) :
  dict_get "solar" data = Some v ->
  (forall solar, v <> JObj solar) ->
  solar_lines data = Raise AttributeError.
Proof.
  intros Hv Hnot. unfold solar_lines, dict_get_default. rewrite Hv.
  destruct v; try reflexivity. now destruct (Hnot fields).
Qed.

End SolarBlock.

(** Take a document without an [error] field whose [solar] is a record
    and whose table rows, storm block and footer can be rendered.  When
    [sfi] and [kp] are both truthy (present, not [null], not zero) and the
    format can turn them into floats, [format_standard] returns the report
    with the line [Solar: SFI ... | Kp ...] (SFI without decimals, Kp with
    one) between the table and the storm block; when either is missing,
    [null] or zero, it returns the report without a solar line. *)
Theorem format_standard_solar_line {RT : Runtime} (data solar : dict)
    (bands : list string) (use_ascii : bool) (rows storm footer : list string) :
  dict_has "error" data = false ->
  dict_get "solar" data = Some (JObj solar) ->
  standard_rows (if use_ascii then SYMBOLS_ASCII else SYMBOLS) use_ascii
    (dict_get_default "bands" (JObj []) data) bands = Ok rows ->
  storm_lines data use_ascii = Ok storm ->
  footer_lines data = Ok footer ->
  let sfi := dict_get_default "sfi" JNull solar in
  let kp := dict_get_default "kp" JNull solar in
  let report := fun block =>
    Ok (join nl (report_lines (updated_lines data) rows block storm footer)) in
  (truthy sfi = true -> truthy kp = true ->
   forall x y, float_value sfi = Ok x -> float_value kp = Ok y ->
     format_standard data bands use_ascii
     = report ["  Solar: SFI " ++ num_fixed 0 x ++ " | Kp " ++ num_fixed 1 y])
  /\ (truthy sfi = false \/ truthy kp = false ->
      format_standard data bands use_ascii = report []).
Proof.
  intros Herr Hsolar Hrows Hstorm Hfooter sfi kp report.
  pose proof (solar_lines_numeric data solar Hsolar) as Hblock.
  cbv zeta in Hblock. fold sfi kp in Hblock.
  split.
  - intros Hs Hk x y Hx Hy. apply format_standard_blocks; try assumption.
    rewrite Hblock, Hs, Hk. cbn [andb].
    now rewrite (format_f_value 0 _ _ Hx), (format_f_value 1 _ _ Hy).
  - intros Hzero. apply format_standard_blocks; try assumption.
    rewrite Hblock. destruct Hzero as [-> | ->]; [reflexivity|].
    now rewrite andb_false_r.
Qed.

Lemma format_standard_solar_line_witness :
  format_standard (RT := Sample.runtime) Sample.full_document ["20m"] true
  = Ok (join nl
          [""; banner; title; banner;
           "  Updated: 2025-12-07 10:30 UTC";
           ""; table_header; table_rule;
           "  20m    61.3     [+++ ] Good        58.0 (Good)";
           "";
           "  Solar: SFI 150 | Kp 1.7";
           "  [!] Storm: 55% probability -> Kp 6.0";
           banner; "  Source: example.org | 73 de HB9VQQ"; ""]).
Proof.
  exact (proj1 (format_standard_solar_line (RT := Sample.runtime)
                  Sample.full_document
                  [("sfi", JInt 150); ("kp", JFloat (FFinite (167 # 100)))]
                  ["20m"] true
                  ["  20m    61.3     [+++ ] Good        58.0 (Good)"]
                  ["  [!] Storm: 55% probability -> Kp 6.0"]
                  [banner; "  Source: example.org | 73 de HB9VQQ"; ""]
                  eq_refl eq_refl eq_refl eq_refl eq_refl)
           eq_refl eq_refl (FFinite (inject_Z 150)) (FFinite (167 # 100))
           eq_refl eq_refl).
Defined.

(** A [solar] field that is not a record ([null], a number, a text, a
    list) makes [format_standard] fail on every document without an
    [error] field; [format_compact] does not look at [solar] at all. *)
Theorem solar_must_be_a_record {RT : Runtime} (data : dict)
    (bands : list string) (use_ascii : bool) (v : json) :
  dict_has "error" data = false ->
  dict_get "solar" data = Some v ->
  (forall solar, v <> JObj solar) ->
  (forall out, format_standard data bands use_ascii <> Ok out)
  /\ format_compact data bands = format_compact (dict_remove "solar" data) bands.
Proof.
  intros Herr Hv Hnot. split.
  - intros out. unfold format_standard, standard_lines.
    rewrite Herr, (solar_lines_not_a_record _ _ Hv Hnot).
    destruct (standard_rows _ _ _ _); discriminate.
  - unfold format_compact. repeat other_key. now rewrite Herr.
Qed.

Lemma solar_must_be_a_record_witness :
  (forall out,
     format_standard (RT := Sample.runtime)
       (("solar", JNull) :: Sample.peak_document) ["10m"] false <> Ok out)
  /\ format_compact (RT := Sample.runtime)
       (("solar", JNull) :: Sample.peak_document) ["10m"]
     = format_compact (RT := Sample.runtime)
         (dict_remove "solar" (("solar", JNull) :: Sample.peak_document)) ["10m"].
Proof.
  apply (solar_must_be_a_record (RT := Sample.runtime)
           (("solar", JNull) :: Sample.peak_document) ["10m"] false JNull).
  - reflexivity.
  - reflexivity.
  - discriminate.
Defined.

(* ================================================================== *)
(** * The reduced object of the JSON mode *)

Lemma dict_set_same_value (k : string) (v : json) (d : dict) :
  dict_get k d = Some v -> dict_set k v d = d.
Proof.
  induction d as [|[k' v'] d IH]; simpl; [discriminate|].
  destruct (String.eqb_spec k k') as [->|Hne].
  - now intros [= ->].
  - intros H. now rewrite IH.
Qed.

Lemma dict_set_new (k : string) (v : json) (d : dict) :
  dict_get k d = None -> dict_set k v d = (d ++ [(k, v)])%list.
Proof.
  induction d as [|[k' v'] d IH]; simpl; [reflexivity|].
  destruct (String.eqb k k'); [discriminate|].
  intros H. now rewrite IH.
Qed.

Lemma dict_get_app (k : string) (d1 d2 : dict) :
  dict_get k (d1 ++ d2)%list
  = match dict_get k d1 with
    | Some v => Some v
    | None => dict_get k d2
    end.
Proof.
  induction d1 as [|[k' v'] d1 IH]; simpl; [reflexivity|].
  now destruct (String.eqb k k').
Qed.

Lemma str_in_keys (k : string) (d : dict) : str_in k (dict_keys d) = dict_has k d.
Proof.
  apply eq_true_iff_eq. rewrite str_in_In. apply dict_keys_has.
Qed.

Lemma first_occurrences_In (x : string) (l seen : list string) :
  In x (first_occurrences seen l) <-> In x l /\ ~ In x seen.
Proof.
  revert seen. induction l as [|y l IH]; intros seen; simpl; [tauto|].
  destruct (str_in y seen) eqn:Hy.
  - apply str_in_In in Hy. rewrite IH. split; [tauto|].
    intros [[<-|Hx] Hn]; [contradiction | tauto].
  - assert (Hny : ~ In y seen)
      by (intros H; apply str_in_In in H; congruence).
    simpl. rewrite IH, in_app_iff. simpl.
    destruct (string_dec y x) as [->|Hne]; [tauto|].
    split; [intros [H|[H1 H2]]; [contradiction | tauto] | tauto].
Qed.

Lemma first_occurrences_NoDup (l seen : list string) :
  NoDup (first_occurrences seen l).
Proof.
  revert seen. induction l as [|y l IH]; intros seen; simpl; [constructor|].
  destruct (str_in y seen); [apply IH|].
  constructor; [| apply IH].
  rewrite first_occurrences_In, in_app_iff. simpl. tauto.
Qed.

Lemma dict_get_entries (f : string -> json) (ks : list string) (k : string) :
  dict_get k (map (fun b => (b, f b)) ks) = if str_in k ks then Some (f k) else None.
Proof.
  unfold str_in. induction ks as [|x ks IH]; simpl; [reflexivity|].
  destruct (String.eqb_spec k x) as [->|]; [reflexivity | exact IH].
Qed.

Lemma dict_keys_entries (f : string -> json) (ks : list string) :
  dict_keys (map (fun b => (b, f b)) ks) = ks.
Proof.
  unfold dict_keys. rewrite map_map. simpl. apply map_id.
Qed.

(** The comprehension, written out. *)
Lemma requested_bands_explicit (data bd : dict) (bands : list string) :
  band_map data = Some bd ->
  forall acc,
    (forall k v, dict_get k acc = Some v -> v = dict_get_default k JNull bd) ->
    requested_bands data bands acc
    = Ok (acc ++ map (fun b => (b, dict_get_default b JNull bd))
                     (first_occurrences (dict_keys acc) (present_bands bd bands)))%list.
Proof.
  intros Hbd. unfold present_bands.
  induction bands as [|b rest IH]; intros acc Hacc.
  - simpl. now rewrite app_nil_r.
  - cbn [requested_bands filter]. rewrite (band_map_default _ _ Hbd).
    cbn [py_contains py_get bind].
    destruct (dict_has b bd) eqn:Hb; [| now apply IH].
    cbn [first_occurrences]. rewrite str_in_keys.
    destruct (dict_get b acc) as [v|] eqn:Hv.
    + replace (dict_has b acc) with true by (unfold dict_has; now rewrite Hv).
      rewrite (Hacc _ _ Hv) in Hv. rewrite (dict_set_same_value _ _ _ Hv).
      now apply IH.
    + replace (dict_has b acc) with false by (unfold dict_has; now rewrite Hv).
      rewrite (dict_set_new _ _ _ Hv), IH.
      * unfold dict_keys. rewrite map_app. simpl.
        now rewrite <- app_assoc.
      * intros k v. rewrite dict_get_app.
        destruct (dict_get k acc) as [w|] eqn:Hw.
        -- intros [= <-]. now apply Hacc.
        -- simpl. destruct (String.eqb_spec k b) as [->|]; [| discriminate].
           now intros [= <-].
Qed.

Lemma format_json_object_explicit (data bd : dict) (bands : list string) :
  bands <> ALL_BANDS ->
  band_map data = Some bd ->
  format_json_object data bands = Ok (JObj (reduced_document data bd bands)).
Proof.
  intros Hne Hbd. unfold format_json_object, reduced_document.
  rewrite (list_eqb_neq _ _ Hne). cbn [negb].
  rewrite (requested_bands_explicit data bd bands Hbd []) by discriminate.
  cbn [bind app dict_keys map]. unfold dict_has, py_getitem.
  destruct (dict_get "storm" data); reflexivity.
Qed.

(** For a band list other than [ALL_BANDS] and a document whose [bands]
    is a mapping, [format_json] serializes exactly this object: the keys
    [updated], [bands], [solar] and, when the document has it, [storm],
    in this order; every other field of the document ([source], [error],
    anything else) is left out; the bands are the requested ones the
    document has, each once, in the order of their first request. *)
Theorem format_json_reduced_object {RT : Runtime} (data bd : dict)
    (bands : list string) :
  bands <> ALL_BANDS ->
  band_map data = Some bd ->
  format_json data bands = Ok (dumps (JObj (reduced_document data bd bands)))
  /\ (forall k, In k (dict_keys (reduced_document data bd bands)) ->
                In k ["updated"; "bands"; "solar"; "storm"])
  /\ NoDup (first_occurrences [] (present_bands bd bands))
  /\ (forall b, In b (first_occurrences [] (present_bands bd bands))
                <-> In b bands /\ dict_has b bd = true).
Proof.
  intros Hne Hbd. split; [| split; [| split]].
  - unfold format_json. now rewrite (format_json_object_explicit _ _ _ Hne Hbd).
  - unfold reduced_document. intros k.
    destruct (dict_get "storm" data); simpl; tauto.
  - apply first_occurrences_NoDup.
  - intros b. rewrite first_occurrences_In. unfold present_bands.
    rewrite filter_In. simpl. tauto.
Qed.

Lemma format_json_reduced_object_witness :
  format_json (RT := Sample.runtime) Sample.full_document ["40m"; "15m"; "10m"; "40m"]
  = Ok (Sample.serialize
          (JObj (reduced_document Sample.full_document Sample.full_bands
                   ["40m"; "15m"; "10m"; "40m"])))
  /\ (forall k, In k (dict_keys (reduced_document Sample.full_document
                                   Sample.full_bands ["40m"; "15m"; "10m"; "40m"])) ->
                In k ["updated"; "bands"; "solar"; "storm"])
  /\ NoDup ["40m"; "10m"]
  /\ (forall b, In b ["40m"; "10m"]
                <-> In b ["40m"; "15m"; "10m"; "40m"]
                    /\ dict_has b Sample.full_bands = true).
Proof.
  apply (format_json_reduced_object (RT := Sample.runtime) Sample.full_document
           Sample.full_bands ["40m"; "15m"; "10m"; "40m"]).
  - discriminate.
  - reflexivity.
Defined.

Lemma present_bands_reduced (bd : dict) (bands : list string) :
  present_bands
    (map (fun b => (b, dict_get_default b JNull bd))
         (first_occurrences [] (present_bands bd bands))) bands
  = present_bands bd bands.
Proof.
  unfold present_bands at 1 3. apply filter_ext_in. intros b Hb.
  unfold dict_has at 1. rewrite dict_get_entries.
  destruct (str_in b _) eqn:Hin.
  - apply str_in_In, first_occurrences_In in Hin. destruct Hin as [Hin _].
    unfold present_bands in Hin. apply filter_In in Hin. now destruct Hin.
  - destruct (dict_has b bd) eqn:Hhas; [| reflexivity].
    assert (Hyes : In b (first_occurrences [] (present_bands bd bands))).
    { apply first_occurrences_In. split; [| tauto].
      unfold present_bands. now apply filter_In. }
    apply str_in_In in Hyes. congruence.
Qed.

(** Reducing twice is reducing once: the object [format_json] serializes
    for a band list other than [ALL_BANDS], given to [format_json] again
    with the same list, is serialized unchanged. *)
Theorem format_json_reduction_idempotent {RT : Runtime} (data bd : dict)
    (bands : list string) :
  bands <> ALL_BANDS ->
  band_map data = Some bd ->
  exists out,
    format_json data bands = Ok (dumps (JObj out))
    /\ format_json out bands = Ok (dumps (JObj out)).
Proof.
  intros Hne Hbd. exists (reduced_document data bd bands).
  unfold format_json.
  rewrite (format_json_object_explicit _ _ _ Hne Hbd). cbn [bind].
  split; [reflexivity|].
  set (entries := map (fun b => (b, dict_get_default b JNull bd))
                      (first_occurrences [] (present_bands bd bands))).
  assert (Hbd' : band_map (reduced_document data bd bands) = Some entries).
  { unfold reduced_document. destruct (dict_get "storm" data); reflexivity. }
  rewrite (format_json_object_explicit _ _ _ Hne Hbd'). cbn [bind].
  do 3 f_equal. unfold reduced_document at 1. fold entries.
  unfold entries at 1 2. rewrite present_bands_reduced. fold entries.
  assert (Hentries :
            map (fun b => (b, dict_get_default b JNull entries))
                (first_occurrences [] (present_bands bd bands)) = entries).
  { unfold entries at 2. apply map_ext_in. intros b Hb. f_equal.
    unfold dict_get_default, entries. rewrite dict_get_entries.
    apply str_in_In in Hb. now rewrite Hb. }
  rewrite Hentries. unfold reduced_document. fold entries.
  destruct (dict_get "storm" data); reflexivity.
Qed.

Lemma format_json_reduction_idempotent_witness :
  exists out,
    format_json (RT := Sample.runtime) Sample.full_document ["40m"; "10m"]
    = Ok (Sample.serialize (JObj out))
    /\ format_json (RT := Sample.runtime) out ["40m"; "10m"]
       = Ok (Sample.serialize (JObj out)).
Proof.
  apply (format_json_reduction_idempotent (RT := Sample.runtime)
           Sample.full_document Sample.full_bands ["40m"; "10m"]).
  - discriminate.
  - reflexivity.
Defined.

(* ================================================================== *)
(** * The single-shot run *)

Section SingleShot.

Context {RT : Runtime}.

Lemma refresh_alert (args : arguments) (bands : list string) (data : dict)
    (t : string) :
  alert_given args = Some t ->
  refresh args bands data = (met <- check_alert data bands t ;; Ok (Verdict met)).
Proof.
  unfold alert_given, refresh.
  destruct (arg_alert args) as [[|c s]|]; try discriminate.
  now intros [= <-].
Qed.

Lemma main_single_alert (args : arguments) (bands : list string) (data : dict)
    (t : string) :
  alert_given args = Some t ->
  select_bands (arg_bands args) = Selected bands ->
  main_single args (Document data)
  = match check_alert data bands t with
    | Ok met => Exited (if met then 0 else 1) [] []
    | Raise e => Crashed e []
    end.
Proof.
  intros Halert Hsel. unfold main_single. rewrite Hsel. cbn [fetch_data].
  rewrite (refresh_alert _ _ _ _ Halert).
  unfold alert_given in Halert.
  destruct (arg_alert args) as [[|c s]|]; try discriminate.
  destruct (check_alert data bands t) as [met|]; reflexivity.
Qed.

End SingleShot.

(** When bands are named and none of them is canonical, the run ends with
    status 1 and the band message on the error stream, whatever the
    flags and whatever the fetch would have come to: nothing is fetched
    and nothing is printed. *)
Theorem main_single_invalid_bands {RT : Runtime} (args : arguments) (r : reply) :
  arg_bands args <> [] ->
  (forall b, In b (arg_bands args) -> ~ In b ALL_BANDS) ->
  main_single args r
  = Exited 1 []
      [print "Error: No valid bands specified. Use: 10m, 15m, 20m, 40m"].
Proof.
  intros Hne Hnone. unfold main_single, select_bands.
  destruct (arg_bands args) as [|x rest] eqn:Hb; [now destruct Hne|].
  assert (Hf : filter (fun b => str_in b ALL_BANDS) (x :: rest) = []).
  { apply filter_nil_iff. intros b Hin. apply not_true_is_false.
    rewrite str_in_In. now apply Hnone. }
  now rewrite Hf.
Qed.

Lemma main_single_invalid_bands_witness :
  main_single (RT := Sample.runtime)
    {| arg_bands := ["80m"; "6m"]; arg_json := true; arg_compact := false;
       arg_ascii := false; arg_alert := Some "Good" |}
    (URLError "timed out")
  = Exited 1 []
      [print "Error: No valid bands specified. Use: 10m, 15m, 20m, 40m"].
Proof.
  apply (main_single_invalid_bands (RT := Sample.runtime)).
  - discriminate.
  - intros b [<-|[<-|[]]] [H|[H|[H|[H|[]]]]]; discriminate.
Defined.

(** With [--alert R] for a rating name [R], a document whose [bands] is a
    mapping of records makes the run print nothing and end with status 0
    when some band handed on by the band filter is present with a rating
    at or above [R], and with status 1 otherwise. *)
Theorem main_single_alert_status {RT : Runtime} (args : arguments)
    (bands : list string) (data bd : dict) (R : Rating) :
  alert_given args = Some (rating_name R) ->
  select_bands (arg_bands args) = Selected bands ->
  band_map data = Some bd ->
  readings_are_records bd ->
  exists status,
    main_single args (Document data) = Exited status [] []
    /\ (status = 0%Z \/ status = 1%Z)
    /\ (status = 0%Z <->
        exists band reading r,
          In band bands
          /\ dict_get band bd = Some (JObj reading)
          /\ reading_rating reading = Some r
          /\ position R <= position r).
Proof.
  intros Halert Hsel Hbd Hrec.
  rewrite (main_single_alert _ _ _ _ Halert Hsel).
  rewrite (check_alert_meets _ _ _ _ Hbd Hrec).
  exists (if existsb (meets R bd) bands then 0%Z else 1%Z).
  split; [reflexivity | split].
  - destruct (existsb _ _); auto.
  - transitivity (existsb (meets R bd) bands = true).
    + destruct (existsb _ _); split; congruence.
    + rewrite existsb_exists. unfold meets. split.
      * intros [band [Hin Hm]].
        destruct (dict_get band bd) as [[| | | | | |reading]|] eqn:Hv;
          try discriminate.
        destruct (reading_rating reading) as [r|] eqn:Hr; try discriminate.
        exists band, reading, r. apply Nat.leb_le in Hm. auto.
      * intros (band & reading & r & Hin & Hv & Hr & Hle).
        exists band. rewrite Hv, Hr. split; [assumption | now apply Nat.leb_le].
Qed.

Lemma main_single_alert_status_witness :
  exists status,
    main_single (RT := Sample.runtime)
      {| arg_bands := ["20m"; "80m"]; arg_json := false; arg_compact := true;
         arg_ascii := false; arg_alert := Some "Good" |}
      (Document Sample.full_document)
    = Exited status [] []
    /\ (status = 0%Z \/ status = 1%Z)
    /\ (status = 0%Z <->
        exists band reading r,
          In band ["20m"]
          /\ dict_get band Sample.full_bands = Some (JObj reading)
          /\ reading_rating reading = Some r
          /\ position Good <= position r).
Proof.
  apply (main_single_alert_status (RT := Sample.runtime) _ ["20m"]
           Sample.full_document Sample.full_bands Good).
  - reflexivity.
  - reflexivity.
  - reflexivity.
  - intros band v. unfold Sample.full_bands, Sample.reading_10m. simpl.
    repeat match goal with
           | |- context [String.eqb band ?n] => destruct (String.eqb band n)
           end; intros [= <-]; eexists; reflexivity.
Defined.

(** With [--alert t] for a [t] that is no rating name, every fetched
    document, well formed or not, ends the run with status 1 and nothing
    printed: the document is not looked at. *)
Theorem main_single_unknown_threshold {RT : Runtime} (args : arguments)
    (bands : list string) (data : dict) (t : string) :
  alert_given args = Some t ->
  (forall R, t <> rating_name R) ->
  select_bands (arg_bands args) = Selected bands ->
  main_single args (Document data) = Exited 1 [] [].
Proof.
  intros Halert Hnot Hsel.
  rewrite (main_single_alert _ _ _ _ Halert Hsel).
  rewrite check_alert_not_a_name; [reflexivity|].
  destruct (rating_of_name t) as [r|] eqn:Hr; [| reflexivity].
  apply rating_of_name_sound in Hr. now destruct (Hnot r).
Qed.

Lemma main_single_unknown_threshold_witness :
  main_single (RT := Sample.runtime)
    {| arg_bands := []; arg_json := false; arg_compact := false;
       arg_ascii := false; arg_alert := Some "good" |}
    (Document [("bands", JNull)])
  = Exited 1 [] [].
Proof.
  apply (main_single_unknown_threshold (RT := Sample.runtime) _ ALL_BANDS
           [("bands", JNull)] "good").
  - reflexivity.
  - intros R; destruct R; discriminate.
  - reflexivity.
Defined.



(* ================================================================== *)
(** * The watch loop *)

Section Watch.

Context {RT : Runtime}.

Lemma watch_loop_alert (args : arguments) (interval os_limit : Z)
    (bands : list string) (t : string) (documents : list dict) :
  alert_given args = Some t ->
  sleep os_limit interval = Ok tt ->
  (forall data, In data documents ->
                exists met, check_alert data bands t = Ok met) ->
  forall out,
    watch_loop args interval os_limit bands (map Document documents) out
    = Exited 0
        (out
         ++ concat (map (fun _ => [clear_screen; print (refresh_notice interval)])
                        documents)
         ++ [print (nl ++ "Exiting...")])%list
        [].
Proof.
  intros Halert Hsleep. induction documents as [|data rest IH]; intros Hok out.
  - reflexivity.
  - cbn [map watch_loop fetch_data]. rewrite (refresh_alert _ _ _ _ Halert).
    destruct (Hok data (or_introl eq_refl)) as [met ->]. cbn [bind written].
    rewrite Hsleep.
    rewrite IH by (intros d Hd; apply Hok; now right).
    cbn [concat map app]. f_equal. now rewrite <- !app_assoc.
Qed.

Lemma watch_loop_failure (args : arguments) (interval os_limit : Z)
    (bands : list string) (documents : list dict) (r : reply)
    (rest : list reply) (message : string) :
  fetch_data r = FetchFailed message ->
  sleep os_limit interval = Ok tt ->
  (forall data, In data documents ->
                exists o, refresh args bands data = Ok o) ->
  forall out, exists out',
    watch_loop args interval os_limit bands
      (map Document documents ++ r :: rest) out
    = Exited 1 out' [print message].
Proof.
  intros Hfail Hsleep. induction documents as [|data docs IH]; intros Hok out.
  - cbn [map app watch_loop]. rewrite Hfail. eexists. reflexivity.
  - cbn [map app watch_loop fetch_data].
    destruct (Hok data (or_introl eq_refl)) as [o ->]. rewrite Hsleep.
    apply IH. intros d Hd. apply Hok. now right.
Qed.

End Watch.

(** In watch mode, with an interval that [time.sleep] accepts, [--alert]
    decides nothing: as long as the verdicts can be computed, every cycle
    writes the clear-screen sequence and the refresh notice and nothing
    else, and the interrupt ends the run with the farewell and status 0,
    whatever the verdicts were. *)
Theorem main_watch_ignores_alert {RT : Runtime} (args : arguments)
    (interval os_limit : Z) (bands : list string) (t : string)
    (documents : list dict) :
  alert_given args = Some t ->
  select_bands (arg_bands args) = Selected bands ->
  sleep os_limit interval = Ok tt ->
  (forall data, In data documents ->
                exists met, check_alert data bands t = Ok met) ->
  main_watch args interval os_limit (map Document documents)
  = Exited 0
      (concat (map (fun _ => [clear_screen; print (refresh_notice interval)])
                   documents)
       ++ [print (nl ++ "Exiting...")])%list
      [].
Proof.
  intros Halert Hsel Hsleep Hok. unfold main_watch. rewrite Hsel.
  now rewrite (watch_loop_alert _ _ _ _ _ _ Halert Hsleep Hok).
Qed.

Lemma main_watch_ignores_alert_witness :
  main_watch (RT := Sample.runtime)
    {| arg_bands := ["20m"]; arg_json := false; arg_compact := false;
       arg_ascii := false; arg_alert := Some "Good" |}
    60 86400 (map Document [Sample.full_document; Sample.peak_document])
  = Exited 0
      [clear_screen; print (refresh_notice 60);
       clear_screen; print (refresh_notice 60);
       print (nl ++ "Exiting...")]
      [].
Proof.
  apply (main_watch_ignores_alert (RT := Sample.runtime) _ 60 86400 ["20m"] "Good"
           [Sample.full_document; Sample.peak_document]).
  - reflexivity.
  - reflexivity.
  - reflexivity.
  - intros data [<-|[<-|[]]]; eexists; reflexivity.
Defined.

(** Watch mode, with an interval that [time.sleep] accepts, does not
    outlive a failed fetch: after any number of cycles that rendered, the
    first reply that is a fetch failure ends the run with status 1 and the
    fetch message on the error stream; later replies are never asked
    for. *)
Theorem main_watch_stops_at_failed_fetch {RT : Runtime} (args : arguments)
    (interval os_limit : Z) (bands : list string) (documents : list dict)
    (r : reply) (rest : list reply) (message : string) :
  select_bands (arg_bands args) = Selected bands ->
  fetch_data r = FetchFailed message ->
  sleep os_limit interval = Ok tt ->
  (forall data, In data documents ->
                exists o, refresh args bands data = Ok o) ->
  exists out,
    main_watch args interval os_limit (map Document documents ++ r :: rest)
    = Exited 1 out [print message].
Proof.
  intros Hsel Hfail Hsleep Hok. unfold main_watch. rewrite Hsel.
  now apply watch_loop_failure.
Qed.

Lemma main_watch_stops_at_failed_fetch_witness :
  exists out,
    main_watch (RT := Sample.runtime)
      {| arg_bands := []; arg_json := false; arg_compact := true;
         arg_ascii := false; arg_alert := None |}
      60 86400 (map Document [Sample.peak_document]
                ++ URLError "timed out" :: [Document Sample.full_document])
    = Exited 1 out [print "Error: Cannot reach API - timed out"].
Proof.
  apply (main_watch_stops_at_failed_fetch (RT := Sample.runtime) _ 60 86400
           ALL_BANDS [Sample.peak_document] (URLError "timed out")).
  - reflexivity.
  - reflexivity.
  - reflexivity.
  - intros data [<-|[]]; eexists; reflexivity.
Defined.



(* ================================================================== *)
(** * json.loads reads back what json.dumps writes *)

(** ** Bytes, UTF-8 and escapes *)

Lemma byte_range (c : ascii) : (0 <= byte c < 256)%Z.
Proof.
  unfold byte. pose proof (N_ascii_bounded c). lia.
Qed.

Lemma chr_byte (c : ascii) : chr (byte c) = c.
Proof.
  unfold chr, byte. rewrite N2Z.id. apply ascii_N_embedding.
Qed.

Lemma byte_chr (z : Z) : (0 <= z < 256)%Z -> byte (chr z) = z.
Proof.
  intros Hz. unfold chr, byte. rewrite N_ascii_embedding by lia. lia.
Qed.

Lemma str_length_app (s1 s2 : string) :
  String.length (s1 ++ s2) = String.length s1 + String.length s2.
Proof. induction s1 as [|c s1 IH]; simpl; [reflexivity | now rewrite IH]. Qed.

(** Decoding a code point undoes encoding it. *)
Lemma decode1_encode (s rest : string) (point : Z) :
  decode1 s = Some (point, rest) ->
  s = utf8_encode point ++ rest /\ (0 <= point < 1114112)%Z.
Proof.
  unfold decode1, is_continuation_byte.
  destruct s as [|c0 s1]; [discriminate|].
  pose proof (byte_range c0) as H0.
  destruct (Z.ltb_spec (byte c0) 128).
  { intros [= <- <-]. unfold utf8_encode.
    destruct (Z.ltb_spec (byte c0) 128); [| lia].
    rewrite chr_byte. split; [reflexivity | lia]. }
  destruct s1 as [|c1 s2]; [discriminate|].
  pose proof (byte_range c1) as H1.
  destruct ((128 <=? byte c1) && (byte c1 <? 192))%Z eqn:E1; [| discriminate].
  apply andb_true_iff in E1. destruct E1 as [E1a E1b].
  apply Z.leb_le in E1a. apply Z.ltb_lt in E1b. cbn [negb].
  destruct ((194 <=? byte c0) && (byte c0 <? 224))%Z eqn:E0.
  { apply andb_true_iff in E0. destruct E0 as [E0a E0b].
    apply Z.leb_le in E0a. apply Z.ltb_lt in E0b.
    intros [= <- <-]. unfold utf8_encode.
    set (cp := ((byte c0 - 192) * 64 + (byte c1 - 128))%Z).
    assert (Hd : (cp / 64 = byte c0 - 192)%Z)
      by (unfold cp; Z.div_mod_to_equations; lia).
    assert (Hm : (cp mod 64 = byte c1 - 128)%Z)
      by (unfold cp; Z.div_mod_to_equations; lia).
    destruct (Z.ltb_spec cp 128); [unfold cp in *; lia|].
    destruct (Z.ltb_spec cp 2048); [| unfold cp in *; lia].
    rewrite Hd, Hm.
    replace (192 + (byte c0 - 192))%Z with (byte c0) by lia.
    replace (128 + (byte c1 - 128))%Z with (byte c1) by lia.
    rewrite !chr_byte. split; [reflexivity | unfold cp; lia]. }
  destruct s2 as [|c2 s3]; [discriminate|].
  pose proof (byte_range c2) as H2.
  destruct ((128 <=? byte c2) && (byte c2 <? 192))%Z eqn:E2; [| discriminate].
  apply andb_true_iff in E2. destruct E2 as [E2a E2b].
  apply Z.leb_le in E2a. apply Z.ltb_lt in E2b. cbn [negb].
  destruct ((224 <=? byte c0) && (byte c0 <? 240))%Z eqn:E3.
  { apply andb_true_iff in E3. destruct E3 as [E3a E3b].
    apply Z.leb_le in E3a. apply Z.ltb_lt in E3b.
    set (cp := ((byte c0 - 224) * 4096 + (byte c1 - 128) * 64
                + (byte c2 - 128))%Z).
    destruct (Z.leb_spec 2048 cp); [| discriminate].
    intros [= <- <-]. unfold utf8_encode.
    assert (Hd : (cp / 4096 = byte c0 - 224)%Z)
      by (unfold cp; Z.div_mod_to_equations; lia).
    assert (Hm1 : ((cp / 64) mod 64 = byte c1 - 128)%Z)
      by (unfold cp; Z.div_mod_to_equations; lia).
    assert (Hm : (cp mod 64 = byte c2 - 128)%Z)
      by (unfold cp; Z.div_mod_to_equations; lia).
    destruct (Z.ltb_spec cp 128); [lia|].
    destruct (Z.ltb_spec cp 2048); [lia|].
    destruct (Z.ltb_spec cp 65536); [| unfold cp in *; lia].
    rewrite Hd, Hm1, Hm.
    replace (224 + (byte c0 - 224))%Z with (byte c0) by lia.
    replace (128 + (byte c1 - 128))%Z with (byte c1) by lia.
    replace (128 + (byte c2 - 128))%Z with (byte c2) by lia.
    rewrite !chr_byte. split; [reflexivity | unfold cp; lia]. }
  destruct s3 as [|c3 s4]; [discriminate|].
  pose proof (byte_range c3) as H3.
  destruct ((128 <=? byte c3) && (byte c3 <? 192))%Z eqn:E4; [| discriminate].
  apply andb_true_iff in E4. destruct E4 as [E4a E4b].
  apply Z.leb_le in E4a. apply Z.ltb_lt in E4b. cbn [negb].
  destruct ((240 <=? byte c0) && (byte c0 <? 245))%Z eqn:E5; [| discriminate].
  apply andb_true_iff in E5. destruct E5 as [E5a E5b].
  apply Z.leb_le in E5a. apply Z.ltb_lt in E5b.
  set (cp := ((byte c0 - 240) * 262144 + (byte c1 - 128) * 4096
              + (byte c2 - 128) * 64 + (byte c3 - 128))%Z).
  destruct ((65536 <=? cp) && (cp <? 1114112))%Z eqn:E6; [| discriminate].
  apply andb_true_iff in E6. destruct E6 as [E6a E6b].
  apply Z.leb_le in E6a. apply Z.ltb_lt in E6b.
  intros [= <- <-]. unfold utf8_encode.
  assert (Hd : (cp / 262144 = byte c0 - 240)%Z)
    by (unfold cp; Z.div_mod_to_equations; lia).
  assert (Hm2 : ((cp / 4096) mod 64 = byte c1 - 128)%Z)
    by (unfold cp; Z.div_mod_to_equations; lia).
  assert (Hm1 : ((cp / 64) mod 64 = byte c2 - 128)%Z)
    by (unfold cp; Z.div_mod_to_equations; lia).
  assert (Hm : (cp mod 64 = byte c3 - 128)%Z)
    by (unfold cp; Z.div_mod_to_equations; lia).
  destruct (Z.ltb_spec cp 128); [lia|].
  destruct (Z.ltb_spec cp 2048); [lia|].
  destruct (Z.ltb_spec cp 65536); [lia|].
  rewrite Hd, Hm2, Hm1, Hm.
  replace (240 + (byte c0 - 240))%Z with (byte c0) by lia.
  replace (128 + (byte c1 - 128))%Z with (byte c1) by lia.
  replace (128 + (byte c2 - 128))%Z with (byte c2) by lia.
  replace (128 + (byte c3 - 128))%Z with (byte c3) by lia.
  rewrite !chr_byte. split; [reflexivity | lia].
Qed.

Lemma hex_value_digit (d : Z) :
  (0 <= d < 16)%Z -> hex_value (hex_digit d) = Some d.
Proof.
  intros Hd. unfold hex_value, hex_digit.
  destruct (Z.ltb_spec d 10).
  - rewrite byte_chr by lia.
    destruct (Z.leb_spec 48 (48 + d)); [| lia].
    destruct (Z.leb_spec (48 + d) 57); [| lia].
    cbn [andb]. f_equal. lia.
  - rewrite byte_chr by lia.
    destruct (Z.leb_spec 48 (87 + d)); [| lia].
    destruct (Z.leb_spec (87 + d) 57); [lia |].
    destruct (Z.leb_spec 97 (87 + d)); [| lia].
    destruct (Z.leb_spec (87 + d) 102); [| lia].
    cbn [andb]. f_equal. lia.
Qed.

Lemma hex4_value_hex4 (n : Z) :
  (0 <= n < 65536)%Z ->
  hex4_value (hex_digit (n / 4096)) (hex_digit ((n / 256) mod 16))
    (hex_digit ((n / 16) mod 16)) (hex_digit (n mod 16)) = Some n.
Proof.
  intros Hn. unfold hex4_value.
  rewrite !hex_value_digit by (Z.div_mod_to_equations; lia).
  f_equal. Z.div_mod_to_equations. lia.
Qed.

(** Reading the escape of one code point gives back its bytes. *)
Lemma scan_string_escape_code_point (cp : Z) (tail : string) :
  (0 <= cp < 1114112)%Z -> is_surrogate cp = false ->
  scan_string (escape_code_point cp ++ tail)
  = cons_bytes (utf8_encode cp) (scan_string tail).
Proof.
  intros Hcp Hs. unfold escape_code_point.
  destruct (Z.eqb_spec cp 34) as [-> | N34]; [reflexivity|].
  destruct (Z.eqb_spec cp 92) as [-> | N92]; [reflexivity|].
  destruct (Z.eqb_spec cp 10) as [-> | N10]; [reflexivity|].
  destruct (Z.eqb_spec cp 13) as [-> | N13]; [reflexivity|].
  destruct (Z.eqb_spec cp 9) as [-> | N9]; [reflexivity|].
  destruct (Z.eqb_spec cp 8) as [-> | N8]; [reflexivity|].
  destruct (Z.eqb_spec cp 12) as [-> | N12]; [reflexivity|].
  destruct ((32 <=? cp) && (cp <=? 126))%Z eqn:Eprint.
  { apply andb_true_iff in Eprint. destruct Eprint as [Ea Eb].
    apply Z.leb_le in Ea. apply Z.leb_le in Eb.
    cbn [append scan_string]. rewrite byte_chr by lia.
    destruct (Z.eqb_spec cp 34); [lia|].
    destruct (Z.eqb_spec cp 92); [lia|].
    destruct (Z.ltb_spec cp 32); [lia|].
    unfold utf8_encode. destruct (Z.ltb_spec cp 128); [reflexivity | lia]. }
  destruct (Z.ltb_spec cp 65536) as [Hlow | Hhigh].
  { unfold hex4, backslash.
    cbn [append scan_string].
    change (byte (chr 92) =? 34)%Z with false.
    change (byte (chr 92) =? 92)%Z with true.
    change (byte "u" =? 117)%Z with true. cbv iota.
    rewrite hex4_value_hex4 by lia.
    unfold is_surrogate in Hs. unfold is_high_surrogate.
    destruct (Z.leb_spec 55296 cp); [| reflexivity].
    destruct (Z.leb_spec cp 56319); [| reflexivity].
    destruct (Z.leb_spec cp 57343); [discriminate | lia]. }
  set (v := (cp - 65536)%Z).
  assert (Hv : (0 <= v < 1048576)%Z) by (unfold v; lia).
  unfold hex4, backslash.
  cbn [append scan_string].
  change (byte (chr 92) =? 34)%Z with false.
  change (byte (chr 92) =? 92)%Z with true.
  change (byte "u" =? 117)%Z with true. cbv iota.
  rewrite hex4_value_hex4 by (Z.div_mod_to_equations; lia).
  assert (Hhi : is_high_surrogate (55296 + v / 1024) = true).
  { unfold is_high_surrogate. apply andb_true_iff. split.
    - apply Z.leb_le. Z.div_mod_to_equations. lia.
    - apply Z.leb_le. Z.div_mod_to_equations. lia. }
  rewrite Hhi. cbn [andb].
  rewrite hex4_value_hex4 by (Z.div_mod_to_equations; lia).
  assert (Hlo : is_low_surrogate (56320 + v mod 1024) = true).
  { unfold is_low_surrogate. apply andb_true_iff. split.
    - apply Z.leb_le. Z.div_mod_to_equations. lia.
    - apply Z.leb_le. Z.div_mod_to_equations. lia. }
  rewrite Hlo.
  replace (65536 + (55296 + v / 1024 - 55296) * 1024
           + (56320 + v mod 1024 - 56320))%Z with cp
    by (unfold v; Z.div_mod_to_equations; lia).
  reflexivity.
Qed.

Lemma str_app_nil_r (a : string) : a ++ "" = a.
Proof. induction a as [|x a IH]; simpl; [reflexivity | now rewrite IH]. Qed.

Lemma code_points_from_cons (fuel : nat) (s : string) (cp : Z) (cps : list Z) :
  code_points_from fuel s = Some (cp :: cps) ->
  exists rest fuel', decode1 s = Some (cp, rest)
                     /\ code_points_from fuel' rest = Some cps.
Proof.
  destruct s as [|c s']; [destruct fuel; discriminate|].
  destruct fuel as [|fuel']; [discriminate|].
  cbn [code_points_from].
  destruct (decode1 (String c s')) as [[p rest]|]; [| discriminate].
  destruct (code_points_from fuel' rest) as [l|] eqn:E; [| discriminate].
  intros [= <- <-]. exists rest, fuel'. split; [reflexivity | exact E].
Qed.

Lemma code_points_from_nil (fuel : nat) (s : string) :
  code_points_from fuel s = Some [] -> s = "".
Proof.
  destruct s as [|c s']; [reflexivity|].
  destruct fuel as [|fuel']; [discriminate|].
  cbn [code_points_from].
  destruct (decode1 (String c s')) as [[p rest]|]; [| discriminate].
  destruct (code_points_from fuel' rest); discriminate.
Qed.

(** Reading the escaped body of a string gives back the string. *)
Lemma scan_string_escapes (cps : list Z) :
  forall (fuel : nat) (s rest : string),
    code_points_from fuel s = Some cps ->
    forallb (fun cp => negb (is_surrogate cp)) cps = true ->
    scan_string (String.concat "" (map escape_code_point cps)
                 ++ double_quote ++ rest)
    = Some (s, rest).
Proof.
  induction cps as [|cp cps IH]; intros fuel s rest Hcps Hsur.
  - apply code_points_from_nil in Hcps. subst s. reflexivity.
  - apply code_points_from_cons in Hcps.
    destruct Hcps as (r & fuel' & Hdec & Hrest).
    apply decode1_encode in Hdec. destruct Hdec as [-> Hrange].
    cbn [forallb] in Hsur. apply andb_true_iff in Hsur.
    destruct Hsur as [Hs1 Hs2]. apply negb_true_iff in Hs1.
    assert (Hconcat :
      String.concat "" (map escape_code_point (cp :: cps))
      = escape_code_point cp ++ String.concat "" (map escape_code_point cps)).
    { cbn [map String.concat]. destruct (map escape_code_point cps).
      - now rewrite str_app_nil_r.
      - reflexivity. }
    rewrite Hconcat, str_app_assoc.
    rewrite scan_string_escape_code_point by assumption.
    rewrite (IH fuel' r rest Hrest Hs2). reflexivity.
Qed.

Lemma scan_string_json_string (s : string) :
  is_text s = true ->
  exists body, json_string s = double_quote ++ body
               /\ forall rest, scan_string (body ++ rest) = Some (s, rest).
Proof.
  unfold is_text, json_string, code_points.
  destruct (code_points_from (String.length s) s) as [cps|] eqn:E;
    [| discriminate].
  intros Hs.
  exists (String.concat "" (map escape_code_point cps) ++ double_quote).
  split; [reflexivity|]. intros rest.
  rewrite str_app_assoc. exact (scan_string_escapes cps _ s rest E Hs).
Qed.

(* ------------------------------------------------------------------ *)
(** ** Number tokens *)

Lemma all_chars_app (p : ascii -> bool) (a b : string) :
  all_chars p (a ++ b) = all_chars p a && all_chars p b.
Proof.
  induction a as [|c a IH]; [reflexivity|].
  cbn [append all_chars]. rewrite IH. apply andb_assoc.
Qed.

Lemma is_digit_number_char (c : ascii) :
  is_digit c = true -> is_number_char c = true.
Proof. intros H. unfold is_number_char. now rewrite H. Qed.

Lemma span_number_token (t rest : string) :
  all_chars is_number_char t = true -> value_end rest ->
  span_number (t ++ rest) = (t, rest).
Proof.
  intros Ht Hrest. induction t as [|c t IH].
  - destruct rest as [|c r]; [reflexivity|].
    cbn in Hrest |- *. now rewrite Hrest.
  - cbn [all_chars] in Ht. apply andb_true_iff in Ht. destruct Ht as [Hc Ht].
    cbn [append span_number]. rewrite Hc, (IH Ht). reflexivity.
Qed.

Lemma drop_digits_split (s : string) :
  exists pre, s = pre ++ drop_digits s /\ all_chars is_number_char pre = true.
Proof.
  induction s as [|c s [pre [IH1 IH2]]].
  - exists "". split; reflexivity.
  - cbn [drop_digits]. destruct (is_digit c) eqn:Ec.
    + exists (String c pre). split.
      * cbn [append]. now rewrite <- IH1.
      * cbn [all_chars]. now rewrite (is_digit_number_char c Ec).
    + exists "". split; reflexivity.
Qed.

Lemma after_integer_split (t r : string) :
  after_integer t = Some r ->
  exists pre, t = pre ++ r /\ all_chars is_number_char pre = true.
Proof.
  unfold after_integer.
  assert (Hbody : forall u,
    match u with
    | String c r0 =>
        if (byte c =? 48)%Z then Some r0
        else if is_digit c then Some (drop_digits r0) else None
    | EmptyString => None
    end = Some r ->
    exists pre, u = pre ++ r /\ all_chars is_number_char pre = true).
  { intros [|c r0]; [discriminate|].
    destruct (Z.eqb_spec (byte c) 48) as [E48|].
    - intros [= <-]. exists (String c ""). split; [reflexivity|].
      cbn [all_chars]. unfold is_number_char, is_digit. rewrite E48. reflexivity.
    - destruct (is_digit c) eqn:Ed; [| discriminate].
      intros [= <-]. destruct (drop_digits_split r0) as [pre [H1 H2]].
      exists (String c pre). split.
      + cbn [append]. now rewrite <- H1.
      + cbn [all_chars]. now rewrite (is_digit_number_char c Ed). }
  destruct t as [|c t']; [discriminate|].
  destruct (Z.eqb_spec (byte c) 45) as [E45|].
  - intros H. destruct (Hbody t' H) as [pre [H1 H2]].
    exists (String c pre). split.
    + cbn [append]. now rewrite <- H1.
    + cbn [all_chars]. rewrite H2. unfold is_number_char. rewrite E45.
      cbn. now rewrite orb_true_r.
  - exact (Hbody (String c t')).
Qed.

Lemma after_fraction_split (t r : string) :
  after_fraction t = Some r ->
  exists pre, t = pre ++ r /\ all_chars is_number_char pre = true.
Proof.
  unfold after_fraction. destruct t as [|p [|d r0]]; try discriminate.
  destruct (Z.eqb_spec (byte p) 46) as [E46|]; [| discriminate].
  destruct (is_digit d) eqn:Ed; [| discriminate].
  cbn [andb]. intros [= <-].
  destruct (drop_digits_split r0) as [pre [H1 H2]].
  exists (String p (String d pre)). split.
  - cbn [append]. now rewrite <- H1.
  - cbn [all_chars]. rewrite H2, (is_digit_number_char d Ed).
    unfold is_number_char. rewrite E46. cbn. now rewrite orb_true_r.
Qed.

Lemma after_exponent_split (t r : string) :
  after_exponent t = Some r ->
  exists pre, t = pre ++ r /\ all_chars is_number_char pre = true.
Proof.
  unfold after_exponent. destruct t as [|e r0]; [discriminate|].
  destruct ((byte e =? 101) || (byte e =? 69))%Z eqn:Ee; [| discriminate].
  assert (He : is_number_char e = true).
  { unfold is_number_char. apply orb_true_iff in Ee.
    destruct Ee as [-> | ->]; cbn; now rewrite ?orb_true_r. }
  assert (Hbody : forall u,
    match u with
    | String d r2 => if is_digit d then Some (drop_digits r2) else None
    | EmptyString => None
    end = Some r ->
    exists pre, u = pre ++ r /\ all_chars is_number_char pre = true).
  { intros [|d r2]; [discriminate|].
    destruct (is_digit d) eqn:Ed; [| discriminate].
    intros [= <-]. destruct (drop_digits_split r2) as [pre [H1 H2]].
    exists (String d pre). split.
    - cbn [append]. now rewrite <- H1.
    - cbn [all_chars]. now rewrite (is_digit_number_char d Ed). }
  destruct r0 as [|sg r1]; [discriminate|].
  - destruct ((byte sg =? 43) || (byte sg =? 45))%Z eqn:Es.
    + intros H. destruct (Hbody r1 H) as [pre [H1 H2]].
      exists (String e (String sg pre)). split.
      * cbn [append]. now rewrite <- H1.
      * cbn [all_chars]. rewrite H2, He.
        unfold is_number_char. apply orb_true_iff in Es.
        destruct Es as [-> | ->]; cbn; now rewrite ?orb_true_r.
    + intros H. destruct (Hbody (String sg r1) H) as [pre [H1 H2]].
      exists (String e pre). split.
      * cbn [append]. now rewrite <- H1.
      * cbn [all_chars]. now rewrite H2, He.
Qed.

(** A token of the number grammar is made of number characters. *)
Lemma number_kind_of_chars (t : string) (k : number_kind) :
  number_kind_of t = Some k -> all_chars is_number_char t = true.
Proof.
  unfold number_kind_of.
  destruct (after_integer t) as [r|] eqn:Ei; [| discriminate].
  destruct (after_integer_split t r Ei) as [p0 [-> H0]].
  assert (H1 : exists p1 r1, r = p1 ++ r1
                 /\ all_chars is_number_char p1 = true
                 /\ (let '(_, x) := match after_fraction r with
                                    | Some r1 => (true, r1)
                                    | None => (false, r)
                                    end in x) = r1).
  { destruct (after_fraction r) as [r1|] eqn:Ef.
    - destruct (after_fraction_split r r1 Ef) as [p1 [-> Hp1]].
      exists p1, r1. auto.
    - exists "", r. auto. }
  destruct H1 as (p1 & r1 & -> & Hp1 & Hr1).
  destruct (match after_fraction (p1 ++ r1) with
            | Some r2 => (true, r2)
            | None => (false, p1 ++ r1)
            end) as [has_fraction x]. subst x.
  destruct (after_exponent r1) as [r2|] eqn:Ee.
  - destruct (after_exponent_split r1 r2 Ee) as [p2 [-> Hp2]].
    destruct r2; [| discriminate]. intros _.
    rewrite !all_chars_app, H0, Hp1, Hp2. reflexivity.
  - destruct r1; [| discriminate]. intros _.
    rewrite !all_chars_app, H0, Hp1. reflexivity.
Qed.

(** A token of the number grammar starts with a digit, or with a minus
    and a digit. *)
Lemma number_kind_of_head (t : string) (k : number_kind) :
  number_kind_of t = Some k ->
  exists c t', t = String c t'
    /\ (is_digit c = true
        \/ (byte c = 45%Z /\ exists d t'', t' = String d t'' /\ is_digit d = true)).
Proof.
  unfold number_kind_of.
  destruct (after_integer t) as [r|] eqn:Ei; [| discriminate]. intros _.
  unfold after_integer in Ei.
  destruct t as [|c t']; [discriminate|].
  exists c, t'. split; [reflexivity|].
  destruct (Z.eqb_spec (byte c) 45) as [E45|].
  - right. split; [exact E45|].
    destruct t' as [|d t'']; [discriminate|].
    exists d, t''. split; [reflexivity|].
    destruct (Z.eqb_spec (byte d) 48) as [E48|].
    + unfold is_digit. rewrite E48. reflexivity.
    + destruct (is_digit d); [reflexivity | discriminate].
  - left. destruct (Z.eqb_spec (byte c) 48) as [E48|].
    + unfold is_digit. rewrite E48. reflexivity.
    + destruct (is_digit c); [reflexivity | discriminate].
Qed.

Lemma prefix_head_differs (a c : ascii) (p s : string) :
  a <> c -> String.prefix (String a p) (String c s) = false.
Proof.
  intros H. cbn [String.prefix].
  destruct (ascii_dec a c); [contradiction | reflexivity].
Qed.

Lemma byte_inj_neq (a c : ascii) : byte a <> byte c -> a <> c.
Proof. intros H E. apply H. now rewrite E. Qed.

Section NumberTokens.

Variable float_of_string : string -> option pyfloat.

(** A value that starts like a number is read by [scan_number]. *)
Lemma scan_value_number (fuel limit : nat) (t rest : string) (k : number_kind) :
  number_kind_of t = Some k ->
  scan_value float_of_string (S fuel) limit (t ++ rest)
  = scan_number float_of_string (t ++ rest).
Proof.
  intros Hk. destruct (number_kind_of_head t k Hk) as (c & t' & -> & Hc).
  cbn [append scan_value].
  assert (Hb : (byte c = 45 \/ 48 <= byte c <= 57)%Z).
  { destruct Hc as [Hd | [E _]]; [right | left; exact E].
    unfold is_digit in Hd. apply andb_true_iff in Hd.
    destruct Hd as [Ha Hb]. apply Z.leb_le in Ha. apply Z.leb_le in Hb. lia. }
  destruct (Z.eqb_spec (byte c) 34); [lia|].
  destruct (Z.eqb_spec (byte c) 123); [lia|].
  destruct (Z.eqb_spec (byte c) 91); [lia|].
  assert (Hne : forall a : ascii,
             (byte a <> 45)%Z -> (byte a < 48 \/ 57 < byte a)%Z -> a <> c).
  { intros a H1 H2. apply byte_inj_neq. lia. }
  rewrite (prefix_head_differs "n") by (apply Hne; cbn; lia).
  rewrite (prefix_head_differs "t") by (apply Hne; cbn; lia).
  rewrite (prefix_head_differs "f") by (apply Hne; cbn; lia).
  rewrite (prefix_head_differs "N") by (apply Hne; cbn; lia).
  rewrite (prefix_head_differs "I") by (apply Hne; cbn; lia).
  destruct Hc as [Hd | [E (d & t'' & -> & Hd)]].
  - rewrite prefix_head_differs; [reflexivity|].
    apply byte_inj_neq. change (byte "-") with 45%Z.
    unfold is_digit in Hd. apply andb_true_iff in Hd.
    destruct Hd as [Ha _]. apply Z.leb_le in Ha. lia.
  - cbn [append String.prefix]. destruct (ascii_dec "-" c); [| reflexivity].
    destruct (ascii_dec "I" d) as [<- |]; [discriminate | reflexivity].
Qed.

End NumberTokens.

(* ------------------------------------------------------------------ *)
(** ** Integers *)

Lemma string_of_uint_digits (d : Decimal.uint) :
  all_chars is_digit (NilEmpty.string_of_uint d) = true.
Proof. induction d; cbn [NilEmpty.string_of_uint all_chars]; auto. Qed.

Lemma drop_digits_all (s : string) :
  all_chars is_digit s = true -> drop_digits s = "".
Proof.
  induction s as [|c s IH]; [reflexivity|].
  cbn [all_chars drop_digits]. intros H. apply andb_true_iff in H.
  destruct H as [-> H]. auto.
Qed.

Lemma nzhead_head (d : Decimal.uint) :
  match Decimal.nzhead d with Decimal.D0 _ => False | _ => True end.
Proof. induction d; cbn; auto. Qed.

Lemma pos_to_uint_head (p : positive) : nonzero_head (Pos.to_uint p).
Proof.
  pose proof (DecimalPos.Unsigned.of_to p) as Hof.
  pose proof (DecimalPos.Unsigned.to_of (Pos.to_uint p)) as Hto.
  rewrite Hof in Hto. cbn [N.to_uint] in Hto.
  destruct (Pos.to_uint p) as [|d| | | | | | | | |]; cbn; auto.
  - discriminate.
  - unfold Decimal.unorm in Hto. cbn [Decimal.nzhead] in Hto.
    pose proof (nzhead_head d) as Hh.
    destruct (Decimal.nzhead d); try discriminate; try contradiction.
    injection Hto as Hd. subst d. cbn in Hof. discriminate.
Qed.

Lemma number_kind_of_digits (d : Decimal.uint) :
  nonzero_head d ->
  number_kind_of (NilEmpty.string_of_uint d) = Some IntegerToken
  /\ number_kind_of (String "-" (NilEmpty.string_of_uint d)) = Some IntegerToken.
Proof.
  intros Hd.
  destruct d; try contradiction;
    unfold number_kind_of, after_integer; cbn [NilEmpty.string_of_uint];
    cbn -[drop_digits after_fraction after_exponent];
    rewrite (drop_digits_all _ (string_of_uint_digits _)); split; reflexivity.
Qed.

Lemma decimal_kind (n : Z) : number_kind_of (decimal n) = Some IntegerToken.
Proof.
  unfold decimal. destruct n as [|p|p]; [reflexivity | |];
    cbn [Z.to_int NilZero.string_of_int];
    pose proof (pos_to_uint_head p) as Hh;
    destruct (number_kind_of_digits _ Hh) as [H1 H2];
    unfold NilZero.string_of_uint;
    destruct (Pos.to_uint p); try contradiction; assumption.
Qed.

Lemma decimal_read (n : Z) :
  option_map Z.of_int (NilZero.int_of_string (decimal n)) = Some n.
Proof.
  unfold decimal. rewrite NilZero.isi.
  - cbn [option_map]. now rewrite DecimalZ.of_to.
  - destruct n as [|p|p]; cbn [Z.to_int]; try discriminate.
    pose proof (pos_to_uint_head p) as Hh. intros [= E]. now rewrite E in Hh.
  - destruct n as [|p|p]; cbn [Z.to_int]; try discriminate.
    pose proof (pos_to_uint_head p) as Hh. intros [= E]. now rewrite E in Hh.
Qed.

Section Integers.

Variable float_of_string : string -> option pyfloat.

Lemma scan_value_int (fuel limit : nat) (n : Z) (rest : string) :
  integer_digits (decimal n) <= 4300 -> value_end rest ->
  scan_value float_of_string (S fuel) limit (decimal n ++ rest)
  = Some (JInt n, rest).
Proof.
  intros Hlen Hrest.
  rewrite (scan_value_number float_of_string fuel limit _ rest _ (decimal_kind n)).
  unfold scan_number.
  rewrite (span_number_token _ rest
             (number_kind_of_chars _ _ (decimal_kind n)) Hrest).
  rewrite (decimal_kind n).
  destruct (Nat.ltb_spec 4300 (integer_digits (decimal n))); [lia|].
  pose proof (decimal_read n) as Hread.
  destruct (NilZero.int_of_string (decimal n)); [| discriminate].
  cbn [option_map] in Hread. now injection Hread as ->.
Qed.

Lemma scan_value_float (fuel limit : nat) (x : pyfloat) (t rest : string) :
  number_kind_of t = Some FloatToken -> float_of_string t = Some x ->
  value_end rest ->
  scan_value float_of_string (S fuel) limit (t ++ rest) = Some (JFloat x, rest).
Proof.
  intros Hk Hx Hrest.
  rewrite (scan_value_number float_of_string fuel limit _ rest _ Hk).
  unfold scan_number.
  rewrite (span_number_token _ rest (number_kind_of_chars _ _ Hk) Hrest).
  now rewrite Hk, Hx.
Qed.

End Integers.

(* ------------------------------------------------------------------ *)
(** ** White space and layout *)

Lemma skip_whitespace_spaces (n : nat) (s : string) :
  skip_whitespace (str_repeat n " " ++ s) = skip_whitespace s.
Proof. induction n as [|n IH]; [reflexivity | exact IH]. Qed.

Lemma skip_whitespace_indent (level : nat) (s : string) :
  skip_whitespace (newline_indent level ++ s) = skip_whitespace s.
Proof.
  unfold newline_indent. rewrite str_app_assoc.
  change (nl ++ (str_repeat (2 * level) " " ++ s))
    with (String (ascii_of_nat 10) (str_repeat (2 * level) " " ++ s)).
  cbn [skip_whitespace].
  change (is_whitespace (ascii_of_nat 10)) with true. cbv iota.
  apply skip_whitespace_spaces.
Qed.

Lemma value_end_indent (level : nat) (s : string) :
  value_end (newline_indent level ++ s).
Proof. reflexivity. Qed.

Lemma starts_value_app (s tail : string) :
  starts_value s -> starts_value (s ++ tail).
Proof.
  intros (c & t & -> & H). exists c, (t ++ tail). split; [reflexivity | exact H].
Qed.

Lemma skip_whitespace_value (s : string) :
  starts_value s -> skip_whitespace s = s.
Proof. intros (c & t & -> & Hw & _). cbn [skip_whitespace]. now rewrite Hw. Qed.

Lemma starts_value_length (s : string) : starts_value s -> 1 <= String.length s.
Proof. intros (c & t & -> & _). cbn [String.length]. lia. Qed.

Lemma starts_value_number (t : string) (k : number_kind) :
  number_kind_of t = Some k -> starts_value t.
Proof.
  intros Hk. destruct (number_kind_of_head t k Hk) as (c & t' & -> & Hc).
  exists c, t'. split; [reflexivity|].
  assert (Hb : (byte c = 45 \/ 48 <= byte c <= 57)%Z).
  { destruct Hc as [Hd | [E _]]; [right | left; exact E].
    unfold is_digit in Hd. apply andb_true_iff in Hd.
    destruct Hd as [Ha Hb]. apply Z.leb_le in Ha. apply Z.leb_le in Hb. lia. }
  split; [| lia]. unfold is_whitespace.
  destruct (Z.eqb_spec (byte c) 32); [lia|].
  destruct (Z.eqb_spec (byte c) 9); [lia|].
  destruct (Z.eqb_spec (byte c) 10); [lia|].
  destruct (Z.eqb_spec (byte c) 13); [lia | reflexivity].
Qed.

Lemma starts_value_string (s : string) : starts_value (json_string s).
Proof.
  unfold json_string. eexists _, _. split; [reflexivity|]. split; [reflexivity|].
  discriminate.
Qed.

Lemma dict_set_fresh (k : string) (v : json) (d : dict) :
  ~ In k (map fst d) -> dict_set k v d = (d ++ [(k, v)])%list.
Proof.
  induction d as [|[k' v'] d IH]; intros Hk; [reflexivity|].
  cbn [dict_set app]. destruct (String.eqb_spec k k') as [-> | Hne].
  - exfalso. apply Hk. now left.
  - rewrite IH; [reflexivity|]. intros Hin. apply Hk. now right.
Qed.

(** Pairs with distinct keys make the [dict] with these pairs. *)
Lemma dict_of_pairs_distinct (pairs acc : dict) :
  NoDup (map fst (acc ++ pairs)%list) ->
  dict_of_pairs pairs acc = (acc ++ pairs)%list.
Proof.
  revert acc. induction pairs as [|[k v] pairs IH]; intros acc Hnd.
  - cbn [dict_of_pairs]. now rewrite app_nil_r.
  - cbn [dict_of_pairs].
    assert (Hfresh : ~ In k (map fst acc)).
    { rewrite map_app in Hnd. cbn [map fst] in Hnd.
      apply NoDup_remove_2 in Hnd. intros Hin. apply Hnd.
      apply in_or_app. now left. }
    rewrite (dict_set_fresh k v acc Hfresh).
    rewrite IH; rewrite <- app_assoc; [reflexivity | exact Hnd].
Qed.

(* ------------------------------------------------------------------ *)
(** ** Reading back what the serializer writes *)

Section RoundTrip.

Context {RT : Runtime}.

Variable float_of_string : string -> option pyfloat.

Lemma json_text_starts_value (level : nat) (v : json) :
  well_formed float_of_string v -> starts_value (json_text level v).
Proof.
  intros Hwf. destruct Hwf as [|b|n Hn|negative|q Hk Hq|s Hs|items _|fields _ _ _].
  - eexists _, _. repeat split. discriminate.
  - destruct b; eexists _, _; repeat split; discriminate.
  - exact (starts_value_number _ _ (decimal_kind n)).
  - destruct negative; eexists _, _; repeat split; discriminate.
  - exact (starts_value_number _ _ Hk).
  - apply starts_value_string.
  - destruct items; eexists _, _; repeat split; discriminate.
  - destruct fields; eexists _, _; repeat split; discriminate.
Qed.

Lemma reads_back_scalar (v : json) :
  well_formed float_of_string v -> depth v = 0 ->
  reads_back float_of_string v.
Proof.
  intros Hwf Hdepth level fuel limit rest Hfuel _ Hrest.
  pose proof (starts_value_length _ (json_text_starts_value level v Hwf)) as Hlen.
  destruct fuel as [|fuel]; [lia|].
  destruct Hwf as [|b|n Hn|negative|q Hk Hq|s Hs|items _|fields _ _ _];
    try discriminate.
  - destruct rest; reflexivity.
  - destruct b, rest; reflexivity.
  - now apply scan_value_int.
  - destruct negative, rest; reflexivity.
  - now apply scan_value_float.
  - cbn [json_text].
    destruct (scan_string_json_string s Hs) as [body [Hbody Hscan]].
    rewrite Hbody. unfold double_quote. cbn [append scan_value].
    change (byte (chr 34) =? 34)%Z with true. cbv iota.
    now rewrite Hscan.
Qed.

Lemma concat_map_cons {A : Type} (sep : string) (f : A -> string)
    (x y : A) (l : list A) :
  String.concat sep (map f (x :: y :: l))
  = f x ++ sep ++ String.concat sep (map f (y :: l)).
Proof. reflexivity. Qed.

Lemma scan_items_texts (level : nat) (items : list json) :
  forall (fuel limit : nat) (rest : string) (first : bool),
    items <> [] ->
    Forall (well_formed float_of_string) items ->
    Forall (reads_back float_of_string) items ->
    Forall (fun x => depth x <= limit) items ->
    String.length (String.concat (separator level)
                     (map (json_text (S level)) items)
                   ++ newline_indent level ++ "]") <= fuel ->
    scan_items float_of_string fuel limit
      (String.concat (separator level) (map (json_text (S level)) items)
       ++ newline_indent level ++ String "]" rest) first
    = Some (items, rest).
Proof.
  induction items as [|x items IH];
    intros fuel limit rest first Hne Hwf Hrb Hd Hfuel; [contradiction|].
  inversion Hwf as [|? ? Hwx Hwitems]; subst.
  inversion Hrb as [|? ? Hrx Hritems]; subst.
  inversion Hd as [|? ? Hdx Hditems]; subst.
  pose proof (json_text_starts_value (S level) x Hwx) as Hstart.
  pose proof (starts_value_length _ Hstart) as Hlen.
  destruct items as [|y items].
  - cbn [map String.concat] in Hfuel |- *.
    rewrite str_length_app in Hfuel.
    destruct fuel as [|fuel]; [lia|].
    destruct Hstart as (c & t & Et & Hw & H93).
    cbn [scan_items]. rewrite Et. cbn [append].
    destruct (Z.eqb_spec (byte c) 93); [contradiction|].
    rewrite andb_false_r.
    match goal with
    | |- context [scan_value _ _ _ (String c (t ++ ?tail))] =>
        change (String c (t ++ tail)) with (String c t ++ tail)
    end.
    rewrite <- Et.
    rewrite (Hrx (S level) fuel limit);
      [| rewrite str_length_app in Hfuel; cbn [String.length] in Hfuel; lia
       | exact Hdx | apply value_end_indent].
    rewrite skip_whitespace_indent. reflexivity.
  - rewrite concat_map_cons in Hfuel |- *.
    rewrite !str_app_assoc.
    rewrite !str_app_assoc in Hfuel. rewrite !str_length_app in Hfuel.
    change (String.length "]") with 1 in Hfuel.
    destruct fuel as [|fuel]; [lia|].
    destruct Hstart as (c & t & Et & Hw & H93).
    cbn [scan_items]. rewrite Et. cbn [append].
    destruct (Z.eqb_spec (byte c) 93); [contradiction|].
    rewrite andb_false_r.
    match goal with
    | |- context [scan_value _ _ _ (String c (t ++ ?tail))] =>
        change (String c (t ++ tail)) with (String c t ++ tail)
    end.
    rewrite <- Et.
    unfold separator at 1. rewrite str_app_assoc.
    rewrite (Hrx (S level) fuel limit); [| lia | exact Hdx | reflexivity].
    cbn [append skip_whitespace].
    change (is_whitespace ",") with false. cbv iota.
    change (byte "," =? 93)%Z with false.
    change (byte "," =? 44)%Z with true. cbv iota.
    rewrite skip_whitespace_indent.
    assert (Hnext : starts_value
              (String.concat (separator level)
                 (map (json_text (S level)) (y :: items)))).
    { inversion Hwitems as [|? ? Hwy _]; subst.
      pose proof (json_text_starts_value (S level) y Hwy) as Hy.
      destruct items; [exact Hy|].
      rewrite concat_map_cons. now apply starts_value_app. }
    rewrite (skip_whitespace_value _ (starts_value_app _ _ Hnext)).
    rewrite (IH fuel limit rest false);
      [reflexivity | discriminate | assumption ..|].
    rewrite !str_length_app. change (String.length "]") with 1. lia.
Qed.


Lemma starts_value_field (level : nat) (kv : string * json) :
  starts_value (field_text level kv).
Proof. apply starts_value_app, starts_value_string. Qed.

Lemma scan_fields_texts (level : nat) (fields : dict) :
  forall (fuel limit : nat) (rest : string) (first : bool),
    fields <> [] ->
    Forall (fun kv => is_text (fst kv) = true) fields ->
    Forall (fun kv => well_formed float_of_string (snd kv)) fields ->
    Forall (fun kv => reads_back float_of_string (snd kv)) fields ->
    Forall (fun kv => depth (snd kv) <= limit) fields ->
    String.length (String.concat (separator level)
                     (map (field_text level) fields)
                   ++ newline_indent level ++ "}") <= fuel ->
    scan_fields float_of_string fuel limit
      (String.concat (separator level) (map (field_text level) fields)
       ++ newline_indent level ++ String "}" rest) first
    = Some (fields, rest).
Proof.
  induction fields as [|[k v] fields IH];
    intros fuel limit rest first Hne Hkeys Hwf Hrb Hd Hfuel; [contradiction|].
  inversion Hkeys as [|? ? Hk Hkeys']; subst.
  inversion Hwf as [|? ? Hwv Hwf']; subst.
  inversion Hrb as [|? ? Hrv Hrb']; subst.
  inversion Hd as [|? ? Hdv Hd']; subst.
  cbn [fst snd] in Hk, Hwv, Hrv, Hdv.
  pose proof (json_text_starts_value (S level) v Hwv) as Hstart.
  pose proof (starts_value_length _ Hstart) as Hlen.
  destruct (scan_string_json_string k Hk) as [body [Hbody Hscan]].
  assert (Hfield : forall tail,
            field_text level (k, v) ++ tail
            = String (chr 34)
                (body ++ String ":" (String " " (json_text (S level) v ++ tail)))).
  { intros tail. unfold field_text. cbn [fst snd]. rewrite Hbody.
    unfold double_quote. now rewrite !str_app_assoc. }
  assert (Hflen : String.length (field_text level (k, v))
                  = 3 + String.length body + String.length (json_text (S level) v)).
  { unfold field_text. cbn [fst snd]. rewrite Hbody. unfold double_quote.
    rewrite !str_length_app. cbn [String.length]. lia. }
  assert (Hstep : forall fuel' tail,
    String.length (json_text (S level) v) <= fuel' ->
    value_end tail ->
    scan_fields float_of_string (S fuel') limit
      (field_text level (k, v) ++ tail) first
    = match skip_whitespace tail with
      | String d r3 =>
          if (byte d =? 125)%Z then Some ([(k, v)], r3)
          else if (byte d =? 44)%Z then
            match scan_fields float_of_string fuel' limit
                    (skip_whitespace r3) false with
            | Some (more, rest') => Some ((k, v) :: more, rest')
            | None => None
            end
          else None
      | EmptyString => None
      end).
  { intros fuel' tail Hf Htail. rewrite Hfield. cbn [scan_fields].
    change (byte (chr 34) =? 125)%Z with false. rewrite andb_false_r.
    change (negb (byte (chr 34) =? 34)%Z) with false. cbv iota.
    rewrite Hscan. cbn [skip_whitespace].
    change (is_whitespace ":") with false.
    change (is_whitespace " ") with true. cbv iota.
    change (negb (byte ":" =? 58)%Z) with false. cbv iota.
    change (skip_whitespace (String " " (json_text (S level) v ++ tail)))
      with (skip_whitespace (json_text (S level) v ++ tail)).
    rewrite (skip_whitespace_value _ (starts_value_app _ tail Hstart)).
    now rewrite (Hrv (S level) fuel' limit tail Hf Hdv Htail). }
  destruct fields as [|kv fields].
  - cbn [map String.concat] in Hfuel |- *.
    rewrite !str_length_app, Hflen in Hfuel.
    change (String.length "}") with 1 in Hfuel.
    destruct fuel as [|fuel]; [lia|].
    rewrite Hstep; [| lia | apply value_end_indent].
    rewrite skip_whitespace_indent. reflexivity.
  - rewrite concat_map_cons in Hfuel |- *.
    rewrite !str_app_assoc.
    rewrite !str_app_assoc in Hfuel. rewrite !str_length_app, Hflen in Hfuel.
    change (String.length "}") with 1 in Hfuel.
    destruct fuel as [|fuel]; [lia|].
    rewrite Hstep; [| lia | reflexivity].
    unfold separator at 1. rewrite str_app_assoc.
    cbn [append skip_whitespace].
    change (is_whitespace ",") with false. cbv iota.
    change (byte "," =? 125)%Z with false.
    change (byte "," =? 44)%Z with true. cbv iota.
    rewrite skip_whitespace_indent.
    assert (Hnext : starts_value
              (String.concat (separator level)
                 (map (field_text level) (kv :: fields)))).
    { destruct fields; [apply starts_value_field|].
      rewrite concat_map_cons. apply starts_value_app, starts_value_field. }
    rewrite (skip_whitespace_value _ (starts_value_app _ _ Hnext)).
    rewrite (IH fuel limit rest false);
      [reflexivity | discriminate | assumption ..|].
    rewrite !str_length_app. change (String.length "}") with 1. lia.
Qed.

Lemma json_text_array (level : nat) (x : json) (items : list json) :
  json_text level (JArr (x :: items))
  = "[" ++ newline_indent (S level)
        ++ String.concat (separator level) (map (json_text (S level)) (x :: items))
        ++ newline_indent level ++ "]".
Proof. reflexivity. Qed.

Lemma json_text_object (level : nat) (kv : string * json) (fields : dict) :
  json_text level (JObj (kv :: fields))
  = "{" ++ newline_indent (S level)
        ++ String.concat (separator level) (map (field_text level) (kv :: fields))
        ++ newline_indent level ++ "}".
Proof. reflexivity. Qed.

Lemma fold_max_bound {A : Type} (f : A -> nat) (l : list A) (n : nat) :
  fold_right (fun x d => Nat.max (f x) d) 0 l <= n ->
  Forall (fun x => f x <= n) l.
Proof.
  induction l as [|x l IH]; intros H; constructor; cbn [fold_right] in H.
  - lia.
  - apply IH. lia.
Qed.

Lemma reads_back_array (items : list json) :
  Forall (well_formed float_of_string) items ->
  Forall (reads_back float_of_string) items ->
  reads_back float_of_string (JArr items).
Proof.
  intros Hwf Hrb level fuel limit rest Hfuel Hdepth Hrest.
  destruct limit as [|limit]; [cbn [depth] in Hdepth; lia|].
  cbn [depth] in Hdepth. apply le_S_n in Hdepth.
  apply fold_max_bound in Hdepth.
  destruct items as [|x items].
  - cbn [json_text String.length] in Hfuel.
    destruct fuel as [|[|fuel]]; try lia. reflexivity.
  - rewrite json_text_array in Hfuel |- *.
    rewrite !str_app_assoc.
    rewrite !str_length_app in Hfuel. change (String.length "[") with 1 in Hfuel.
    destruct fuel as [|fuel]; [lia|].
    cbn [append scan_value].
    change (byte "[" =? 34)%Z with false.
    change (byte "[" =? 123)%Z with false.
    change (byte "[" =? 91)%Z with true. cbv iota.
    rewrite skip_whitespace_indent.
    assert (Hnext : starts_value
              (String.concat (separator level)
                 (map (json_text (S level)) (x :: items)))).
    { inversion Hwf as [|? ? Hwx _]; subst.
      pose proof (json_text_starts_value (S level) x Hwx) as Hx.
      destruct items; [exact Hx|].
      rewrite concat_map_cons. now apply starts_value_app. }
    rewrite (skip_whitespace_value _ (starts_value_app _ _ Hnext)).
    rewrite (scan_items_texts level (x :: items) fuel limit rest true);
      [reflexivity | discriminate | assumption ..|].
    rewrite !str_length_app. lia.
Qed.

Lemma reads_back_object (fields : dict) :
  NoDup (map fst fields) ->
  Forall (fun kv => is_text (fst kv) = true) fields ->
  Forall (fun kv => well_formed float_of_string (snd kv)) fields ->
  Forall (fun kv => reads_back float_of_string (snd kv)) fields ->
  reads_back float_of_string (JObj fields).
Proof.
  intros Hnd Hkeys Hwf Hrb level fuel limit rest Hfuel Hdepth Hrest.
  destruct limit as [|limit]; [cbn [depth] in Hdepth; lia|].
  cbn [depth] in Hdepth. apply le_S_n in Hdepth.
  apply (fold_max_bound (fun kv => depth (snd kv))) in Hdepth.
  destruct fields as [|kv fields].
  - cbn [json_text String.length] in Hfuel.
    destruct fuel as [|[|fuel]]; try lia. reflexivity.
  - rewrite json_text_object in Hfuel |- *.
    rewrite !str_app_assoc.
    rewrite !str_length_app in Hfuel. change (String.length "{") with 1 in Hfuel.
    destruct fuel as [|fuel]; [lia|].
    cbn [append scan_value].
    change (byte "{" =? 34)%Z with false.
    change (byte "{" =? 123)%Z with true. cbv iota.
    rewrite skip_whitespace_indent.
    assert (Hnext : starts_value
              (String.concat (separator level)
                 (map (field_text level) (kv :: fields)))).
    { destruct fields; [apply starts_value_field|].
      rewrite concat_map_cons. apply starts_value_app, starts_value_field. }
    rewrite (skip_whitespace_value _ (starts_value_app _ _ Hnext)).
    rewrite (scan_fields_texts level (kv :: fields) fuel limit rest true);
      [| discriminate | assumption .. |].
    + now rewrite (dict_of_pairs_distinct (kv :: fields) []).
    + rewrite !str_length_app. lia.
Qed.

Lemma reads_back_depth (n : nat) :
  forall v,
    depth v <= n -> well_formed float_of_string v ->
    reads_back float_of_string v.
Proof.
  induction n as [|n IH]; intros v Hd Hwf.
  - apply reads_back_scalar; [exact Hwf | lia].
  - destruct Hwf as [|b|k Hk|negative|q Hk Hq|s Hs|items Hitems
                     |fields Hnd Hkeys Hfields].
    + apply reads_back_scalar; [constructor | reflexivity].
    + apply reads_back_scalar; [constructor | reflexivity].
    + apply reads_back_scalar; [now constructor | reflexivity].
    + apply reads_back_scalar; [constructor | reflexivity].
    + apply reads_back_scalar; [now constructor | reflexivity].
    + apply reads_back_scalar; [now constructor | reflexivity].
    + apply reads_back_array; [exact Hitems|].
      cbn [depth] in Hd. apply le_S_n in Hd. apply fold_max_bound in Hd.
      rewrite Forall_forall in *. intros x Hx. apply IH; auto.
    + apply reads_back_object; try assumption.
      cbn [depth] in Hd. apply le_S_n in Hd.
      apply (fold_max_bound (fun kv => depth (snd kv))) in Hd.
      rewrite Forall_forall in *. intros x Hx. apply IH; auto.
Qed.

(** [json.loads(json.dumps(v, indent=2)) == v] for a well-formed [v]
    within the reader's nesting limit. *)
Lemma json_loads_json_text (limit : nat) (v : json) :
  well_formed float_of_string v -> depth v <= limit ->
  json_loads float_of_string limit (json_text 0 v) = Some v.
Proof.
  intros Hwf Hd. unfold json_loads.
  rewrite (skip_whitespace_value _ (json_text_starts_value 0 v Hwf)).
  pose proof (reads_back_depth (depth v) v (le_n _) Hwf 0
                (S (String.length (json_text 0 v))) limit ""
                (Nat.le_succ_diag_r _) Hd I) as H.
  rewrite str_app_nil_r in H. rewrite H. reflexivity.
Qed.

End RoundTrip.

(* ================================================================== *)
(** * format_json with the full band list *)

(** C3.  When the requested band list is the list [ALL_BANDS],
    [format_json] serializes the document itself, with [json.dumps] and
    [indent=2], and [json.loads] reads the document back from the output:
    for a well-formed document (integers of at most 4300 digits, no NaN,
    floats that [float] reads back from their [repr], strings and keys of
    Unicode text, no key twice) nested no deeper than the recursion limit
    allows. *)
Theorem format_json_round_trip {RT : Runtime}
    (float_of_string : string -> option pyfloat) (limit : nat) (data : dict) :
  well_formed float_of_string (JObj data) ->
  depth (JObj data) <= limit ->
  exists out,
    format_json (RT := with_json_dumps RT) data ALL_BANDS = Ok out
    /\ out = json_text 0 (JObj data)
    /\ json_loads float_of_string limit out = Some (JObj data).
Proof.
  intros Hwf Hdepth. exists (json_text 0 (JObj data)).
  split; [reflexivity | split; [reflexivity|]].
  now apply json_loads_json_text.
Qed.

Lemma format_json_round_trip_witness :
  exists out,
    format_json (RT := with_json_dumps Sample.runtime)
      Sample.plain_document ALL_BANDS = Ok out
    /\ out = json_text (RT := Sample.runtime) 0 (JObj Sample.plain_document)
    /\ json_loads Sample.no_float 10 out = Some (JObj Sample.plain_document).
Proof.
  apply (format_json_round_trip (RT := Sample.runtime) Sample.no_float 10
           Sample.plain_document).
  - repeat first
      [ apply wf_obj | apply wf_arr | apply wf_str | apply wf_int
      | apply wf_null | apply wf_bool
      | apply Forall_cons | apply Forall_nil
      | apply NoDup_cons | apply NoDup_nil
      | reflexivity
      | (apply Nat.leb_le; vm_compute; reflexivity)
      | (cbn [map fst In]; intuition discriminate) ].
  - apply Nat.leb_le. reflexivity.
Defined.

(** C3, as the specification words it, fails: a band list that names the
    full canonical set in another order is not the list [ALL_BANDS], so
    the reduced object is serialized, and reading the output back gives
    a document without [source], [note] and [tags]. *)
Lemma format_json_reordered_bands :
  (forall band, In band ["40m"; "20m"; "15m"; "10m"] <-> In band ALL_BANDS)
  /\ exists out reduced,
       format_json (RT := with_json_dumps Sample.runtime)
         Sample.plain_document ["40m"; "20m"; "15m"; "10m"] = Ok out
       /\ json_loads Sample.no_float 10 out = Some (JObj reduced)
       /\ dict_keys reduced = ["updated"; "bands"; "solar"]
       /\ JObj reduced <> JObj Sample.plain_document.
Proof.
  split.
  - intros band. unfold ALL_BANDS. cbn [In]. tauto.
  - eexists. eexists. split; [reflexivity|].
    split; [vm_compute; reflexivity|].
    split; [reflexivity | discriminate].
Qed.
